(** * CVAT canvas models: the 2D canvas model and the 3D canvas view

    A shallow embedding of
    - [cvat-canvas/src/typescript/canvasModel.ts] ([CanvasModelImpl.activate]),
    - [cvat-canvas3d/src/typescript/canvas3dView.ts] ([Canvas3dViewImpl]: the
      pointer handlers, the per-frame gesture actions and the notifications),
    - [cvat-canvas3d/src/typescript/consts.ts].

    JavaScript numbers are idealised as rationals ([Q]): every double is a
    rational, and the arithmetic of the source ([*], [/], [+], [-], [<]) is
    read without rounding.  Division by zero, which gives [Infinity] or
    [NaN] in JavaScript, is excluded by hypothesis wherever a result depends
    on it.  The numeric kernels of three.js (quaternions, matrices,
    spherical coordinates) and the results of its ray caster are inputs of
    the model. *)

From Stdlib Require Import QArith Qfield Qminmax Qround Lqa ZArith List Bool String Lia.
Import ListNotations.

(* ================================================================== *)
(** ** The 2D canvas model ([canvasModel.ts]) *)
(* ================================================================== *)

Module CanvasModel.

Inductive UpdateReasons :=
| IMAGE_CHANGED | IMAGE_ZOOMED | IMAGE_FITTED | IMAGE_MOVED | GRID_UPDATED
| OBJECTS_UPDATED | SHAPE_ACTIVATED | SHAPE_FOCUSED
| FITTED_CANVAS
| DRAW_REASON | MERGE_REASON | SPLIT_REASON | GROUP_REASON | SELECT | CANCEL
| DRAG_CANVAS_REASON | ZOOM_CANVAS_REASON.

Inductive Mode :=
| IDLE | DRAG | RESIZE | DRAW | EDIT | MERGE | SPLIT | GROUP
| DRAG_CANVAS | ZOOM_CANVAS.

Definition Mode_eqb (a b : Mode) : bool :=
  match a, b with
  | IDLE, IDLE | DRAG, DRAG | RESIZE, RESIZE | DRAW, DRAW | EDIT, EDIT
  | MERGE, MERGE | SPLIT, SPLIT | GROUP, GROUP
  | DRAG_CANVAS, DRAG_CANVAS | ZOOM_CANVAS, ZOOM_CANVAS => true
  | _, _ => false
  end.

(** [number | null] *)
Record ActiveElement := mkActive {
  clientID : option Z;
  attributeID : option Z
}.

(** The fields of [CanvasModelImpl.data] that [activate] and the mode
    accessors read or write, together with the notifications the model
    has pushed to its listeners so far (oldest first). *)
Record Data := mkData {
  activeElement : ActiveElement;
  imageID : option Z;
  mode : Mode;
  notified : list UpdateReasons
}.

(** [Error(`Canvas is busy. Action: ${mode}`)] *)
Inductive Exception := CanvasIsBusy (action : Mode).

(** How a method call completes: the model object survives a throw, so
    the state after the call is part of both outcomes. *)
Inductive Completion := Returned | Thrown (e : Exception).

(** Modelled from the spec: [MasterImpl.notify] of [master.ts], which is
    not among the sources.  "Notifications are synchronous,
    single-threaded callbacks to subscribed observers (push model, not
    polling); one notification per logical state change, carrying a
    reason tag": one call delivers one reason, recorded here in order. *)
Definition notify (reason : UpdateReasons) (d : Data) : Data :=
  mkData (activeElement d) (imageID d) (mode d) (notified d ++ [reason]).

(** [public activate(clientID: number | null, attributeID: number | null)] *)
Definition activate (cid attr : option Z) (d : Data) : Completion * Data :=
  if negb (Mode_eqb (mode d) IDLE) && (match cid with Some _ => true | None => false end)
  then (Thrown (CanvasIsBusy (mode d)), d)
  else
    let d1 := mkData (mkActive cid attr) (imageID d) (mode d) (notified d) in
    (Returned, notify SHAPE_ACTIVATED d1).

(** [public set mode(value: Mode)] *)
Definition set_mode (value : Mode) (d : Data) : Data :=
  mkData (activeElement d) (imageID d) value (notified d).

End CanvasModel.

(* ================================================================== *)
(** ** The rest of the 2D canvas model ([canvasModel.ts]) *)
(* ================================================================== *)

Module CanvasModelImpl.

Import CanvasModel.

(** [FrameZoom.MIN = 0.1] and [FrameZoom.MAX = 10] *)
Definition FrameZoom_MIN : Q := 1 # 10.

Definition FrameZoom_MAX : Q := 10.

Inductive Rotation := ANTICLOCKWISE90 | CLOCKWISE90.

Record Size := mkSize {
  width : Q;
  height : Q
}.

Record FocusData := mkFocusData {
  focusClientID : Z;
  padding : Q
}.

(** [initialState] of a [DrawData], of which [draw] reads [shapeType]. *)
Record InitialState := mkInitialState {
  initialShapeType : option string
}.

Record DrawData := mkDrawData {
  enabled : bool;
  shapeType : option string;
  numberOfPoints : option Q;
  initialState : option InitialState
}.

(** [interface Geometry] *)
Record Geometry := mkGeometry {
  gImage : Size;
  gCanvas : Size;
  gGrid : Size;
  gTop : Q;
  gLeft : Q;
  gScale : Q;
  gOffset : Q;
  gAngle : Z
}.

(** [CanvasModelImpl.data]: [core] holds [activeElement], [imageID] and
    [mode] with the notifications delivered; angles are whole degrees;
    the image and the object states are given by number; [mergeData],
    [groupData] and [splitData] are their [enabled] flags. *)
Record Data := mkData {
  core : CanvasModel.Data;
  angle : Z;
  canvasSize : Size;
  image : option Z;
  imageOffset : Q;
  imageSize : Size;
  focusData : FocusData;
  gridSize : Size;
  left : Q;
  objects : list Z;
  rememberAngle : bool;
  scale : Q;
  top : Q;
  drawData : DrawData;
  mergeData : bool;
  groupData : bool;
  splitData : bool;
  selected : option Z
}.

(** What the methods throw. *)
Inductive Error :=
| Busy (action : Mode)
| NotInDragMode (action : Mode)
| NotInZoomMode (action : Mode)
| DrawingAlreadyStarted
| ShapeTypeNotSpecified
| PolygonTooFewPoints
| PolylineTooFewPoints.

Inductive Outcome := Done | Threw (e : Error).

(** The state [new CanvasModelImpl()] starts from. *)
Definition initialData : Data :=
  mkData (CanvasModel.mkData (mkActive None None) None IDLE [])
    0 (mkSize 0 0) None 0 (mkSize 0 0) (mkFocusData 0 0) (mkSize 100 100)
    0 [] false 1 0 (mkDrawData false None None None) false false false None.

Definition withCore (c : CanvasModel.Data) (d : Data) : Data :=
  mkData c (angle d) (canvasSize d) (image d) (imageOffset d) (imageSize d)
    (focusData d) (gridSize d) (left d) (objects d) (rememberAngle d) (scale d)
    (top d) (drawData d) (mergeData d) (groupData d) (splitData d) (selected d).

Definition withMode (m : Mode) (d : Data) : Data :=
  withCore (CanvasModel.set_mode m (core d)) d.

Definition withImageID (n : option Z) (d : Data) : Data :=
  withCore (CanvasModel.mkData (activeElement (core d)) n (CanvasModel.mode (core d))
              (notified (core d))) d.

Definition withPlacement (newScale newTop newLeft : Q) (d : Data) : Data :=
  mkData (core d) (angle d) (canvasSize d) (image d) (imageOffset d) (imageSize d)
    (focusData d) (gridSize d) newLeft (objects d) (rememberAngle d) newScale
    newTop (drawData d) (mergeData d) (groupData d) (splitData d) (selected d).

Definition withAngle (a : Z) (remember : bool) (d : Data) : Data :=
  mkData (core d) a (canvasSize d) (image d) (imageOffset d) (imageSize d)
    (focusData d) (gridSize d) (left d) (objects d) remember (scale d)
    (top d) (drawData d) (mergeData d) (groupData d) (splitData d) (selected d).

Definition withCanvas (sz : Size) (offset : Q) (d : Data) : Data :=
  mkData (core d) (angle d) sz (image d) offset (imageSize d)
    (focusData d) (gridSize d) (left d) (objects d) (rememberAngle d) (scale d)
    (top d) (drawData d) (mergeData d) (groupData d) (splitData d) (selected d).

Definition withImage (i : option Z) (d : Data) : Data :=
  mkData (core d) (angle d) (canvasSize d) i (imageOffset d) (imageSize d)
    (focusData d) (gridSize d) (left d) (objects d) (rememberAngle d) (scale d)
    (top d) (drawData d) (mergeData d) (groupData d) (splitData d) (selected d).

Definition withImageSize (sz : Size) (d : Data) : Data :=
  mkData (core d) (angle d) (canvasSize d) (image d) (imageOffset d) sz
    (focusData d) (gridSize d) (left d) (objects d) (rememberAngle d) (scale d)
    (top d) (drawData d) (mergeData d) (groupData d) (splitData d) (selected d).

Definition withObjects (l : list Z) (d : Data) : Data :=
  mkData (core d) (angle d) (canvasSize d) (image d) (imageOffset d) (imageSize d)
    (focusData d) (gridSize d) (left d) l (rememberAngle d) (scale d)
    (top d) (drawData d) (mergeData d) (groupData d) (splitData d) (selected d).

Definition withFocusData (f : FocusData) (d : Data) : Data :=
  mkData (core d) (angle d) (canvasSize d) (image d) (imageOffset d) (imageSize d)
    f (gridSize d) (left d) (objects d) (rememberAngle d) (scale d)
    (top d) (drawData d) (mergeData d) (groupData d) (splitData d) (selected d).

Definition withGridSize (g : Size) (d : Data) : Data :=
  mkData (core d) (angle d) (canvasSize d) (image d) (imageOffset d) (imageSize d)
    (focusData d) g (left d) (objects d) (rememberAngle d) (scale d)
    (top d) (drawData d) (mergeData d) (groupData d) (splitData d) (selected d).

Definition withDrawData (dd : DrawData) (d : Data) : Data :=
  mkData (core d) (angle d) (canvasSize d) (image d) (imageOffset d) (imageSize d)
    (focusData d) (gridSize d) (left d) (objects d) (rememberAngle d) (scale d)
    (top d) dd (mergeData d) (groupData d) (splitData d) (selected d).

Definition withMergeData (b : bool) (d : Data) : Data :=
  mkData (core d) (angle d) (canvasSize d) (image d) (imageOffset d) (imageSize d)
    (focusData d) (gridSize d) (left d) (objects d) (rememberAngle d) (scale d)
    (top d) (drawData d) b (groupData d) (splitData d) (selected d).

Definition withGroupData (b : bool) (d : Data) : Data :=
  mkData (core d) (angle d) (canvasSize d) (image d) (imageOffset d) (imageSize d)
    (focusData d) (gridSize d) (left d) (objects d) (rememberAngle d) (scale d)
    (top d) (drawData d) (mergeData d) b (splitData d) (selected d).

Definition withSplitData (b : bool) (d : Data) : Data :=
  mkData (core d) (angle d) (canvasSize d) (image d) (imageOffset d) (imageSize d)
    (focusData d) (gridSize d) (left d) (objects d) (rememberAngle d) (scale d)
    (top d) (drawData d) (mergeData d) (groupData d) b (selected d).

Definition withSelected (o : option Z) (d : Data) : Data :=
  mkData (core d) (angle d) (canvasSize d) (image d) (imageOffset d) (imageSize d)
    (focusData d) (gridSize d) (left d) (objects d) (rememberAngle d) (scale d)
    (top d) (drawData d) (mergeData d) (groupData d) (splitData d) o.

Definition mode (d : Data) : Mode := CanvasModel.mode (core d).

Definition imageID (d : Data) : option Z := CanvasModel.imageID (core d).

(** The reasons delivered to the listeners so far. *)
Definition notified (d : Data) : list UpdateReasons := CanvasModel.notified (core d).

(** [this.notify(reason)] *)
Definition notify (reason : UpdateReasons) (d : Data) : Data :=
  withCore (CanvasModel.notify reason (core d)) d.

(** *** Numbers *)

(** [a < b] *)
Definition ltb (a b : Q) : bool := negb (Qle_bool b a).

(** The integer part of a number, towards zero. *)
Definition truncate (q : Q) : Z := if ltb q 0 then Qceiling q else Qfloor q.

(** [a % b] *)
Definition remainder (a b : Q) : Q := a - b * inject_Z (truncate (a / b)).

(** [Math.min(Math.max(x, FrameZoom.MIN), FrameZoom.MAX)] *)
Definition clampZoom (x : Q) : Q := Qmin (Qmax x FrameZoom_MIN) FrameZoom_MAX.

(** The test [(angle / 90) % 2]: the image lies on its side. *)
Definition onItsSide (a : Z) : bool :=
  negb (Qeq_bool (remainder (inject_Z a / 90) 2) 0).

(** *** Moving and scaling the image *)

(** [public zoom(x: number, y: number, direction: number)];
    [sinPlusCos angle] is
    [Math.sin(angle * Math.PI / 180) + Math.cos(angle * Math.PI / 180)]. *)
Definition zoom (sinPlusCos : Z -> Q) (x y direction : Q) (d : Data) : Data :=
  let oldScale := scale d in
  let newScale := if ltb 0 direction then oldScale * 6 / 5 else oldScale * 5 / 6 in
  let sc := clampZoom newScale in
  let mutiplier := sinPlusCos (angle d) in
  let dx := mutiplier * ((x - width (imageSize d) / 2) * (oldScale / sc - 1)) * sc in
  let dy := mutiplier * ((y - height (imageSize d) / 2) * (oldScale / sc - 1)) * sc in
  notify IMAGE_ZOOMED
    (if onItsSide (angle d)
     then withPlacement sc (top d + dx) (left d - dy) d
     else withPlacement sc (top d + dy) (left d + dx) d).

(** [public move(topOffset: number, leftOffset: number)] *)
Definition move (topOffset leftOffset : Q) (d : Data) : Data :=
  notify IMAGE_MOVED (withPlacement (scale d) (top d + topOffset) (left d + leftOffset) d).

(** [Math.floor(Math.max(height / FrameZoom.MIN, width / FrameZoom.MIN))] *)
Definition offsetFor (sz : Size) : Q :=
  inject_Z (Qfloor (Qmax (height sz / FrameZoom_MIN) (width sz / FrameZoom_MIN))).

(** [public fitCanvas(width: number, height: number)] *)
Definition fitCanvas (w h : Q) (d : Data) : Data :=
  let sz := mkSize w h in
  notify OBJECTS_UPDATED (notify FITTED_CANVAS (withCanvas sz (offsetFor sz) d)).

(** [public fit()] *)
Definition fit (d : Data) : Data :=
  let cs := canvasSize d in
  let im := imageSize d in
  let sc :=
    if onItsSide (angle d)
    then Qmin (width cs / height im) (height cs / width im)
    else Qmin (width cs / width im) (height cs / height im) in
  notify IMAGE_FITTED
    (withPlacement (clampZoom sc)
       (height cs / 2 - height im / 2) (width cs / 2 - width im / 2) d).

(** [public rotate(rotation: Rotation, remember: boolean = false)]; on
    whole degrees [%] is the remainder of the division towards zero. *)
Definition rotate (rotation : Rotation) (remember : bool) (d : Data) : Data :=
  let a := match rotation with
           | CLOCKWISE90 => (angle d + 90)%Z
           | ANTICLOCKWISE90 => (angle d - 90)%Z
           end in
  fit (withAngle (Z.rem a 360) remember d).

(** [public focus(clientID: number, padding: number)] *)
Definition focus (clientID : Z) (pad : Q) (d : Data) : Data :=
  notify SHAPE_FOCUSED (withFocusData (mkFocusData clientID pad) d).

(** [public grid(stepX: number, stepY: number)] *)
Definition grid (stepX stepY : Q) (d : Data) : Data :=
  notify GRID_UPDATED (withGridSize (mkSize stepX stepY) d).

(** [public get geometry(): Geometry] *)
Definition get_geometry (d : Data) : Geometry :=
  mkGeometry (imageSize d) (canvasSize d) (gridSize d) (top d) (left d) (scale d)
    (imageOffset d) (angle d).

(** [public set geometry(geometry: Geometry)] *)
Definition set_geometry (g : Geometry) (d : Data) : Data :=
  mkData (core d) (gAngle g) (gCanvas g) (image d) (offsetFor (gCanvas g)) (gImage g)
    (focusData d) (gGrid g) (gLeft g) (objects d) (rememberAngle d) (gScale g)
    (gTop g) (drawData d) (mergeData d) (groupData d) (splitData d) (selected d).

(** *** Modes *)

Definition isMode (m : Mode) (d : Data) : bool := Mode_eqb (mode d) m.

(** [public dragCanvas(enable: boolean)] *)
Definition dragCanvas (enable : bool) (d : Data) : Outcome * Data :=
  if enable && negb (isMode IDLE d) then (Threw (Busy (mode d)), d)
  else if negb enable && negb (isMode DRAG_CANVAS d) then (Threw (NotInDragMode (mode d)), d)
  else (Done, notify DRAG_CANVAS_REASON
                (withMode (if enable then DRAG_CANVAS else IDLE) d)).

(** [public zoomCanvas(enable: boolean)] *)
Definition zoomCanvas (enable : bool) (d : Data) : Outcome * Data :=
  if enable && negb (isMode IDLE d) then (Threw (Busy (mode d)), d)
  else if negb enable && negb (isMode ZOOM_CANVAS d) then (Threw (NotInZoomMode (mode d)), d)
  else (Done, notify ZOOM_CANVAS_REASON
                (withMode (if enable then ZOOM_CANVAS else IDLE) d)).

(** [activate] on the whole model. *)
Definition activate (cid attr : option Z) (d : Data) : Outcome * Data :=
  match CanvasModel.activate cid attr (core d) with
  | (Returned, c) => (Done, withCore c d)
  | (Thrown (CanvasIsBusy m), c) => (Threw (Busy m), withCore c d)
  end.

(** *** Frames *)

(** [public setup(frameData: any, objectStates: any[])] up to the call of
    [frameData.data]; [number] is [frameData.number]. *)
Definition setup (number : Z) (objectStates : list Z) (d : Data) : Data :=
  match imageID d with
  | Some current =>
      if Z.eqb number current
      then notify OBJECTS_UPDATED (withObjects objectStates d)
      else withImageID (Some number) d
  | None => withImageID (Some number) d
  end.

(** The callback [setup] hands to [frameData.data], run when the frame
    has to be requested from the server. *)
Definition onServerRequest (d : Data) : Data :=
  notify IMAGE_CHANGED (withImage None d).

(** The [then] callback of [setup], run with the image [data] of the
    frame [number], of size [frameWidth] by [frameHeight]. *)
Definition onFrameData (number : Z) (frameWidth frameHeight : Q)
    (objectStates : list Z) (data : Z) (d : Data) : Data :=
  match imageID d with
  | Some current =>
      if Z.eqb number current then
        let d1 := if rememberAngle d then d else withAngle 0 (rememberAngle d) d in
        let d2 := withImage (Some data) (withImageSize (mkSize frameWidth frameHeight) d1) in
        notify OBJECTS_UPDATED (withObjects objectStates (notify IMAGE_CHANGED d2))
      else d
  | None => d
  end.

(** *** Drawing, splitting, grouping, merging *)

(** A string or [undefined] as a condition. *)
Definition truthy (s : option string) : bool :=
  match s with
  | Some t => negb (String.eqb t EmptyString)
  | None => false
  end.

Definition isShape (name : string) (s : option string) : bool :=
  match s with
  | Some t => String.eqb t name
  | None => false
  end.

Definition present {A : Type} (o : option A) : bool :=
  match o with
  | Some _ => true
  | None => false
  end.

(** The checks of [draw] on an enabling request. *)
Definition drawError (current requested : DrawData) : option Error :=
  if enabled requested then
    if enabled current then Some DrawingAlreadyStarted
    else if negb (truthy (shapeType requested)) && negb (present (initialState requested))
    then Some ShapeTypeNotSpecified
    else match numberOfPoints requested with
         | Some n =>
             if isShape "polygon" (shapeType requested) && ltb n 3
             then Some PolygonTooFewPoints
             else if isShape "polyline" (shapeType requested) && ltb n 2
             then Some PolylineTooFewPoints
             else None
         | None => None
         end
  else None.

(** [public draw(drawData: DrawData)] *)
Definition draw (requested : DrawData) (d : Data) : Outcome * Data :=
  if negb (isMode IDLE d || isMode DRAW d) then (Threw (Busy (mode d)), d)
  else match drawError (drawData d) requested with
       | Some e => (Threw e, d)
       | None =>
           let copy :=
             match initialState requested with
             | Some st => mkDrawData (enabled requested) (initialShapeType st)
                            (numberOfPoints requested) (initialState requested)
             | None => requested
             end in
           (Done, notify DRAW_REASON (withDrawData copy d))
       end.

(** [public split(splitData: SplitData)] *)
Definition split (requested : bool) (d : Data) : Outcome * Data :=
  if negb (isMode IDLE d || isMode SPLIT d) then (Threw (Busy (mode d)), d)
  else if splitData d && requested then (Done, d)
  else if negb (splitData d) && negb requested then (Done, d)
  else (Done, notify SPLIT_REASON (withSplitData requested d)).

(** [public group(groupData: GroupData)] *)
Definition group (requested : bool) (d : Data) : Outcome * Data :=
  if negb (isMode IDLE d || isMode GROUP d) then (Threw (Busy (mode d)), d)
  else if groupData d && requested then (Done, d)
  else if negb (groupData d) && negb requested then (Done, d)
  else (Done, notify GROUP_REASON (withGroupData requested d)).

(** [public merge(mergeData: MergeData)] *)
Definition merge (requested : bool) (d : Data) : Outcome * Data :=
  if negb (isMode IDLE d || isMode MERGE d) then (Threw (Busy (mode d)), d)
  else if mergeData d && requested then (Done, d)
  else if negb (mergeData d) && negb requested then (Done, d)
  else (Done, notify MERGE_REASON (withMergeData requested d)).

(** [public select(objectState: any)] *)
Definition select (objectState : Z) (d : Data) : Data :=
  withSelected None (notify SELECT (withSelected (Some objectState) d)).

(** [public cancel()] *)
Definition cancel (d : Data) : Data := notify CANCEL d.

(** *** Sample models *)

(** A 800 by 600 image in a 400 by 300 canvas, at scale 1. *)
Definition sampleData : Data :=
  mkData (CanvasModel.mkData (mkActive None None) (Some 4%Z) IDLE [])
    0 (mkSize 400 300) (Some 40%Z) 4000 (mkSize 800 600) (mkFocusData 0 0)
    (mkSize 100 100) 0 [] false 1 0 (mkDrawData false None None None)
    false false false None.

(** A request to draw a polygon of four points, and one to stop drawing. *)
Definition sampleDraw : DrawData := mkDrawData true (Some "polygon"%string) (Some 4) None.

Definition sampleStop : DrawData := mkDrawData false None None None.

(** [Math.sin + Math.cos] at the multiples of 90 degrees. *)
Definition sampleSinPlusCos (a : Z) : Q :=
  if Z.eqb (Z.rem a 360) 0 then 1
  else if Z.eqb (Z.rem a 360) 90 || Z.eqb (Z.rem a 360) (-270) then 1
  else -1.

End CanvasModelImpl.

(* ================================================================== *)
(** ** The part of three.js the 3D view relies on *)
(* ================================================================== *)

Module THREE.

Record Vector2 := vec2 { v2x : Q; v2y : Q }.

Record Vector3 := vec3 { vx : Q; vy : Q; vz : Q }.

Inductive Axis := AxisX | AxisY | AxisZ.

(** The orientation of an [Object3D]: the Euler angles it was last given
    ([rotation.set], [setRotationFromEuler]) and the rotations about its
    own axes applied since ([rotateX], [rotateY], [rotateZ]), oldest
    first.  three.js keeps the product as a quaternion; the product itself
    needs sines and cosines and is not computed here. *)
Record Orientation := mkOrientation {
  euler : Vector3;
  turns : list (Axis * Q)
}.

Definition setEuler (e : Vector3) : Orientation := mkOrientation e [].

(** [Object3D.rotateOnAxis(axis, angle)], the body of [rotateX], [rotateY]
    and [rotateZ]: a further rotation in object space. *)
Definition rotateOnAxis (a : Axis) (angle : Q) (o : Orientation) : Orientation :=
  mkOrientation (euler o) (turns o ++ [(a, angle)]).

Definition rotateX := rotateOnAxis AxisX.
Definition rotateY := rotateOnAxis AxisY.
Definition rotateZ := rotateOnAxis AxisZ.

(** [Math.PI] is the double 0x400921FB54442D18, that is
    884279719003555 / 2^48. *)
Definition Math_PI : Q := 884279719003555 # 281474976710656.

Definition origin : Vector3 := vec3 0 0 0.

Definition unit3 : Vector3 := vec3 1 1 1.

End THREE.

(* ================================================================== *)
(** ** Constants ([consts.ts]) *)
(* ================================================================== *)

Module CONST.

Definition ROTATION_SPEED : Q := 80.

Definition ZOOM_FACTOR : Q := 7.

Definition CUBOID_EDGE_NAME : string := "edges".

Definition ROTATION_HELPER : string := "rotationHelper".

End CONST.

(* ================================================================== *)
(** ** The 3D canvas view ([canvas3dView.ts]) *)
(* ================================================================== *)

Module Canvas3dView.

Import THREE.

(** The members of [ViewType] that the gesture code receives: the pointer
    handlers are bound to ['top'], ['side'] and ['front'] only, and
    [render] runs the gesture actions under [view !== ViewType.PERSPECTIVE].
    The [default:] arms of the [switch (view)] statements are therefore
    not reached from these entry points. *)
Inductive ViewType := TOP | SIDE | FRONT.

Definition ViewType_eqb (a b : ViewType) : bool :=
  match a, b with
  | TOP, TOP | SIDE, SIDE | FRONT, FRONT => true
  | _, _ => false
  end.

(** Modelled from the spec: the [Mode] enumeration of [canvas3dModel.ts],
    which is not among the sources.  "[setMode(mode)]: one of {IDLE, DRAW,
    EDIT/INTERACT}"; the view also tests [Mode.DRAG_CANVAS]. *)
Inductive Mode := IDLE | DRAW | EDIT | INTERACT | DRAG_CANVAS.

Definition Mode_eqb (a b : Mode) : bool :=
  match a, b with
  | IDLE, IDLE | DRAW, DRAW | EDIT, EDIT | INTERACT, INTERACT
  | DRAG_CANVAS, DRAG_CANVAS => true
  | _, _ => false
  end.

(** An object state as the view reads it: [clientID], [lock], [hidden]
    and the 16-element [points]. *)
Record ObjectState := mkObjectState {
  clientID : Z;
  lock : bool;
  hidden : bool;
  points : list Q
}.

(** A helper mesh attached to a cuboid mesh (an edge, a resize handle,
    the rotation handle). *)
Record Child := mkChild {
  childName : string;
  childScale : Vector3
}.

(** A [THREE.Mesh] of a cuboid.  [name] is [Number(mesh.name)]: the
    meshes are named by [String(clientID)]. *)
Record Mesh := mkMesh {
  position : Vector3;
  scale : Vector3;
  rotation : Orientation;
  name : Z;
  children : list Child;
  userData : option ObjectState
}.

(** [CubeObject] / [CuboidModel]: one mesh per view. *)
Record CuboidModel := mkCuboid {
  perspective : Mesh;
  top : Mesh;
  side : Mesh;
  front : Mesh
}.

(** An orthographic camera; [camParent] is the view whose mesh of the
    selected cuboid the camera is attached to, if any. *)
Record Camera := mkCamera {
  camPosition : Vector3;
  camRotation : Orientation;
  camScale : Vector3;
  camParent : option ViewType
}.

(** A reference plane of an orthographic view. *)
Record Plane := mkPlane {
  planePosition : Vector3;
  planeRotation : Orientation
}.

(** What a scene holds: the point cloud, whose children are the cuboid
    meshes (given here by name), and the reference plane found by
    [getObjectByName(Planes.X)]. *)
Record Scene := mkScene {
  cloud : option (list Z);
  refPlane : option Plane
}.

Definition emptyScene : Scene := mkScene None None.

Record RenderView := mkRenderView {
  scene : Scene;
  camera : Camera;
  controlsEnabled : bool;
  mouseVector : Vector2
}.

Record Views := mkViews {
  viewPerspective : RenderView;
  viewTop : RenderView;
  viewSide : RenderView;
  viewFront : RenderView
}.

Record TranslationAction := mkTranslation {
  translationStatus : bool;
  translationHelper : option Vector2;
  coordinates : option Vector3
}.

(** [screenInit] and [screenMove] are absent ([None]) after [resetActions]
    has replaced the record by [{ status, helper }]. *)
Record RotationAction := mkRotation {
  rotationStatus : bool;
  rotationHelper : option Vector2;
  screenInit : option Vector2;
  screenMove : option Vector2
}.

Record ResizeAction := mkResize {
  resizeStatus : bool;
  resizeHelper : option Vector2;
  initScales : Vector3;
  memScales : Vector3;
  resizeVector : Vector3
}.

Record Action := mkAction {
  scan : option ViewType;
  detected : bool;
  initialMouseVector : Vector2;
  translation : TranslationAction;
  actRotation : RotationAction;
  resize : ResizeAction
}.

(** The events the view dispatches on the perspective canvas. *)
Inductive CanvasEvent :=
| CanvasSetup
| CanvasSelected (id : option Z)
| CanvasEdited (state : option ObjectState) (pts : list Q)
| CanvasDrawn (frame : option Z) (pts : list Q)
| CanvasCanceled
| CanvasDragStart
| CanvasDragStop
| CanvasFit.

(** What the view does that is visible from outside, in the order it
    does it. *)
Inductive Effect :=
| SceneCleared
| LoadStarted (url : Z)
| UrlRevoked (url : Z)
| Dispatched (e : CanvasEvent).

(** The state of [Canvas3dViewImpl] with the parts of the model and of the
    controller it reads and writes.  [image] is [model.data.image] (the
    payload, by number), [loading] the point-cloud loads [PCDLoader.load]
    has started whose callback has not run yet, [trace] the effects so
    far, oldest first. *)
Record State := mkState {
  mode : Mode;
  drawEnabled : bool;
  image : option Z;
  imageID : option Z;
  objects : list ObjectState;
  activeElement : option Z;
  selected : option CuboidModel;
  cube : CuboidModel;
  views : Views;
  action : Action;
  loading : list Z;
  trace : list Effect
}.

(** The layout of a canvas element, read from the DOM by the handlers. *)
Record Canvas := mkCanvas {
  rectLeft : Q;
  rectTop : Q;
  clientWidth : Q;
  clientHeight : Q;
  offsetLeft : Q;
  offsetTop : Q;
  offsetWidth : Q;
  offsetHeight : Q
}.

Record MouseEvent := mkMouseEvent {
  clientX : Q;
  clientY : Q
}.

(** What a ray cast can be aimed at. *)
Inductive Target :=
| ResizeHelpers (v : ViewType)
| RotationHelper (v : ViewType)
| Body (v : ViewType)
| ReferencePlane (v : ViewType).

(** [rayCaster.renderer.intersectObjects]: the intersection points, the
    nearest first. *)
Definition RayCaster := Target -> list Vector3.

(** A call either returns or throws a [TypeError] (a property of [null]
    or [undefined] is read). *)
Inductive Result (A : Type) :=
| Ok (a : A)
| TypeError.

Arguments Ok {A} a.
Arguments TypeError {A}.

Definition bind {A B : Type} (r : Result A) (f : A -> Result B) : Result B :=
  match r with
  | Ok a => f a
  | TypeError => TypeError
  end.

Definition defined {A : Type} (o : option A) : Result A :=
  match o with
  | Some a => Ok a
  | None => TypeError
  end.

Notation "x <- c ;; k" := (bind c (fun x => k))
  (at level 61, c at next level, right associativity).

(** *** Access to the per-view parts *)

Definition getView (v : ViewType) (vs : Views) : RenderView :=
  match v with
  | TOP => viewTop vs
  | SIDE => viewSide vs
  | FRONT => viewFront vs
  end.

Definition setView (v : ViewType) (rv : RenderView) (vs : Views) : Views :=
  match v with
  | TOP => mkViews (viewPerspective vs) rv (viewSide vs) (viewFront vs)
  | SIDE => mkViews (viewPerspective vs) (viewTop vs) rv (viewFront vs)
  | FRONT => mkViews (viewPerspective vs) (viewTop vs) (viewSide vs) rv
  end.

(** [selected[view]] *)
Definition meshOf (v : ViewType) (c : CuboidModel) : Mesh :=
  match v with
  | TOP => top c
  | SIDE => side c
  | FRONT => front c
  end.

Definition withScene (sc : Scene) (rv : RenderView) : RenderView :=
  mkRenderView sc (camera rv) (controlsEnabled rv) (mouseVector rv).

Definition withCamera (c : Camera) (rv : RenderView) : RenderView :=
  mkRenderView (scene rv) c (controlsEnabled rv) (mouseVector rv).

Definition withControls (b : bool) (rv : RenderView) : RenderView :=
  mkRenderView (scene rv) (camera rv) b (mouseVector rv).

Definition withMouseVector (m : Vector2) (rv : RenderView) : RenderView :=
  mkRenderView (scene rv) (camera rv) (controlsEnabled rv) m.

Definition withPosition (p : Vector3) (m : Mesh) : Mesh :=
  mkMesh p (scale m) (rotation m) (name m) (children m) (userData m).

Definition withScale (sc : Vector3) (m : Mesh) : Mesh :=
  mkMesh (position m) sc (rotation m) (name m) (children m) (userData m).

Definition withRotation (o : Orientation) (m : Mesh) : Mesh :=
  mkMesh (position m) (scale m) o (name m) (children m) (userData m).

Definition withChildren (cs : list Child) (m : Mesh) : Mesh :=
  mkMesh (position m) (scale m) (rotation m) (name m) cs (userData m).

Definition withViews (vs : Views) (s : State) : State :=
  mkState (mode s) (drawEnabled s) (image s) (imageID s) (objects s)
    (activeElement s) (selected s) (cube s) vs (action s) (loading s) (trace s).

Definition withAction (a : Action) (s : State) : State :=
  mkState (mode s) (drawEnabled s) (image s) (imageID s) (objects s)
    (activeElement s) (selected s) (cube s) (views s) a (loading s) (trace s).

Definition withSelected (c : option CuboidModel) (s : State) : State :=
  mkState (mode s) (drawEnabled s) (image s) (imageID s) (objects s)
    (activeElement s) c (cube s) (views s) (action s) (loading s) (trace s).

Definition withMode (m : Mode) (s : State) : State :=
  mkState m (drawEnabled s) (image s) (imageID s) (objects s)
    (activeElement s) (selected s) (cube s) (views s) (action s) (loading s) (trace s).

Definition withDrawEnabled (b : bool) (s : State) : State :=
  mkState (mode s) b (image s) (imageID s) (objects s)
    (activeElement s) (selected s) (cube s) (views s) (action s) (loading s) (trace s).

Definition withLoading (l : list Z) (s : State) : State :=
  mkState (mode s) (drawEnabled s) (image s) (imageID s) (objects s)
    (activeElement s) (selected s) (cube s) (views s) (action s) l (trace s).

Definition emit (e : Effect) (s : State) : State :=
  mkState (mode s) (drawEnabled s) (image s) (imageID s) (objects s)
    (activeElement s) (selected s) (cube s) (views s) (action s) (loading s)
    (trace s ++ [e]).

(** [private dispatchEvent(event: CustomEvent)] *)
Definition dispatchEvent (e : CanvasEvent) (s : State) : State :=
  emit (Dispatched e) s.

Definition withScan (v : option ViewType) (a : Action) : Action :=
  mkAction v (detected a) (initialMouseVector a) (translation a) (actRotation a) (resize a).

Definition withDetected (b : bool) (a : Action) : Action :=
  mkAction (scan a) b (initialMouseVector a) (translation a) (actRotation a) (resize a).

Definition withTranslation (t : TranslationAction) (a : Action) : Action :=
  mkAction (scan a) (detected a) (initialMouseVector a) t (actRotation a) (resize a).

Definition withActRotation (r : RotationAction) (a : Action) : Action :=
  mkAction (scan a) (detected a) (initialMouseVector a) (translation a) r (resize a).

Definition withResize (r : ResizeAction) (a : Action) : Action :=
  mkAction (scan a) (detected a) (initialMouseVector a) (translation a) (actRotation a) r.

(** The events dispatched so far. *)
Definition dispatched (s : State) : list CanvasEvent :=
  flat_map (fun e => match e with Dispatched ev => [ev] | _ => [] end) (trace s).

(** *** The numeric kernels of three.js and of [cuboid.ts] *)

Section View.

(** [CuboidModel.getReferenceCoordinates(view)] of [cuboid.ts]: the world
    position of the camera reference point of the cuboid for a view. *)
Variable getReferenceCoordinates : CuboidModel -> ViewType -> Vector3.

(** [Spherical.setFromVector3] followed by [Vector3.setFromSpherical]. *)
Variable viaSpherical : Vector3 -> Vector3.

(** [Object3D.localToWorld] of a reference plane. *)
Variable localToWorld : Plane -> Vector3 -> Vector3.

(** [Object3D.attach]: the camera re-expressed in the frame of the mesh it
    is attached to, its world transform preserved. *)
Variable relativeTo : Mesh -> Camera -> Camera.

(** [getWorldQuaternion] of a camera attached to a mesh. *)
Variable worldQuaternion : Mesh -> Camera -> Orientation.

(** The Euler angles of an orientation that has been turned about its own
    axes since they were set. *)
Variable eulerOfTurns : Orientation -> Vector3.

(** Reading [mesh.rotation.x], [.y], [.z]. *)
Definition readEuler (o : Orientation) : Vector3 :=
  match turns o with
  | [] => euler o
  | _ :: _ => eulerOfTurns o
  end.

(** Modelled from the spec: [CuboidModel.setScale] of [cuboid.ts], which is
    not among the sources.  "Per-Object Render Representation: four
    parallel mesh instances (one per view), geometrically identical": the
    scale is given to each of the four meshes. *)
Definition setScale (x y z : Q) (c : CuboidModel) : CuboidModel :=
  mkCuboid (withScale (vec3 x y z) (perspective c))
           (withScale (vec3 x y z) (top c))
           (withScale (vec3 x y z) (side c))
           (withScale (vec3 x y z) (front c)).

(** *** Pointer handlers *)

(** The pointer in normalized device coordinates. *)
Definition pointerNDC (canvas : Canvas) (e : MouseEvent) : Vector2 :=
  vec2 (((clientX e - rectLeft canvas) / clientWidth canvas) * 2 - 1)
       ((- ((clientY e - rectTop canvas) / clientHeight canvas)) * 2 + 1).

Definition setMouseVector (view : ViewType) (m : Vector2) (s : State) : State :=
  withViews (setView view (withMouseVector m (getView view (views s))) (views s)) s.

(** [userData.lock] and [userData.hidden] of a mesh; [undefined] is falsy. *)
Definition userLock (m : Mesh) : bool :=
  match userData m with
  | Some o => lock o
  | None => false
  end.

Definition userHidden (m : Mesh) : bool :=
  match userData m with
  | Some o => hidden o
  | None => false
  end.

(** The condition of [startAction]: an object is selected, and it is
    neither locked nor hidden. *)
Definition canStart (s : State) : bool :=
  match selected s with
  | Some c => negb (userLock (perspective c)) && negb (userHidden (perspective c))
  | None => false
  end.

(** [private startAction(view: any, event: MouseEvent)] *)
Definition startAction (view : ViewType) (canvas : Canvas) (e : MouseEvent)
    (s : State) : State :=
  let s1 := setMouseVector view (pointerNDC canvas e) s in
  let here := vec2 (clientX e) (clientY e) in
  let r := actRotation (action s1) in
  let r1 := mkRotation (rotationStatus r) (rotationHelper r) (Some here) (Some here) in
  let s2 := withAction (withActRotation r1 (action s1)) s1 in
  if canStart s2
  then withAction (withScan (Some view) (action s2)) s2
  else s2.

(** [private moveAction(view: any, event: MouseEvent)] *)
Definition moveAction (view : ViewType) (canvas : Canvas) (e : MouseEvent)
    (s : State) : State :=
  let s1 := setMouseVector view (pointerNDC canvas e) s in
  let here := vec2 (clientX e) (clientY e) in
  let r := actRotation (action s1) in
  let r1 := mkRotation (rotationStatus r) (rotationHelper r) (screenInit r) (Some here) in
  withAction (withActRotation r1 (action s1)) s1.

(** *** Reference planes, cameras and the four meshes *)

Definition movePlane (p : Vector3) (rv : RenderView) : RenderView :=
  match refPlane (scene rv) with
  | Some pl =>
      withScene (mkScene (cloud (scene rv)) (Some (mkPlane p (planeRotation pl)))) rv
  | None => rv
  end.

(** [private translateReferencePlane(coordinates: any)] *)
Definition translateReferencePlane (p : Vector3) (s : State) : State :=
  let vs := views s in
  withViews (mkViews (viewPerspective vs)
                     (movePlane p (viewTop vs))
                     (movePlane p (viewSide vs))
                     (movePlane p (viewFront vs))) s.

(** [private moveObject(coordinates: THREE.Vector3)] *)
Definition moveObject (p : Vector3) (s : State) : Result State :=
  c <- defined (selected s) ;;
  Ok (withSelected
        (Some (mkCuboid (withPosition p (perspective c))
                        (withPosition p (top c))
                        (withPosition p (side c))
                        (withPosition p (front c)))) s).

Definition placeCamera (p : Vector3) (rv : RenderView) : RenderView :=
  let c := camera rv in
  withCamera (mkCamera p (camRotation c) (camScale c) (camParent c)) rv.

(** [private adjustPerspectiveCameras()] *)
Definition adjustPerspectiveCameras (s : State) : Result State :=
  c <- defined (selected s) ;;
  let vs := views s in
  Ok (withViews
        (mkViews (viewPerspective vs)
           (placeCamera (viaSpherical (getReferenceCoordinates c TOP)) (viewTop vs))
           (placeCamera (viaSpherical (getReferenceCoordinates c SIDE)) (viewSide vs))
           (placeCamera (viaSpherical (getReferenceCoordinates c FRONT)) (viewFront vs)))
        s).

(** [mesh.attach(camera)] for the camera of a view and the mesh of the
    selected cuboid in that view. *)
Definition attachTo (v : ViewType) (c : CuboidModel) (vs : Views) : Views :=
  let rv := getView v vs in
  let cam := relativeTo (meshOf v c) (camera rv) in
  setView v
    (withCamera (mkCamera (camPosition cam) (camRotation cam) (camScale cam) (Some v)) rv)
    vs.

(** [private attachCamera(view: ViewType)] *)
Definition attachCamera (view : ViewType) (s : State) : Result State :=
  c <- defined (selected s) ;;
  match view with
  | TOP => Ok (withViews (attachTo FRONT c (attachTo SIDE c (views s))) s)
  | SIDE => Ok (withViews (attachTo TOP c (attachTo FRONT c (views s))) s)
  | FRONT => Ok (withViews (attachTo TOP c (attachTo SIDE c (views s))) s)
  end.

(** [this.views.top.controls.enabled = false], and the same for the side
    and the front view. *)
Definition disableControls (s : State) : State :=
  let vs := views s in
  withViews (mkViews (viewPerspective vs)
                     (withControls false (viewTop vs))
                     (withControls false (viewSide vs))
                     (withControls false (viewFront vs))) s.

(** *** Starting a gesture *)

(** [a < b] on numbers. *)
Definition Qltb (a b : Q) : bool := negb (Qle_bool b a).

Definition hit (l : list Vector3) : bool :=
  match l with
  | [] => false
  | _ :: _ => true
  end.

(** [mesh.getObjectByName('rotationHelper')] finds a child. *)
Definition hasRotationHelper (m : Mesh) : bool :=
  existsb (fun ch => String.eqb (childName ch) CONST.ROTATION_HELPER) (children m).

(** [private initiateAction(view: string, viewType: any)] *)
Definition initiateAction (view : ViewType) (ray : RayCaster) (s : State)
    : Result State :=
  c <- defined (selected s) ;;
  let pointer := mouseVector (getView view (views s)) in
  let a := action s in
  if hit (ray (ResizeHelpers view)) then
    let sc := scale (meshOf view c) in
    let r := mkResize true (Some pointer) sc sc (vec3 0 0 0) in
    Ok (disableControls (withAction (withDetected true (withResize r a)) s))
  else if hasRotationHelper (meshOf view c) then
    if hit (ray (RotationHelper view)) then
      let r := mkRotation true (Some pointer)
                 (screenInit (actRotation a)) (screenMove (actRotation a)) in
      attachCamera view
        (disableControls (withAction (withDetected true (withActRotation r a)) s))
    else if hit (ray (Body view)) then
      let t := mkTranslation true (Some pointer) (coordinates (translation a)) in
      Ok (disableControls (withAction (withDetected true (withTranslation t a)) s))
    else Ok s
  else TypeError.

(** *** TRANSLATE *)

(** [private renderTranslateAction(view: ViewType, viewType: any)] *)
Definition renderTranslateAction (view : ViewType) (ray : RayCaster) (s : State)
    : Result State :=
  _ <- defined (refPlane (scene (getView view (views s)))) ;;
  match ray (ReferencePlane view) with
  | [] => Ok s
  | p :: _ =>
      let t := translation (action s) in
      let t1 := mkTranslation (translationStatus t) (translationHelper t) (Some p) in
      moveObject p (withAction (withTranslation t1 (action s)) s)
  end.

(** *** RESIZE *)

Definition orElse (o : option Q) (d : Q) : Q :=
  match o with
  | Some v => v
  | None => d
  end.

Definition rescaleChild (x y z : option Q) (ch : Child) : Child :=
  if String.eqb (childName ch) CONST.CUBOID_EDGE_NAME then ch
  else
    let sc := childScale ch in
    mkChild (childName ch) (vec3 (orElse x (vx sc)) (orElse y (vy sc)) (orElse z (vz sc))).

Definition rescaleChildren (x y z : option Q) (v : ViewType) (c : CuboidModel)
    : CuboidModel :=
  let f := fun m => withChildren (map (rescaleChild x y z) (children m)) m in
  match v with
  | TOP => mkCuboid (perspective c) (f (top c)) (side c) (front c)
  | SIDE => mkCuboid (perspective c) (top c) (f (side c)) (front c)
  | FRONT => mkCuboid (perspective c) (top c) (side c) (f (front c))
  end.

(** [private setSelectedChildScale(x: number, y: number, z: number)]; the
    list of views is [[TOP, SIDE, SIDE]] in the source. *)
Definition setSelectedChildScale (x y z : option Q) (s : State) : Result State :=
  c <- defined (selected s) ;;
  Ok (withSelected
        (Some (fold_left (fun acc v => rescaleChildren x y z v acc) [TOP; SIDE; SIDE] c))
        s).

(** [if (x < 0) x = 0.2;] *)
Definition clampScale (x : Q) : Q := if Qltb x 0 then 2 # 10 else x.

(** The [switch (view)] of [renderResizeAction]: the scale given to
    [setScale], the arguments of [setSelectedChildScale], and the new
    [resizeVector] and [memScales]. *)
Definition resizeStep (view : ViewType) (topScale init mem : Vector3)
    (initPos cur : Vector2) (rv : Vector3)
    : Vector3 * (option Q * option Q * option Q) * Vector3 * Vector3 :=
  let currentPosX := v2x cur in
  let currentPosY := v2y cur in
  let initPosX := v2x initPos in
  let initPosY := v2y initPos in
  match view with
  | TOP =>
      let y := clampScale (vx init * (currentPosX / initPosX)) in
      let x := clampScale (vy init * (currentPosY / initPosY)) in
      let differenceX := y / 2 - vx mem / 2 in
      let differenceY := x / 2 - vy mem / 2 in
      let differenceOpX := (Qltb 0 currentPosX && Qltb currentPosY 0)
                           || (Qltb 0 currentPosX && Qltb 0 currentPosY) in
      let differenceOpY := (Qltb currentPosX 0 && Qltb currentPosY 0)
                           || (Qltb currentPosX 0 && Qltb 0 currentPosY) in
      (vec3 y x (vz topScale),
       (Some (1 / y), Some (1 / x), None),
       vec3 (vx rv + (if differenceOpX then differenceX else - differenceX))
            (vy rv + (if differenceOpY then differenceY else - differenceY))
            (vz rv),
       vec3 y x (vz mem))
  | SIDE =>
      let x := clampScale (vx init * (currentPosX / initPosX)) in
      let z := clampScale (vz init * (currentPosY / initPosY)) in
      let differenceX := x / 2 - vx mem / 2 in
      let differenceY := z / 2 - vz mem / 2 in
      let rv1 :=
        if Qltb 0 currentPosX && Qltb currentPosY 0 then
          vec3 (vx rv + differenceX) (vy rv - differenceY) (vz rv)
        else if Qltb 0 currentPosX && Qltb 0 currentPosY then
          vec3 (vx rv + differenceX) (vy rv + differenceY) (vz rv)
        else if Qltb currentPosX 0 && Qltb currentPosY 0 then
          vec3 (vx rv - differenceX) (vy rv - differenceY) (vz rv)
        else if Qltb currentPosX 0 && Qltb 0 currentPosY then
          vec3 (vx rv - differenceX) (vy rv + differenceY) (vz rv)
        else rv in
      (vec3 x (vy topScale) z,
       (Some (1 / x), None, Some (1 / z)),
       rv1,
       vec3 x (vy mem) z)
  | FRONT =>
      let y := clampScale (vy init * (currentPosX / initPosX)) in
      let z := clampScale (vz init * (currentPosY / initPosY)) in
      let differenceX := z / 2 - vy mem / 2 in
      let differenceY := y / 2 - vz mem / 2 in
      let rv1 :=
        if Qltb 0 currentPosX && Qltb currentPosY 0 then
          vec3 (vx rv + differenceX) (vy rv + differenceY) (vz rv)
        else if Qltb 0 currentPosX && Qltb 0 currentPosY then
          vec3 (vx rv - differenceX) (vy rv + differenceY) (vz rv)
        else if Qltb currentPosX 0 && Qltb currentPosY 0 then
          vec3 (vx rv + differenceX) (vy rv - differenceY) (vz rv)
        else if Qltb currentPosX 0 && Qltb 0 currentPosY then
          vec3 (vx rv - differenceX) (vy rv - differenceY) (vz rv)
        else rv in
      (vec3 (vx topScale) y z,
       (None, Some (1 / y), Some (1 / z)),
       rv1,
       vec3 (vx mem) z y)
  end.

(** [private renderResizeAction(view: ViewType, viewType: any)] *)
Definition renderResizeAction (view : ViewType) (ray : RayCaster) (s : State)
    : Result State :=
  plane <- defined (refPlane (scene (getView view (views s)))) ;;
  if hit (ray (ReferencePlane view)) then
    let r := resize (action s) in
    initPos <- defined (resizeHelper r) ;;
    let cur := mouseVector (getView view (views s)) in
    c <- defined (selected s) ;;
    match resizeStep view (scale (top c)) (initScales r) (memScales r)
            initPos cur (resizeVector r) with
    | (sc, (cx, cy, cz), rv, mem) =>
        let s1 := withSelected (Some (setScale (vx sc) (vy sc) (vz sc) c)) s in
        s2 <- setSelectedChildScale cx cy cz s1 ;;
        let r1 := mkResize (resizeStatus r) (resizeHelper r) (initScales r) mem rv in
        let s3 := withAction (withResize r1 (action s2)) s2 in
        s4 <- moveObject (localToWorld plane rv) s3 ;;
        adjustPerspectiveCameras s4
    end
  else Ok s.

(** *** ROTATE *)

(** [private static isLeft(a: any, b: any, c: any): boolean] *)
Definition isLeft (a b c : Vector2) : bool :=
  Qltb 0 ((v2x b - v2x a) * (v2y c - v2y a) - (v2y b - v2y a) * (v2x c - v2x a)).

(** The axis [rotateCube] turns the meshes about: [rotateZ] for the top
    view, [rotateX] for the front view, [rotateY] for the side view. *)
Definition cubeAxis (view : ViewType) : Axis :=
  match view with
  | TOP => AxisZ
  | FRONT => AxisX
  | SIDE => AxisY
  end.

Definition turnMesh (a : Axis) (direction : Q) (m : Mesh) : Mesh :=
  withRotation (rotateOnAxis a direction (rotation m)) m.

Definition turnCamera (a : Axis) (direction : Q) (rv : RenderView) : RenderView :=
  let c := camera rv in
  withCamera (mkCamera (camPosition c) (rotateOnAxis a direction (camRotation c))
                (camScale c) (camParent c)) rv.

(** [private rotateCamera(direction: any, view: ViewType)]: [rotateZ] on
    the camera of the view, whichever the view. *)
Definition rotateCamera (direction : Q) (view : ViewType) (s : State) : State :=
  withViews (setView view (turnCamera AxisZ direction (getView view (views s))) (views s)) s.

(** [private rotateCube(instance: CuboidModel, direction: number, view: ViewType)];
    [instance] is [this.model.data.selected]. *)
Definition rotateCube (direction : Q) (view : ViewType) (s : State) : Result State :=
  c <- defined (selected s) ;;
  let a := cubeAxis view in
  let c1 := mkCuboid (turnMesh a direction (perspective c))
                     (turnMesh a direction (top c))
                     (turnMesh a direction (side c))
                     (turnMesh a direction (front c)) in
  Ok (rotateCamera direction view (withSelected (Some c1) s)).

Definition turnPlane (a : Axis) (direction : Q) (pl : Plane) (rv : RenderView)
    : RenderView :=
  withScene (mkScene (cloud (scene rv))
               (Some (mkPlane (planePosition pl)
                        (rotateOnAxis a direction (planeRotation pl))))) rv.

(** [private rotatePlane(direction: number, view: ViewType)] for the three
    views. *)
Definition rotatePlane (direction : Q) (view : ViewType) (s : State) : Result State :=
  let vs := views s in
  sceneTopPlane <- defined (refPlane (scene (viewTop vs))) ;;
  sceneSidePlane <- defined (refPlane (scene (viewSide vs))) ;;
  sceneFrontPlane <- defined (refPlane (scene (viewFront vs))) ;;
  let turn := fun aTop dTop aSide dSide aFront dFront =>
    Ok (withViews
          (mkViews (viewPerspective vs)
             (turnPlane aTop dTop sceneTopPlane (viewTop vs))
             (turnPlane aSide dSide sceneSidePlane (viewSide vs))
             (turnPlane aFront dFront sceneFrontPlane (viewFront vs))) s) in
  match view with
  | TOP => turn AxisZ direction AxisY direction AxisX (- direction)
  | SIDE => turn AxisY direction AxisZ direction AxisY direction
  | FRONT => turn AxisX direction AxisX (- direction) AxisZ direction
  end.

(** [Math.PI / CONST.ROTATION_SPEED] *)
Definition rotationSpeed : Q := Math_PI / CONST.ROTATION_SPEED.

Definition canvasCentre (canvas : Canvas) : Vector2 :=
  vec2 (offsetLeft canvas + offsetWidth canvas / 2)
       (offsetTop canvas + offsetHeight canvas / 2).

(** [private renderRotateAction(view: ViewType, viewType: any)] *)
Definition renderRotateAction (view : ViewType) (canvas : Canvas) (s : State)
    : Result State :=
  let r := actRotation (action s) in
  init <- defined (screenInit r) ;;
  move <- defined (screenMove r) ;;
  if Qeq_bool (v2x init) (v2x move) && Qeq_bool (v2y init) (v2y move) then Ok s
  else
    let direction :=
      if isLeft (canvasCentre canvas) init move then - rotationSpeed else rotationSpeed in
    s1 <- rotateCube direction view s ;;
    s2 <- rotatePlane direction view s1 ;;
    _ <- defined (rotationHelper r) ;;
    let r1 := mkRotation (rotationStatus r) (Some move) (screenInit r) (screenMove r) in
    Ok (withAction (withActRotation r1 (action s2)) s2).

(** *** Committing a gesture *)

(** A camera taken off the mesh it was attached to: placed from the
    spherical reference, given the orientation it had in the world, its
    scale reset. *)
Definition detached (p : Vector3) (o : Orientation) (rv : RenderView) : RenderView :=
  withCamera (mkCamera p o unit3 None) rv.

Definition attachedTo (v : ViewType) (vs : Views) : Result Camera :=
  let cam := camera (getView v vs) in
  match camParent cam with
  | Some p => if ViewType_eqb p v then Ok cam else TypeError
  | None => TypeError
  end.

(** [private detachCamera(view: ViewType)] for the three views. *)
Definition detachCamera (view : ViewType) (s : State) : Result State :=
  c <- defined (selected s) ;;
  let vs := views s in
  let newPosition := fun v => viaSpherical (getReferenceCoordinates c v) in
  let byQuaternion := fun v cam =>
    detached (newPosition v) (worldQuaternion (meshOf v c) cam) (getView v vs) in
  let topByEuler := detached (newPosition TOP) (rotation (top c)) (viewTop vs) in
  match view with
  | TOP =>
      sideCamera <- attachedTo SIDE vs ;;
      frontCamera <- attachedTo FRONT vs ;;
      Ok (withViews (mkViews (viewPerspective vs) (viewTop vs)
                       (byQuaternion SIDE sideCamera)
                       (byQuaternion FRONT frontCamera)) s)
  | SIDE =>
      frontCamera <- attachedTo FRONT vs ;;
      Ok (withViews (mkViews (viewPerspective vs) topByEuler (viewSide vs)
                       (byQuaternion FRONT frontCamera)) s)
  | FRONT =>
      sideCamera <- attachedTo SIDE vs ;;
      Ok (withViews (mkViews (viewPerspective vs) topByEuler
                       (byQuaternion SIDE sideCamera) (viewFront vs)) s)
  end.

(** The 16-element point array of a mesh. *)
Definition pointsOf (m : Mesh) : list Q :=
  let e := readEuler (rotation m) in
  [vx (position m); vy (position m); vz (position m);
   vx e; vy e; vz e;
   vx (scale m); vy (scale m); vz (scale m);
   0; 0; 0; 0; 0; 0; 0].

(** [private resetActions()], the [mouseup] handler of the three
    orthographic canvases. *)
Definition resetActions (s : State) : Result State :=
  if negb (detected (action s)) then Ok s
  else
    c <- defined (selected s) ;;
    view <- defined (scan (action s)) ;;
    let m := meshOf view c in
    let state := find (fun o => Z.eqb (clientID o) (name m)) (objects s) in
    let s1 := dispatchEvent (CanvasEdited state (pointsOf m)) s in
    s2 <- (if rotationStatus (actRotation (action s1)) then detachCamera view s1 else Ok s1) ;;
    s3 <- adjustPerspectiveCameras s2 ;;
    let s4 := translateReferencePlane (position m) s3 in
    let a := action s4 in
    let r := resize a in
    Ok (withAction
          (mkAction None false (initialMouseVector a)
             (mkTranslation false None None)
             (mkRotation false None None None)
             (mkResize false None (initScales r) (memScales r) (resizeVector r)))
          s4).

(** *** Drawing *)

(** The [dblclick] handler of the perspective canvas. *)
Definition dblclick (s : State) : State :=
  if negb (Mode_eqb (mode s) DRAW) then s
  else
    let s1 := withMode IDLE (withDrawEnabled false s) in
    let s2 := dispatchEvent (CanvasDrawn (imageID s1) (pointsOf (perspective (cube s1)))) s1 in
    dispatchEvent CanvasCanceled s2.

(** *** Image change *)

(** [private clearScene()] *)
Definition clearScene (s : State) : State :=
  let vs := views s in
  emit SceneCleared
    (withViews (mkViews (withScene emptyScene (viewPerspective vs))
                        (withScene emptyScene (viewTop vs))
                        (withScene emptyScene (viewSide vs))
                        (withScene emptyScene (viewFront vs))) s).

(** [loader.load(objectURL, this.addScene.bind(this))]: the load is
    started; its callback runs in a later task. *)
Definition loaderLoad (url : Z) (s : State) : State :=
  emit (LoadStarted url) (withLoading (loading s ++ [url]) s).

(** [public notify(model, reason)] for [reason === UpdateReasons.IMAGE_CHANGED].
    The object URL made of the payload is given the number of the payload. *)
Definition notifyImageChanged (s : State) : State :=
  match image s with
  | None => s
  | Some objectURL =>
      let s1 := clearScene s in
      let s2 := loaderLoad objectURL s1 in
      let s3 := emit (UrlRevoked objectURL) s2 in
      dispatchEvent CanvasSetup s3
  end.

(** *** The gesture part of [render()] for one orthographic view *)

Definition renderGesture (view : ViewType) (ray : RayCaster) (canvas : Canvas)
    (s : State) : Result State :=
  match activeElement s, scan (action s) with
  | Some _, Some v =>
      if ViewType_eqb v view then
        let a := action s in
        s1 <- (if negb (translationStatus (translation a)
                        || resizeStatus (resize a)
                        || rotationStatus (actRotation a))
               then initiateAction view ray s else Ok s) ;;
        if detected (action s1) then
          if translationStatus (translation (action s1)) then
            renderTranslateAction view ray s1
          else if resizeStatus (resize (action s1)) then
            renderResizeAction view ray s1
          else renderRotateAction view canvas s1
        else Ok s1
      else Ok s
  | _, _ => Ok s
  end.

(** *** Reading the state *)

Inductive SubMode := TRANSLATE | RESIZE | ROTATE.

(** The gesture [render()] runs for an action record: nothing until a
    gesture is detected, then by [translation.status], [resize.status],
    and the rotation otherwise. *)
Definition subMode (a : Action) : option SubMode :=
  if detected a then
    Some (if translationStatus (translation a) then TRANSLATE
          else if resizeStatus (resize a) then RESIZE
          else ROTATE)
  else None.

(** The orbit controls of the three orthographic views are all disabled. *)
Definition orbitDisabled (s : State) : bool :=
  negb (controlsEnabled (viewTop (views s)))
  && negb (controlsEnabled (viewSide (views s)))
  && negb (controlsEnabled (viewFront (views s))).

Definition sceneIsEmpty (rv : RenderView) : bool :=
  match cloud (scene rv), refPlane (scene rv) with
  | None, None => true
  | _, _ => false
  end.

Definition allScenesEmpty (s : State) : bool :=
  sceneIsEmpty (viewPerspective (views s))
  && sceneIsEmpty (viewTop (views s))
  && sceneIsEmpty (viewSide (views s))
  && sceneIsEmpty (viewFront (views s)).

(** The four meshes of a cuboid have the same scale, as [setScale] leaves
    them. *)
Definition scalesInSync (c : CuboidModel) : Prop :=
  scale (perspective c) = scale (top c)
  /\ scale (side c) = scale (top c)
  /\ scale (front c) = scale (top c).

(** The four meshes of a cuboid. *)
Definition meshes (c : CuboidModel) : list Mesh :=
  [perspective c; top c; side c; front c].

(** On one screen axis, the pointer has moved away from the centre of
    the canvas (0 in normalized device coordinates) since the gesture
    started at [init]. *)
Definition outward (init cur : Q) : Prop :=
  (0 < init /\ init < cur) \/ (init < 0 /\ cur < init).

(** [(b.x - a.x) * (c.y - a.y) - (b.y - a.y) * (c.x - a.x)], the cross
    product [isLeft] tests. *)
Definition cross (a b c : Vector2) : Q :=
  (v2x b - v2x a) * (v2y c - v2y a) - (v2y b - v2y a) * (v2x c - v2x a).

(** The middle of a canvas in the client coordinates of the pointer
    events: the middle of its bounding rectangle, which is [offsetWidth]
    wide and [offsetHeight] high for a canvas that is not transformed. *)
Definition rectCentre (canvas : Canvas) : Vector2 :=
  vec2 (rectLeft canvas + offsetWidth canvas / 2)
       (rectTop canvas + offsetHeight canvas / 2).

(** *** The configuration the constructor builds *)

(** [camera.position.set] of the three orthographic cameras; each then
    looks at the origin. *)
Definition initialCameraPosition (v : ViewType) : Vector3 :=
  match v with
  | TOP => vec3 0 0 5
  | SIDE => vec3 0 5 0
  | FRONT => vec3 3 0 0
  end.

(** [this.action] as the constructor sets it. *)
Definition initialAction : Action :=
  mkAction None false (vec2 0 0)
    (mkTranslation false None None)
    (mkRotation false None (Some (vec2 0 0)) (Some (vec2 0 0)))
    (mkResize false None unit3 unit3 (vec3 0 0 0)).

(** *** Zooming an orthographic view *)

(** The [wheel] handlers of the top, side and front canvases: the new
    [camera.zoom] for a wheel event of vertical delta [deltaY]. *)
Definition wheelZoom (deltaY zoom : Q) : Q :=
  if Qltb deltaY 0 && Qltb zoom 2 then zoom + (8 # 100)
  else if Qltb 0 deltaY && Qltb (1 # 10) zoom then zoom - (8 # 100)
  else zoom.

(** The zoom after a succession of wheel events, the first first. *)
Definition wheelZooms (deltas : list Q) (zoom : Q) : Q :=
  fold_left (fun z deltaY => wheelZoom deltaY z) deltas zoom.

(** *** Fitting a render surface to its container *)

Record Frustum := mkFrustum {
  frustumLeft : Q;
  frustumRight : Q;
  frustumTop : Q;
  frustumBottom : Q;
  frustumNear : Q;
  frustumFar : Q
}.

Inductive Projection :=
| PerspectiveCamera (aspect : Q)
| OrthographicCamera (f : Frustum).

(** What [resizeRendererToDisplaySize] reads and writes of a view: the
    client size of the parent of the canvas, if it has one, the client
    size of the canvas, the size given to the renderer, the camera. *)
Record Surface := mkSurface {
  parentClient : option (Q * Q);
  canvasClient : Q * Q;
  rendererSize : Q * Q;
  projection : option Projection
}.

(** [private static resizeRendererToDisplaySize(viewName: string, view: RenderView)] *)
Definition resizeRendererToDisplaySize (v : Surface) : Surface :=
  match parentClient v with
  | None => v
  | Some (width, height) =>
      let needResize := negb (Qeq_bool (fst (canvasClient v)) width)
                        || negb (Qeq_bool (snd (canvasClient v)) height) in
      match needResize, projection v with
      | true, Some camera =>
          let camera1 :=
            match camera with
            | PerspectiveCamera _ => PerspectiveCamera (width / height)
            | OrthographicCamera _ =>
                let topViewFactor := 0 in
                let viewSize := CONST.ZOOM_FACTOR in
                let aspectRatio := width / height in
                OrthographicCamera
                  (mkFrustum ((- aspectRatio * viewSize) / 2 - topViewFactor)
                             ((aspectRatio * viewSize) / 2 + topViewFactor)
                             (viewSize / 2 + topViewFactor)
                             (- viewSize / 2 - topViewFactor)
                             (-10) 10)
            end in
          mkSurface (parentClient v) (canvasClient v) (width, height) (Some camera1)
      | _, _ => v
      end
  end.

(** *** Framing a loaded point cloud *)

(** [xRange], [yRange], [zRange] of [addScene]: the camera is within half
    a radius of the centre of the bounding sphere on an axis. *)
Definition inRange (radius cameraAt centreAt : Q) : bool :=
  Qltb (- radius / 2) (cameraAt - centreAt) && Qltb (cameraAt - centreAt) (radius / 2).

(** A number as a condition. *)
Definition nonZero (q : Q) : bool := negb (Qeq_bool q 0).

(** The part of [addScene] that decides on the framing: the arguments
    [positionAllViews] is called with, if it is called, for a
    perspective camera at [cameraAt] and a bounding sphere of centre
    [sphereCenter] and radius [radius]. *)
Definition framing (cameraAt sphereCenter : Vector3) (radius : Q) : option Vector3 :=
  let newX := if inRange radius (vx cameraAt) (vx sphereCenter) then 0 else vx sphereCenter in
  let newY := if inRange radius (vy cameraAt) (vy sphereCenter) then 0 else vy sphereCenter in
  let newZ := if inRange radius (vz cameraAt) (vz sphereCenter) then 0 else vz sphereCenter in
  if nonZero newX || nonZero newY || nonZero newZ
  then Some (vec3 newX newY newZ)
  else None.



(** *** Sample configurations *)

Definition sampleObject : ObjectState :=
  mkObjectState 7 false false [0; 0; 0; 0; 0; 0; 1; 1; 1; 0; 0; 0; 0; 0; 0; 0].

Definition sampleMesh : Mesh :=
  mkMesh origin unit3 (setEuler origin) 7
    [mkChild "edges" unit3; mkChild "rotationHelper" unit3]
    (Some sampleObject).

Definition sampleCuboid : CuboidModel :=
  mkCuboid sampleMesh sampleMesh sampleMesh sampleMesh.

Definition samplePlane : Plane := mkPlane origin (setEuler origin).

Definition sampleView (p : Vector3) (pointer : Vector2) : RenderView :=
  mkRenderView (mkScene (Some [7%Z]) (Some samplePlane))
    (mkCamera p (setEuler origin) unit3 None) false pointer.

Definition sampleViews (pointer : Vector2) : Views :=
  mkViews (mkRenderView (mkScene (Some [7%Z]) None)
             (mkCamera (vec3 (-15) 0 4) (setEuler origin) unit3 None) true (vec2 0 0))
          (sampleView (initialCameraPosition TOP) pointer)
          (sampleView (initialCameraPosition SIDE) pointer)
          (sampleView (initialCameraPosition FRONT) pointer).

(** An idle view showing one selected cuboid of scale (1, 1, 1); the
    pointer of the orthographic views is at [pointer]. *)
Definition sampleState (pointer : Vector2) (a : Action) : State :=
  mkState IDLE false (Some 1%Z) (Some 0%Z) [sampleObject] (Some 7%Z)
    (Some sampleCuboid) sampleCuboid (sampleViews pointer) a [] [].

(** A resize gesture of the top view that started with the pointer at
    (1/2, 1/2). *)
Definition resizingAction : Action :=
  mkAction (Some TOP) true (vec2 0 0)
    (mkTranslation false None None)
    (mkRotation false None (Some (vec2 0 0)) (Some (vec2 0 0)))
    (mkResize true (Some (vec2 (1 # 2) (1 # 2))) unit3 unit3 (vec3 0 0 0)).

(** A rotation gesture whose pointer went down at [init] and is at [move]. *)
Definition rotatingAction (init move : Vector2) : Action :=
  mkAction (Some SIDE) true (vec2 0 0)
    (mkTranslation false None None)
    (mkRotation true (Some (vec2 0 0)) (Some init) (Some move))
    (mkResize false None unit3 unit3 (vec3 0 0 0)).

(** The same view with the selected object locked. *)
Definition lockedObject : ObjectState :=
  mkObjectState 7 true false [0; 0; 0; 0; 0; 0; 1; 1; 1; 0; 0; 0; 0; 0; 0; 0].

Definition lockedCuboid : CuboidModel :=
  mkCuboid (mkMesh origin unit3 (setEuler origin) 7 [] (Some lockedObject))
           sampleMesh sampleMesh sampleMesh.

Definition lockedState : State :=
  withSelected (Some lockedCuboid) (sampleState (vec2 0 0) initialAction).

(** The same view before any frame has been fetched. *)
Definition blankState : State :=
  mkState IDLE false None None [] None None sampleCuboid
    (sampleViews (vec2 0 0)) initialAction [] [].

(** The same view while a cuboid is drawn. *)
Definition drawingState : State :=
  withMode DRAW (sampleState (vec2 0 0) initialAction).

Definition sampleCanvas : Canvas := mkCanvas 0 0 100 100 0 0 100 100.

(** A canvas of 100 by 100 at the origin of its offset parent, which is
    at (400, 300) of the viewport. *)
Definition nestedCanvas : Canvas := mkCanvas 400 300 100 100 0 0 100 100.

(** Every ray hits at [p]. *)
Definition hitsAt (p : Vector3) : RayCaster := fun _ => [p].

(** No ray hits. *)
Definition misses : RayCaster := fun _ => [].

(** Only the rotation handle is hit. *)
Definition hitsRotationHelper : RayCaster :=
  fun t => match t with RotationHelper _ => [origin] | _ => [] end.

(** Only the body mesh is hit. *)
Definition hitsBody : RayCaster :=
  fun t => match t with Body _ => [origin] | _ => [] end.

(** Kernels for the sample configurations, whose reference planes are
    not rotated. *)
Definition sampleReference (c : CuboidModel) (v : ViewType) : Vector3 :=
  position (meshOf v c).

Definition sampleSpherical (v : Vector3) : Vector3 := v.

Definition sampleLocalToWorld (pl : Plane) (v : Vector3) : Vector3 :=
  vec3 (vx v + vx (planePosition pl)) (vy v + vy (planePosition pl))
       (vz v + vz (planePosition pl)).

Definition sampleRelativeTo (m : Mesh) (cam : Camera) : Camera := cam.

Definition sampleWorldQuaternion (m : Mesh) (cam : Camera) : Orientation :=
  camRotation cam.

Definition sampleEuler (o : Orientation) : Vector3 := euler o.

(* ================================================================== *)
(** ** Properties of the 3D view *)
(* ================================================================== *)

(** *** Basic facts *)

Lemma bind_Ok (A B : Type) (a : A) (f : A -> Result B) : bind (Ok a) f = f a.
Proof. reflexivity. Qed.

Lemma Qltb_true (a b : Q) : Qltb a b = true <-> a < b.
Proof.
  unfold Qltb. rewrite negb_true_iff. split.
  - intro H. apply Qnot_le_lt. intro L.
    apply Qle_bool_iff in L. congruence.
  - intro H. destruct (Qle_bool b a) eqn:E; [|reflexivity].
    apply Qle_bool_iff in E. exfalso. exact (Qlt_not_le _ _ H E).
Qed.

Lemma Qltb_false (a b : Q) : Qltb a b = false <-> b <= a.
Proof.
  unfold Qltb. rewrite negb_false_iff. apply Qle_bool_iff.
Qed.

Lemma isLeft_cross (a b c : Vector2) : isLeft a b c = Qltb 0 (cross a b c).
Proof. reflexivity. Qed.

Lemma clampScale_nonneg (x : Q) : 0 <= clampScale x.
Proof.
  unfold clampScale. destruct (Qltb x 0) eqn:E.
  - discriminate.
  - apply Qltb_false in E. exact E.
Qed.

Lemma clampScale_positive (x : Q) : 0 < x -> clampScale x = x.
Proof.
  intro H. unfold clampScale.
  destruct (Qltb x 0) eqn:E; [|reflexivity].
  apply Qltb_true in E. exfalso. apply (Qlt_irrefl 0).
  apply Qlt_trans with x; assumption.
Qed.

Lemma getView_setView (v : ViewType) (rv : RenderView) (vs : Views) :
  getView v (setView v rv vs) = rv.
Proof. destruct v; reflexivity. Qed.

Lemma orbitDisabled_disableControls (s : State) :
  orbitDisabled (disableControls s) = true.
Proof. reflexivity. Qed.

Lemma attachTo_controls (v w : ViewType) (c : CuboidModel) (vs : Views) :
  controlsEnabled (getView w (attachTo v c vs)) = controlsEnabled (getView w vs).
Proof. destruct v, w; reflexivity. Qed.

Lemma attachCamera_Ok (view : ViewType) (s : State) (c : CuboidModel) :
  selected s = Some c ->
  exists s', attachCamera view s = Ok s'
    /\ action s' = action s
    /\ selected s' = selected s
    /\ trace s' = trace s
    /\ orbitDisabled s' = orbitDisabled s.
Proof.
  intro Hsel. unfold attachCamera.
  replace (defined (selected s)) with (Ok c) by (rewrite Hsel; reflexivity).
  rewrite bind_Ok.
  destruct view; eexists; (split; [reflexivity|]); repeat split; reflexivity.
Qed.

(** *** Pointer-down *)

(** C6: a pointer-down in an orthographic view with no object selected, or
    with the selected object locked or hidden, leaves the gesture part of
    the action record as it was ([scan] stays [null] when it was, nothing
    is detected); the handler always returns; [scan] becomes the view
    exactly when an object is selected that is neither locked nor
    hidden. *)
Theorem startAction_gate (view : ViewType) (canvas : Canvas) (e : MouseEvent)
    (s : State) :
  let s' := startAction view canvas e s in
  ((selected s = None
    \/ exists c, selected s = Some c
         /\ (userLock (perspective c) = true \/ userHidden (perspective c) = true)) ->
     scan (action s') = scan (action s)
     /\ (scan (action s) = None -> scan (action s') = None)
     /\ detected (action s') = detected (action s)
     /\ subMode (action s') = subMode (action s))
  /\ (forall c, selected s = Some c ->
        userLock (perspective c) = false -> userHidden (perspective c) = false ->
        scan (action s') = Some view)
  /\ (scan (action s') <> scan (action s) ->
        scan (action s') = Some view
        /\ exists c, selected s = Some c
             /\ userLock (perspective c) = false /\ userHidden (perspective c) = false).
Proof.
  intro s'. subst s'. unfold startAction.
  set (s2 := withAction _ (setMouseVector view (pointerNDC canvas e) s)).
  assert (Hscan : scan (action s2) = scan (action s)) by reflexivity.
  assert (Hdet : detected (action s2) = detected (action s)) by reflexivity.
  assert (Hsub : subMode (action s2) = subMode (action s)) by reflexivity.
  unfold canStart. change (selected s2) with (selected s).
  destruct (selected s) as [c|] eqn:Hsel.
  - destruct (userLock (perspective c)) eqn:Hl;
      destruct (userHidden (perspective c)) eqn:Hh; cbn [negb andb].
    + split; [intros _; repeat split; auto; congruence|].
      split; [intros c' Hc; injection Hc as <-; congruence|].
      intro H; contradiction.
    + split; [intros _; repeat split; auto; congruence|].
      split; [intros c' Hc; injection Hc as <-; congruence|].
      intro H; contradiction.
    + split; [intros _; repeat split; auto; congruence|].
      split; [intros c' Hc; injection Hc as <-; congruence|].
      intro H; contradiction.
    + split.
      { intros [H|[c' [Hc [H|H]]]]; [discriminate| |];
          injection Hc as <-; congruence. }
      split; [intros; reflexivity|].
      intros _. split; [reflexivity|]. exists c. auto.
  - split; [intros _; repeat split; auto; congruence|].
    split; [intros c Hc; discriminate|].
    intro H; contradiction.
Qed.

(** *** Pointer-up *)

(** C10: a pointer-up while no gesture has been detected returns at once:
    the state (cameras, reference planes, action record, dispatched
    events) is what it was. *)
Theorem resetActions_undetected (s : State) :
  detected (action s) = false -> resetActions s = Ok s.
Proof.
  intro H. unfold resetActions. rewrite H. reflexivity.
Qed.

(** *** Starting a gesture *)

(** C2: when a gesture is looked for (no sub-mode chosen yet, an object
    selected), the ray is cast at the resize handles first, then at the
    rotation handle, then at the body mesh, and the first hit decides:
    RESIZE before ROTATE before TRANSLATE; in each of the three branches
    the orbit controls of the top, side and front views are disabled.
    With no hit nothing changes. *)
Theorem initiateAction_priority (view : ViewType) (ray : RayCaster) (s : State)
    (c : CuboidModel) :
  selected s = Some c ->
  (hit (ray (ResizeHelpers view)) = false -> hasRotationHelper (meshOf view c) = true) ->
  translationStatus (translation (action s)) = false ->
  resizeStatus (resize (action s)) = false ->
  rotationStatus (actRotation (action s)) = false ->
  exists s', initiateAction view ray s = Ok s'
    /\ (hit (ray (ResizeHelpers view)) = true ->
          subMode (action s') = Some RESIZE
          /\ resizeStatus (resize (action s')) = true
          /\ rotationStatus (actRotation (action s')) = false
          /\ translationStatus (translation (action s')) = false
          /\ orbitDisabled s' = true)
    /\ (hit (ray (ResizeHelpers view)) = false ->
        hit (ray (RotationHelper view)) = true ->
          subMode (action s') = Some ROTATE
          /\ rotationStatus (actRotation (action s')) = true
          /\ resizeStatus (resize (action s')) = false
          /\ translationStatus (translation (action s')) = false
          /\ orbitDisabled s' = true)
    /\ (hit (ray (ResizeHelpers view)) = false ->
        hit (ray (RotationHelper view)) = false ->
        hit (ray (Body view)) = true ->
          subMode (action s') = Some TRANSLATE
          /\ translationStatus (translation (action s')) = true
          /\ resizeStatus (resize (action s')) = false
          /\ rotationStatus (actRotation (action s')) = false
          /\ orbitDisabled s' = true)
    /\ (hit (ray (ResizeHelpers view)) = false ->
        hit (ray (RotationHelper view)) = false ->
        hit (ray (Body view)) = false ->
          s' = s).
Proof.
  intros Hsel Hhelper Ht Hrs Hr. unfold initiateAction.
  replace (defined (selected s)) with (Ok c) by (rewrite Hsel; reflexivity).
  rewrite bind_Ok.
  destruct (hit (ray (ResizeHelpers view))) eqn:Hresize.
  - eexists. split; [reflexivity|].
    split; [|repeat split; intros; discriminate].
    intros _. unfold subMode. cbn. rewrite Ht, Hr. repeat split; reflexivity.
  - rewrite (Hhelper eq_refl).
    destruct (hit (ray (RotationHelper view))) eqn:Hrot.
    + match goal with
      | |- exists s', attachCamera view ?s1 = Ok s' /\ _ =>
          destruct (@attachCamera_Ok view s1 c Hsel) as [s' [E [Ha [_ [_ Ho]]]]]
      end.
      exists s'. split; [exact E|].
      split; [intro; discriminate|].
      split; [|split; intros; discriminate].
      intros _ _. rewrite Ha, Ho. unfold subMode. cbn. rewrite Ht, Hrs.
      repeat split; reflexivity.
    + destruct (hit (ray (Body view))) eqn:Hbody.
      * eexists. split; [reflexivity|].
        split; [intro; discriminate|].
        split; [intros; discriminate|].
        split; [|intros; discriminate].
        intros _ _ _. unfold subMode. cbn. rewrite Hrs, Hr. repeat split; reflexivity.
      * exists s. split; [reflexivity|].
        split; [intro; discriminate|].
        split; [intros; discriminate|].
        split; [intros; discriminate|].
        reflexivity.
Qed.

(** *** TRANSLATE *)

(** C3: in a TRANSLATE step whose ray meets the reference plane of the
    view at a point [p], the positions of the perspective, top, side and
    front meshes of the selected cuboid are all set to [p]. *)
Theorem renderTranslateAction_lockstep (view : ViewType) (ray : RayCaster)
    (s : State) (c : CuboidModel) (pl : Plane) (p : Vector3) (rest : list Vector3) :
  selected s = Some c ->
  refPlane (scene (getView view (views s))) = Some pl ->
  ray (ReferencePlane view) = p :: rest ->
  exists s' c', renderTranslateAction view ray s = Ok s'
    /\ selected s' = Some c'
    /\ position (perspective c') = p
    /\ position (top c') = p
    /\ position (side c') = p
    /\ position (front c') = p
    /\ coordinates (translation (action s')) = Some p.
Proof.
  intros Hsel Hpl Hray. unfold renderTranslateAction.
  rewrite Hpl, Hray. cbn [defined bind]. unfold moveObject.
  cbn [selected withAction]. rewrite Hsel. cbn [defined bind].
  do 2 eexists. split; [reflexivity|]. repeat split; reflexivity.
Qed.

(** *** ROTATE *)

Lemma rotation_direction (centre init move : Vector2) (d : Q) :
  d = (if isLeft centre init move then - rotationSpeed else rotationSpeed) ->
  (0 < cross centre init move -> d = - rotationSpeed)
  /\ (cross centre init move <= 0 -> d = rotationSpeed).
Proof.
  intros ->. rewrite isLeft_cross.
  destruct (Qltb 0 (cross centre init move)) eqn:E.
  - apply Qltb_true in E. split; [reflexivity|].
    intro L. exfalso. exact (Qlt_not_le _ _ E L).
  - apply Qltb_false in E. split; [|reflexivity].
    intro L. exfalso. exact (Qlt_not_le _ _ L E).
Qed.

Lemma samePointer_true (init move : Vector2) :
  Qeq_bool (v2x init) (v2x move) && Qeq_bool (v2y init) (v2y move) = true
  <-> (v2x init == v2x move /\ v2y init == v2y move).
Proof.
  rewrite andb_true_iff, !Qeq_bool_iff. tauto.
Qed.

(** A ROTATE step.  With the pointer at its initial position nothing is
    turned.  Otherwise the test [isLeft] is made on the point
    [(offsetLeft + offsetWidth / 2, offsetTop + offsetHeight / 2)], the
    initial pointer and the current pointer: left gives minus the step,
    otherwise plus the step; the four meshes of the selected cuboid are
    turned by it about Z in the top view, Y in the side view and X in
    the front view, and the camera of the view by [rotateZ]. *)
Lemma renderRotateAction_turns (view : ViewType) (canvas : Canvas) (s : State)
    (c : CuboidModel) (init move h : Vector2) (pt ps pf : Plane) :
  selected s = Some c ->
  screenInit (actRotation (action s)) = Some init ->
  screenMove (actRotation (action s)) = Some move ->
  rotationHelper (actRotation (action s)) = Some h ->
  refPlane (scene (viewTop (views s))) = Some pt ->
  refPlane (scene (viewSide (views s))) = Some ps ->
  refPlane (scene (viewFront (views s))) = Some pf ->
  ((v2x init == v2x move /\ v2y init == v2y move) ->
     renderRotateAction view canvas s = Ok s)
  /\ (~ (v2x init == v2x move /\ v2y init == v2y move) ->
      exists d s' c',
        (0 < cross (vec2 (offsetLeft canvas + offsetWidth canvas / 2)
                         (offsetTop canvas + offsetHeight canvas / 2)) init move ->
         d = - rotationSpeed)
        /\ (cross (vec2 (offsetLeft canvas + offsetWidth canvas / 2)
                        (offsetTop canvas + offsetHeight canvas / 2)) init move <= 0 ->
            d = rotationSpeed)
        /\ renderRotateAction view canvas s = Ok s'
        /\ selected s' = Some c'
        /\ rotation (perspective c') = rotateOnAxis (cubeAxis view) d (rotation (perspective c))
        /\ rotation (top c') = rotateOnAxis (cubeAxis view) d (rotation (top c))
        /\ rotation (side c') = rotateOnAxis (cubeAxis view) d (rotation (side c))
        /\ rotation (front c') = rotateOnAxis (cubeAxis view) d (rotation (front c))
        /\ camRotation (camera (getView view (views s')))
           = rotateZ d (camRotation (camera (getView view (views s)))))
  /\ (cubeAxis TOP = AxisZ /\ cubeAxis SIDE = AxisY /\ cubeAxis FRONT = AxisX)
  /\ rotationSpeed = Math_PI / 80.
Proof.
  intros Hsel Hi Hm Hh Hpt Hps Hpf.
  split; [|split; [|split; [repeat split|reflexivity]]].
  - intro Hsame. apply samePointer_true in Hsame.
    unfold renderRotateAction. rewrite Hi, Hm. cbn [defined bind].
    rewrite Hsame. reflexivity.
  - intro Hmoved.
    unfold renderRotateAction. rewrite Hi, Hm. cbn [defined bind].
    destruct (Qeq_bool (v2x init) (v2x move) && Qeq_bool (v2y init) (v2y move)) eqn:E.
    { exfalso. apply Hmoved. apply samePointer_true. exact E. }
    remember (if isLeft (canvasCentre canvas) init move
              then - rotationSpeed else rotationSpeed) as d eqn:Hd.
    destruct (rotation_direction _ _ _ _ Hd) as [Hleft Hright].
    exists d. unfold rotateCube. rewrite Hsel. cbn [defined bind].
    unfold rotatePlane, rotateCamera.
    destruct view;
      cbn [views withViews withSelected setView getView viewTop viewSide viewFront
           turnCamera withCamera scene];
      rewrite Hpt, Hps, Hpf; cbn [defined bind]; rewrite Hh; cbn [defined bind];
      do 2 eexists;
      (split; [exact Hleft|]); (split; [exact Hright|]);
      (split; [reflexivity|]); repeat split; reflexivity.
Qed.

(** *** RESIZE *)

Lemma vec3_eta (v : Vector3) : vec3 (vx v) (vy v) (vz v) = v.
Proof. destruct v; reflexivity. Qed.

Lemma resizeStep_scale (view : ViewType) (topScale init mem : Vector3)
    (initPos cur : Vector2) (rv : Vector3) :
  fst (fst (fst (resizeStep view topScale init mem initPos cur rv)))
  = match view with
    | TOP => vec3 (clampScale (vx init * (v2x cur / v2x initPos)))
                  (clampScale (vy init * (v2y cur / v2y initPos)))
                  (vz topScale)
    | SIDE => vec3 (clampScale (vx init * (v2x cur / v2x initPos)))
                   (vy topScale)
                   (clampScale (vz init * (v2y cur / v2y initPos)))
    | FRONT => vec3 (vx topScale)
                    (clampScale (vy init * (v2x cur / v2x initPos)))
                    (clampScale (vz init * (v2y cur / v2y initPos)))
    end.
Proof. destruct view; reflexivity. Qed.

(** A resize step whose ray meets the reference plane returns, and gives
    the four meshes the scale computed by [resizeStep]. *)
Lemma renderResizeAction_scale (view : ViewType) (ray : RayCaster) (s : State)
    (c : CuboidModel) (pl : Plane) (h : Vector2) :
  selected s = Some c ->
  refPlane (scene (getView view (views s))) = Some pl ->
  resizeHelper (resize (action s)) = Some h ->
  hit (ray (ReferencePlane view)) = true ->
  exists s' c', renderResizeAction view ray s = Ok s'
    /\ selected s' = Some c'
    /\ Forall (fun m =>
         scale m = fst (fst (fst (resizeStep view (scale (top c))
                                    (initScales (resize (action s)))
                                    (memScales (resize (action s)))
                                    h (mouseVector (getView view (views s)))
                                    (resizeVector (resize (action s)))))))
         (meshes c').
Proof.
  intros Hsel Hpl Hh Hhit. unfold renderResizeAction.
  rewrite Hpl. cbn [defined bind]. rewrite Hhit, Hh. cbn [defined bind].
  rewrite Hsel. cbn [defined bind].
  destruct (resizeStep view (scale (top c)) (initScales (resize (action s)))
              (memScales (resize (action s))) h
              (mouseVector (getView view (views s)))
              (resizeVector (resize (action s))))
    as [[[sc [[cx cy] cz]] rv] mem].
  cbn [fst]. unfold setSelectedChildScale, moveObject, adjustPerspectiveCameras.
  cbn [selected withSelected withAction defined bind].
  do 2 eexists. split; [reflexivity|]. split; [reflexivity|].
  unfold meshes. destruct sc as [a b d].
  repeat constructor.
Qed.

Lemma renderResizeAction_miss (view : ViewType) (ray : RayCaster) (s : State)
    (pl : Plane) :
  refPlane (scene (getView view (views s))) = Some pl ->
  hit (ray (ReferencePlane view)) = false ->
  renderResizeAction view ray s = Ok s.
Proof.
  intros Hpl Hhit. unfold renderResizeAction.
  rewrite Hpl. cbn [defined bind]. rewrite Hhit. reflexivity.
Qed.

Lemma outward_ratio (init cur : Q) : outward init cur -> 1 < 1 * (cur / init).
Proof.
  intros [[Hpos Hlt]|[Hneg Hlt]]; rewrite Qmult_1_l.
  - apply Qlt_shift_div_l; [exact Hpos|]. rewrite Qmult_1_l. exact Hlt.
  - assert (Hne : ~ init == 0).
    { intro E. rewrite E in Hneg. exact (Qlt_irrefl 0 Hneg). }
    assert (Hne' : ~ - init == 0).
    { intro E. apply Hne. rewrite <- (Qopp_involutive init), E. reflexivity. }
    assert (E : cur / init == (- cur) / (- init)) by (field; split; assumption).
    rewrite E. apply Qlt_shift_div_l.
    + rewrite <- (Qopp_involutive 0). apply Qopp_lt_compat. exact Hneg.
    + rewrite Qmult_1_l. apply Qopp_lt_compat. exact Hlt.
Qed.

Lemma Forall_meshes (P : Mesh -> Prop) (c : CuboidModel) :
  Forall P (meshes c)
  <-> P (perspective c) /\ P (top c) /\ P (side c) /\ P (front c).
Proof.
  unfold meshes. split.
  - intro H. inversion_clear H as [|? ? H1 T1]. inversion_clear T1 as [|? ? H2 T2].
    inversion_clear T2 as [|? ? H3 T3]. inversion_clear T3 as [|? ? H4 _].
    auto.
  - intros [H1 [H2 [H3 H4]]]. repeat constructor; assumption.
Qed.

(** C8: a resize step changes the scale on two axes only, by view: the
    top view gives x (width) and y (height) new values and leaves z
    (depth) as it was, the side view gives x and z new values and leaves
    y, the front view gives y and z new values and leaves x, on each of
    the four meshes; and from the initial scale (1, 1, 1), a pointer that
    has moved outward on both screen axes in the top view gives a width
    and a height strictly greater than 1. *)
Theorem renderResizeAction_axes (view : ViewType) (ray : RayCaster) (s : State)
    (c : CuboidModel) (pl : Plane) (h : Vector2) :
  selected s = Some c ->
  scalesInSync c ->
  refPlane (scene (getView view (views s))) = Some pl ->
  resizeHelper (resize (action s)) = Some h ->
  let cur := mouseVector (getView view (views s)) in
  let init := initScales (resize (action s)) in
  exists s' c', renderResizeAction view ray s = Ok s'
    /\ selected s' = Some c'
    /\ Forall2 (fun m m' =>
         match view with
         | TOP => vz (scale m') = vz (scale m)
         | SIDE => vy (scale m') = vy (scale m)
         | FRONT => vx (scale m') = vx (scale m)
         end) (meshes c) (meshes c')
    /\ (hit (ray (ReferencePlane view)) = true ->
        ~ v2x h == 0 -> ~ v2y h == 0 ->
        Forall (fun m' =>
          match view with
          | TOP => vx (scale m') = clampScale (vx init * (v2x cur / v2x h))
                   /\ vy (scale m') = clampScale (vy init * (v2y cur / v2y h))
          | SIDE => vx (scale m') = clampScale (vx init * (v2x cur / v2x h))
                    /\ vz (scale m') = clampScale (vz init * (v2y cur / v2y h))
          | FRONT => vy (scale m') = clampScale (vy init * (v2x cur / v2x h))
                     /\ vz (scale m') = clampScale (vz init * (v2y cur / v2y h))
          end) (meshes c'))
    /\ (view = TOP ->
        hit (ray (ReferencePlane view)) = true ->
        init = unit3 ->
        outward (v2x h) (v2x cur) ->
        outward (v2y h) (v2y cur) ->
        Forall (fun m' => 1 < vx (scale m') /\ 1 < vy (scale m')) (meshes c')).
Proof.
  intros Hsel [Hp [Hs Hf]] Hpl Hh cur init.
  destruct (hit (ray (ReferencePlane view))) eqn:Hhit.
  - destruct (renderResizeAction_scale view ray s c pl h Hsel Hpl Hh Hhit)
      as [s' [c' [Hrun [Hsel' Hall]]]].
    rewrite resizeStep_scale in Hall. fold cur init in Hall.
    apply Forall_meshes in Hall. destruct Hall as [E1 [E2 [E3 E4]]].
    exists s', c'. split; [exact Hrun|]. split; [exact Hsel'|].
    split; [|split].
    + unfold meshes.
      destruct view; repeat constructor;
        rewrite ?E1, ?E2, ?E3, ?E4, ?Hp, ?Hs, ?Hf; reflexivity.
    + intros _ _ _. apply Forall_meshes.
      destruct view; rewrite E1, E2, E3, E4; repeat split; reflexivity.
    + intros -> _ Hinit Hx Hy. apply Forall_meshes.
      rewrite E1, E2, E3, E4. cbn [scale vx vy].
      rewrite Hinit. cbn [unit3 vx vy].
      pose proof (outward_ratio _ _ Hx) as Rx.
      pose proof (outward_ratio _ _ Hy) as Ry.
      assert (Px : 0 < 1 * (v2x cur / v2x h))
        by (apply Qlt_trans with 1; [reflexivity|exact Rx]).
      assert (Py : 0 < 1 * (v2y cur / v2y h))
        by (apply Qlt_trans with 1; [reflexivity|exact Ry]).
      rewrite (clampScale_positive _ Px), (clampScale_positive _ Py).
      repeat split; assumption.
  - rewrite (renderResizeAction_miss view ray s pl Hpl Hhit).
    exists s, c. split; [reflexivity|]. split; [exact Hsel|].
    split; [|split; [intro; discriminate|intros _ ?; discriminate]].
    unfold meshes. destruct view; repeat constructor.
Qed.

(** *** Committing and drawing: the point array *)

Lemma detachCamera_Ok (view : ViewType) (s : State) (c : CuboidModel) :
  selected s = Some c ->
  (forall w, w <> view -> camParent (camera (getView w (views s))) = Some w) ->
  exists s', detachCamera view s = Ok s'.
Proof.
  intros Hsel Hatt. unfold detachCamera. rewrite Hsel. cbn [defined bind].
  unfold attachedTo.
  destruct view;
    rewrite ?(Hatt TOP), ?(Hatt SIDE), ?(Hatt FRONT) by discriminate;
    cbn [ViewType_eqb bind]; eexists; reflexivity.
Qed.

Lemma detachCamera_frame (view : ViewType) (s s' : State) :
  detachCamera view s = Ok s' ->
  selected s' = selected s /\ trace s' = trace s /\ action s' = action s.
Proof.
  unfold detachCamera. destruct (selected s) as [c|] eqn:Hsel; [|discriminate].
  cbn [defined bind]. destruct view;
    repeat match goal with
           | |- context [attachedTo ?v ?vs] => destruct (attachedTo v vs)
           end;
    cbn [bind]; intro H; try discriminate; injection H as <-;
    repeat split; try reflexivity; exact Hsel.
Qed.

Lemma adjustPerspectiveCameras_frame (s s' : State) :
  adjustPerspectiveCameras s = Ok s' ->
  selected s' = selected s /\ trace s' = trace s /\ action s' = action s.
Proof.
  unfold adjustPerspectiveCameras.
  destruct (selected s) as [c|] eqn:Hsel; [|discriminate].
  cbn [defined bind]. intro H. injection H as <-.
  repeat split; try reflexivity; exact Hsel.
Qed.

Lemma resetActions_edited (s s' : State) :
  detected (action s) = true ->
  resetActions s = Ok s' ->
  exists view c,
    scan (action s) = Some view
    /\ selected s = Some c
    /\ trace s' = trace s
         ++ [Dispatched
               (CanvasEdited
                  (find (fun o => Z.eqb (clientID o) (name (meshOf view c))) (objects s))
                  (pointsOf (meshOf view c)))].
Proof.
  intros Hdet. unfold resetActions. rewrite Hdet. cbn [negb].
  destruct (selected s) as [c|] eqn:Hsel; [|discriminate].
  destruct (scan (action s)) as [view|] eqn:Hscan; [|discriminate].
  cbn [defined bind]. intro H. exists view, c.
  split; [reflexivity|]. split; [reflexivity|].
  set (s1 := dispatchEvent _ s) in H.
  assert (T1 : trace s1 = trace s
                 ++ [Dispatched
                       (CanvasEdited
                          (find (fun o => Z.eqb (clientID o) (name (meshOf view c)))
                                (objects s))
                          (pointsOf (meshOf view c)))]) by reflexivity.
  rewrite <- T1. clear T1.
  destruct (rotationStatus (actRotation (action s1))).
  - destruct (detachCamera view s1) as [s2|] eqn:E2; [|discriminate].
    cbn [bind] in H. apply detachCamera_frame in E2. destruct E2 as [_ [T2 _]].
    destruct (adjustPerspectiveCameras s2) as [s3|] eqn:E3; [|discriminate].
    cbn [bind] in H. apply adjustPerspectiveCameras_frame in E3.
    destruct E3 as [_ [T3 _]]. injection H as <-.
    cbn [trace withAction translateReferencePlane withViews]. congruence.
  - cbn [bind] in H.
    destruct (adjustPerspectiveCameras s1) as [s3|] eqn:E3; [|discriminate].
    cbn [bind] in H. apply adjustPerspectiveCameras_frame in E3.
    destruct E3 as [_ [T3 _]]. injection H as <-.
    cbn [trace withAction translateReferencePlane withViews]. congruence.
Qed.

Lemma resetActions_returns (s : State) (view : ViewType) (c : CuboidModel) :
  selected s = Some c ->
  scan (action s) = Some view ->
  (rotationStatus (actRotation (action s)) = true ->
   forall w, w <> view -> camParent (camera (getView w (views s))) = Some w) ->
  exists s', resetActions s = Ok s'.
Proof.
  intros Hsel Hscan Hatt. unfold resetActions.
  destruct (detected (action s)); cbn [negb]; [|eexists; reflexivity].
  rewrite Hsel, Hscan. cbn [defined bind].
  set (s1 := dispatchEvent _ s).
  change (rotationStatus (actRotation (action s1)))
    with (rotationStatus (actRotation (action s))).
  destruct (rotationStatus (actRotation (action s))).
  - destruct (detachCamera_Ok view s1 c Hsel (Hatt eq_refl)) as [s2 E2].
    rewrite E2. cbn [bind].
    destruct (detachCamera_frame _ _ _ E2) as [S2 _].
    unfold adjustPerspectiveCameras. rewrite S2.
    change (selected s1) with (selected s). rewrite Hsel. cbn [defined bind].
    eexists; reflexivity.
  - cbn [bind]. unfold adjustPerspectiveCameras.
    change (selected s1) with (selected s). rewrite Hsel. cbn [defined bind].
    eexists; reflexivity.
Qed.

(** C9 (as amended): the point array of the [drawn] event (double click
    in DRAW mode) and of the [edited] event (pointer-up on a detected
    gesture) has 16 elements: position x, y, z, rotation x, y, z, scale
    x, y, z, then seven zeros; its 10th to 16th elements are zero, the
    9th being the depth of the scale. *)
Theorem points_layout (s : State) :
  (mode s = DRAW ->
     trace (dblclick s)
     = trace s ++ [Dispatched (CanvasDrawn (imageID s) (pointsOf (perspective (cube s))));
                   Dispatched CanvasCanceled])
  /\ (forall s', detected (action s) = true -> resetActions s = Ok s' ->
        exists view c,
          scan (action s) = Some view
          /\ selected s = Some c
          /\ trace s' = trace s
               ++ [Dispatched
                     (CanvasEdited
                        (find (fun o => Z.eqb (clientID o) (name (meshOf view c)))
                              (objects s))
                        (pointsOf (meshOf view c)))])
  /\ (forall view c,
        selected s = Some c ->
        scan (action s) = Some view ->
        (rotationStatus (actRotation (action s)) = true ->
         forall w, w <> view -> camParent (camera (getView w (views s))) = Some w) ->
        exists s', resetActions s = Ok s')
  /\ (forall m,
        pointsOf m
        = [vx (position m); vy (position m); vz (position m)]
            ++ [vx (readEuler (rotation m)); vy (readEuler (rotation m));
                vz (readEuler (rotation m))]
            ++ [vx (scale m); vy (scale m); vz (scale m)]
            ++ repeat 0 7
        /\ List.length (pointsOf m) = 16%nat
        /\ nth 8 (pointsOf m) 0 = vz (scale m)
        /\ forall i, (9 <= i < 16)%nat -> nth i (pointsOf m) 1 = 0).
Proof.
  split; [|split; [|split]].
  - intro Hmode. unfold dblclick. rewrite Hmode. cbn [Mode_eqb negb].
    unfold dispatchEvent, emit. cbn [trace withMode withDrawEnabled imageID cube].
    rewrite <- app_assoc. reflexivity.
  - intros s' Hdet Hrun. exact (resetActions_edited s s' Hdet Hrun).
  - intros view c Hsel Hscan Hatt. exact (resetActions_returns s view c Hsel Hscan Hatt).
  - intro m. split; [reflexivity|]. split; [reflexivity|]. split; [reflexivity|].
    intros i [Hlo Hhi].
    do 9 (destruct i as [|i]; [lia|]).
    do 7 (destruct i as [|i]; [reflexivity|]).
    lia.
Qed.

(** *** Image change *)

(** C4 (as amended): on an image change with an image, the scenes of the
    four views are cleared before the point-cloud load is started, and
    the [setup] event is dispatched in the same call, after the load is
    started and the object URL revoked, while the load is pending; with no
    image nothing happens. *)
Theorem notifyImageChanged_order (s : State) :
  (forall url, image s = Some url ->
     trace (notifyImageChanged s)
     = trace s ++ [SceneCleared; LoadStarted url; UrlRevoked url; Dispatched CanvasSetup]
     /\ allScenesEmpty (clearScene s) = true
     /\ allScenesEmpty (notifyImageChanged s) = true
     /\ loading (notifyImageChanged s) = loading s ++ [url])
  /\ (image s = None -> notifyImageChanged s = s).
Proof.
  split.
  - intros url Himg. unfold notifyImageChanged. rewrite Himg.
    split; [|repeat split; reflexivity].
    unfold dispatchEvent, loaderLoad, clearScene, emit. cbn [trace withLoading withViews].
    rewrite <- !app_assoc. reflexivity.
  - intro Himg. unfold notifyImageChanged. rewrite Himg. reflexivity.
Qed.

(** ** Further properties of the 3D view *)

(** *** Zooming an orthographic view *)

Lemma wheelZoom_bounds (deltaY zoom : Q) :
  2 # 100 < zoom -> zoom < 208 # 100 ->
  2 # 100 < wheelZoom deltaY zoom /\ wheelZoom deltaY zoom < 208 # 100.
Proof.
  intros Hlo Hhi. unfold wheelZoom.
  destruct (Qltb deltaY 0 && Qltb zoom 2) eqn:Ein.
  - apply andb_true_iff in Ein. destruct Ein as [_ E2].
    apply Qltb_true in E2. split; lra.
  - destruct (Qltb 0 deltaY && Qltb (1 # 10) zoom) eqn:Eout.
    + apply andb_true_iff in Eout. destruct Eout as [_ E1].
      apply Qltb_true in E1. split; lra.
    + split; assumption.
Qed.

(** X1: whatever the wheel events, the zoom of an orthographic camera
    that starts strictly between 0.02 and 2.08 stays there; in
    particular it stays positive.  The limits 0.1 and 2 of the handler
    are thresholds for stepping, not bounds. *)
Theorem wheelZooms_bounds (deltas : list Q) (zoom : Q) :
  2 # 100 < zoom -> zoom < 208 # 100 ->
  2 # 100 < wheelZooms deltas zoom
  /\ wheelZooms deltas zoom < 208 # 100
  /\ 0 < wheelZooms deltas zoom.
Proof.
  unfold wheelZooms. revert zoom.
  induction deltas as [|deltaY rest IH]; intros zoom Hlo Hhi; cbn [fold_left].
  - repeat split; try assumption. lra.
  - destruct (wheelZoom_bounds deltaY zoom Hlo Hhi) as [Hlo' Hhi'].
    exact (IH _ Hlo' Hhi').
Qed.

(** *** Fitting a render surface to its container *)

(** X2: when the container of an orthographic view has changed size, the
    frustum given to the camera is symmetric about the view axis and 7
    units high, and the renderer gets the size of the container.  Without
    a container, or with an unchanged size, nothing is touched. *)
Theorem resizeRendererToDisplaySize_frustum (v : Surface) :
  (forall width height f,
     parentClient v = Some (width, height) ->
     projection v = Some (OrthographicCamera f) ->
     ~ (fst (canvasClient v) == width /\ snd (canvasClient v) == height) ->
     ~ height == 0 ->
     exists f',
       resizeRendererToDisplaySize v
       = mkSurface (parentClient v) (canvasClient v) (width, height)
           (Some (OrthographicCamera f'))
       /\ frustumLeft f' == - frustumRight f'
       /\ frustumBottom f' == - frustumTop f'
       /\ frustumTop f' - frustumBottom f' == CONST.ZOOM_FACTOR)
  /\ (parentClient v = None -> resizeRendererToDisplaySize v = v)
  /\ (forall width height,
        parentClient v = Some (width, height) ->
        fst (canvasClient v) == width -> snd (canvasClient v) == height ->
        resizeRendererToDisplaySize v = v).
Proof.
  split; [|split].
  - intros width height f Hparent Hcam Hchanged Hheight.
    unfold resizeRendererToDisplaySize. rewrite Hparent, Hcam.
    destruct (negb (Qeq_bool (fst (canvasClient v)) width)
              || negb (Qeq_bool (snd (canvasClient v)) height)) eqn:E.
    + eexists. split; [reflexivity|].
      cbn [frustumLeft frustumRight frustumTop frustumBottom].
      unfold CONST.ZOOM_FACTOR.
      repeat split; field; repeat split; (exact Hheight || discriminate).
    + exfalso. apply Hchanged. apply orb_false_iff in E. destruct E as [E1 E2].
      apply negb_false_iff in E1, E2. split; apply Qeq_bool_iff; assumption.
  - intro Hparent. unfold resizeRendererToDisplaySize. rewrite Hparent. reflexivity.
  - intros width height Hparent Hw Hh.
    unfold resizeRendererToDisplaySize. rewrite Hparent.
    apply Qeq_bool_iff in Hw, Hh. rewrite Hw, Hh. reflexivity.
Qed.

(** *** Framing a loaded point cloud *)

Lemma nonZero_zero : nonZero 0 = false.
Proof. reflexivity. Qed.

Lemma nonZero_true (q : Q) : nonZero q = true <-> ~ q == 0.
Proof.
  unfold nonZero. rewrite negb_true_iff. split.
  - intros E H. apply Qeq_bool_iff in H. congruence.
  - intro H. destruct (Qeq_bool q 0) eqn:E; [|reflexivity].
    apply Qeq_bool_iff in E. contradiction.
Qed.

(** X3: the cameras are moved for a loaded point cloud only towards a
    target that, on each axis, is the centre of the bounding sphere where
    the perspective camera is further than half a radius from it, and 0
    where it is nearer; they are not moved when that target is the
    origin, so never for a cloud centred at the origin, however far the
    camera is; and they are moved as soon as the camera is out of range
    on an axis where the centre is not 0. *)
Theorem framing_target (cameraAt sphereCenter : Vector3) (radius : Q) :
  (forall t, framing cameraAt sphereCenter radius = Some t ->
     (vx t = (if inRange radius (vx cameraAt) (vx sphereCenter) then 0 else vx sphereCenter))
     /\ (vy t = (if inRange radius (vy cameraAt) (vy sphereCenter) then 0 else vy sphereCenter))
     /\ (vz t = (if inRange radius (vz cameraAt) (vz sphereCenter) then 0 else vz sphereCenter))
     /\ ~ (vx t == 0 /\ vy t == 0 /\ vz t == 0))
  /\ (vx sphereCenter == 0 -> vy sphereCenter == 0 -> vz sphereCenter == 0 ->
      framing cameraAt sphereCenter radius = None)
  /\ ((inRange radius (vx cameraAt) (vx sphereCenter) = false /\ ~ vx sphereCenter == 0)
      \/ (inRange radius (vy cameraAt) (vy sphereCenter) = false /\ ~ vy sphereCenter == 0)
      \/ (inRange radius (vz cameraAt) (vz sphereCenter) = false /\ ~ vz sphereCenter == 0) ->
      exists t, framing cameraAt sphereCenter radius = Some t).
Proof.
  unfold framing.
  set (newX := if inRange radius (vx cameraAt) (vx sphereCenter) then 0 else vx sphereCenter).
  set (newY := if inRange radius (vy cameraAt) (vy sphereCenter) then 0 else vy sphereCenter).
  set (newZ := if inRange radius (vz cameraAt) (vz sphereCenter) then 0 else vz sphereCenter).
  split; [|split].
  - intros t H.
    destruct (nonZero newX || nonZero newY || nonZero newZ) eqn:E; [|discriminate].
    injection H as <-. cbn [vx vy vz]. repeat split.
    intros [Hx [Hy Hz]].
    apply orb_true_iff in E. destruct E as [E|E].
    + apply orb_true_iff in E. destruct E as [E|E]; apply nonZero_true in E; contradiction.
    + apply nonZero_true in E. contradiction.
  - intros Hx Hy Hz.
    assert (Ex : nonZero newX = false).
    { subst newX. destruct (inRange radius (vx cameraAt) (vx sphereCenter));
        [reflexivity|]. unfold nonZero. apply Qeq_bool_iff in Hx. rewrite Hx. reflexivity. }
    assert (Ey : nonZero newY = false).
    { subst newY. destruct (inRange radius (vy cameraAt) (vy sphereCenter));
        [reflexivity|]. unfold nonZero. apply Qeq_bool_iff in Hy. rewrite Hy. reflexivity. }
    assert (Ez : nonZero newZ = false).
    { subst newZ. destruct (inRange radius (vz cameraAt) (vz sphereCenter));
        [reflexivity|]. unfold nonZero. apply Qeq_bool_iff in Hz. rewrite Hz. reflexivity. }
    rewrite Ex, Ey, Ez. reflexivity.
  - intros H.
    assert (E : nonZero newX || nonZero newY || nonZero newZ = true).
    { destruct H as [[Hr Hc]|[[Hr Hc]|[Hr Hc]]].
      - subst newX. rewrite Hr. apply nonZero_true in Hc. rewrite Hc. reflexivity.
      - subst newY. rewrite Hr. apply nonZero_true in Hc. rewrite Hc.
        rewrite orb_true_r. reflexivity.
      - subst newZ. rewrite Hr. apply nonZero_true in Hc. rewrite Hc.
        rewrite orb_true_r. reflexivity. }
    rewrite E. eexists. reflexivity.
Qed.


(** *** Attaching and detaching the cameras *)

(** Unfolding of the records of the view, without touching numbers. *)
Ltac view_simpl :=
  cbn [bind defined hit negb andb orb ViewType_eqb getView setView meshOf
       scene camera controlsEnabled mouseVector cloud refPlane
       viewPerspective viewTop viewSide viewFront
       camPosition camRotation camScale camParent planePosition planeRotation
       position scale rotation name children userData
       perspective top side front
       mode drawEnabled image imageID objects activeElement selected cube views
       action loading trace
       scan detected initialMouseVector translation actRotation resize
       translationStatus translationHelper coordinates
       rotationStatus rotationHelper screenInit screenMove
       resizeStatus resizeHelper initScales memScales resizeVector
       withScene withCamera withControls withMouseVector withPosition withScale
       withRotation withChildren withViews withAction withSelected withMode
       withDrawEnabled withLoading emit dispatchEvent withScan withDetected
       withTranslation withActRotation withResize
       setMouseVector disableControls attachTo detached placeCamera movePlane
       translateReferencePlane fst snd].

(** X6: for a selected cuboid, attaching the cameras for a rotation in a
    view and detaching them again always succeeds; the cameras of the two
    other views are attached in between, and afterwards they have no
    parent, scale (1, 1, 1) and the position given by the spherical
    reference of the cuboid; the camera of the view itself, the
    selection, the action record and the events are left as they were. *)
Theorem attach_then_detach (view : ViewType) (s : State) (c : CuboidModel) :
  selected s = Some c ->
  exists s1 s2,
    attachCamera view s = Ok s1
    /\ detachCamera view s1 = Ok s2
    /\ (forall w, w <> view ->
          camParent (camera (getView w (views s1))) = Some w
          /\ camParent (camera (getView w (views s2))) = None
          /\ camScale (camera (getView w (views s2))) = unit3
          /\ camPosition (camera (getView w (views s2)))
             = viaSpherical (getReferenceCoordinates c w))
    /\ camera (getView view (views s2)) = camera (getView view (views s))
    /\ selected s2 = Some c
    /\ action s2 = action s
    /\ trace s2 = trace s.
Proof.
  intro Hsel. unfold attachCamera. rewrite Hsel.
  destruct view; view_simpl;
    do 2 eexists; (split; [reflexivity|]);
    unfold detachCamera, attachedTo; view_simpl; rewrite Hsel; view_simpl;
    (split; [reflexivity|]);
    (split; [intros w Hw; destruct w; try (exfalso; apply Hw; reflexivity);
             repeat split; reflexivity|]);
    repeat split; try reflexivity; exact Hsel.
Qed.

(** *** After a commit *)

Lemma resetActions_idle (s s' : State) :
  detected (action s) = true ->
  resetActions s = Ok s' ->
  action s'
  = mkAction None false (initialMouseVector (action s))
      (mkTranslation false None None)
      (mkRotation false None None None)
      (mkResize false None (initScales (resize (action s)))
         (memScales (resize (action s))) (resizeVector (resize (action s)))).
Proof.
  intros Hdet. unfold resetActions. rewrite Hdet. cbn [negb].
  destruct (selected s) as [c|]; [|discriminate].
  destruct (scan (action s)) as [view|]; [|discriminate].
  cbn [defined bind]. set (s1 := dispatchEvent _ s).
  assert (A1 : action s1 = action s) by reflexivity.
  destruct (rotationStatus (actRotation (action s1))).
  - destruct (detachCamera view s1) as [s2|] eqn:E2; [|discriminate].
    cbn [bind]. apply detachCamera_frame in E2. destruct E2 as [_ [_ A2]].
    destruct (adjustPerspectiveCameras s2) as [s3|] eqn:E3; [|discriminate].
    cbn [bind]. apply adjustPerspectiveCameras_frame in E3.
    destruct E3 as [_ [_ A3]]. intro H. injection H as <-.
    view_simpl. rewrite A3, A2, A1. reflexivity.
  - cbn [bind].
    destruct (adjustPerspectiveCameras s1) as [s3|] eqn:E3; [|discriminate].
    cbn [bind]. apply adjustPerspectiveCameras_frame in E3.
    destruct E3 as [_ [_ A3]]. intro H. injection H as <-.
    view_simpl. rewrite A3, A1. reflexivity.
Qed.


(** *** Pointer-down without a gesture *)


(** *** Successive image changes *)

(** X9: an image change never cancels a load that is under way: after two
    image changes with an image present both loads are pending, in the
    order they were started, and [setup] has been dispatched twice. *)
Theorem notifyImageChanged_twice (s : State) (url : Z) :
  image s = Some url ->
  loading (notifyImageChanged (notifyImageChanged s)) = loading s ++ [url; url]
  /\ dispatched (notifyImageChanged (notifyImageChanged s))
     = dispatched s ++ [CanvasSetup; CanvasSetup].
Proof.
  intro Himg. unfold notifyImageChanged. rewrite Himg. view_simpl.
  unfold clearScene, loaderLoad. view_simpl. rewrite Himg. view_simpl.
  split.
  - rewrite <- app_assoc. reflexivity.
  - unfold dispatched. view_simpl.
    rewrite !flat_map_app. cbn [flat_map app].
    rewrite !app_nil_r, <- !app_assoc. reflexivity.
Qed.

(** *** A whole gesture *)

Ltac view_simpl_in H :=
  cbn [bind defined hit negb andb orb ViewType_eqb getView setView meshOf
       scene camera controlsEnabled mouseVector cloud refPlane
       viewPerspective viewTop viewSide viewFront
       camPosition camRotation camScale camParent planePosition planeRotation
       position scale rotation name children userData
       perspective top side front
       mode drawEnabled image imageID objects activeElement selected cube views
       action loading trace
       scan detected initialMouseVector translation actRotation resize
       translationStatus translationHelper coordinates
       rotationStatus rotationHelper screenInit screenMove
       resizeStatus resizeHelper initScales memScales resizeVector
       withScene withCamera withControls withMouseVector withPosition withScale
       withRotation withChildren withViews withAction withSelected withMode
       withDrawEnabled withLoading emit dispatchEvent withScan withDetected
       withTranslation withActRotation withResize
       setMouseVector disableControls attachTo detached placeCamera movePlane
       translateReferencePlane fst snd] in H.


Lemma ViewType_eqb_refl (v : ViewType) : ViewType_eqb v v = true.
Proof. destruct v; reflexivity. Qed.

Lemma startAction_started (view : ViewType) (canvas : Canvas) (e : MouseEvent)
    (s : State) :
  canStart s = true ->
  startAction view canvas e s
  = withAction
      (withScan (Some view)
         (withActRotation
            (mkRotation (rotationStatus (actRotation (action s)))
               (rotationHelper (actRotation (action s)))
               (Some (vec2 (clientX e) (clientY e)))
               (Some (vec2 (clientX e) (clientY e))))
            (action s)))
      (setMouseVector view (pointerNDC canvas e) s).
Proof.
  intro Hcan. unfold startAction.
  match goal with
  | |- (if canStart ?s2 then _ else _) = _ =>
      change (canStart s2) with (canStart s)
  end.
  rewrite Hcan. reflexivity.
Qed.

(** X10: a whole TRANSLATE gesture.  On a selected, unlocked, visible
    cuboid with no gesture under way, a pointer-down in a view, a frame
    in which the ray misses the handles, hits the body and meets the
    reference plane at [p], and a pointer-up dispatch exactly one
    [edited] event; its point array is [p], then the rotation and the
    scale the mesh of the view had; the four meshes and the reference
    planes that exist are at [p], and no gesture is left. *)
Theorem translate_gesture (view : ViewType) (canvas : Canvas) (e : MouseEvent)
    (ray : RayCaster) (s : State) (c : CuboidModel) (pl : Plane)
    (p : Vector3) (rest : list Vector3) :
  activeElement s <> None ->
  selected s = Some c ->
  canStart s = true ->
  translationStatus (translation (action s)) = false ->
  resizeStatus (resize (action s)) = false ->
  rotationStatus (actRotation (action s)) = false ->
  hit (ray (ResizeHelpers view)) = false ->
  hasRotationHelper (meshOf view c) = true ->
  hit (ray (RotationHelper view)) = false ->
  hit (ray (Body view)) = true ->
  refPlane (scene (getView view (views s))) = Some pl ->
  ray (ReferencePlane view) = p :: rest ->
  exists s1 s2 c2,
    renderGesture view ray canvas (startAction view canvas e s) = Ok s1
    /\ subMode (action s1) = Some TRANSLATE
    /\ resetActions s1 = Ok s2
    /\ trace s2
       = trace s
           ++ [Dispatched
                 (CanvasEdited
                    (find (fun o => Z.eqb (clientID o) (name (meshOf view c))) (objects s))
                    ([vx p; vy p; vz p]
                       ++ [vx (readEuler (rotation (meshOf view c)));
                           vy (readEuler (rotation (meshOf view c)));
                           vz (readEuler (rotation (meshOf view c)))]
                       ++ [vx (scale (meshOf view c)); vy (scale (meshOf view c));
                           vz (scale (meshOf view c))]
                       ++ repeat 0 7))]
    /\ selected s2 = Some c2
    /\ Forall (fun m => position m = p) (meshes c2)
    /\ (forall w pl', refPlane (scene (getView w (views s))) = Some pl' ->
          refPlane (scene (getView w (views s2))) = Some (mkPlane p (planeRotation pl')))
    /\ subMode (action s2) = None
    /\ scan (action s2) = None.
Proof.
  intros Hactive Hsel Hcan Ht Hrs Hr Hresize Hhelper Hrot Hbody Hpl Hray.
  rewrite (startAction_started view canvas e s Hcan).
  destruct (activeElement s) as [id|] eqn:Hid; [|contradiction].
  unfold renderGesture, initiateAction, renderTranslateAction, moveObject.
  destruct view; view_simpl_in Hhelper; view_simpl_in Hpl; view_simpl;
    rewrite Hid, Ht, Hrs, Hr; view_simpl;
    rewrite Hsel; view_simpl; rewrite Hresize, Hhelper, Hrot, Hbody; view_simpl;
    rewrite Hpl, Hray; view_simpl; rewrite Hsel; view_simpl;
    do 3 eexists; (split; [reflexivity|]);
    (split; [unfold subMode; view_simpl; reflexivity|]);
    unfold resetActions, adjustPerspectiveCameras; view_simpl;
    (split; [reflexivity|]);
    (split; [unfold pointsOf; view_simpl; reflexivity|]);
    (split; [reflexivity|]);
    (split; [unfold meshes; repeat constructor|]);
    (split; [intros w pl' Hw; unfold translateReferencePlane, movePlane;
             destruct w; view_simpl_in Hw; view_simpl; rewrite Hw; reflexivity|]);
    split; reflexivity.
Qed.

Lemma Qeq_bool_same (a : Q) : Qeq_bool a a = true.
Proof. apply Qeq_bool_iff. reflexivity. Qed.

Lemma detachCamera_parents (view : ViewType) (s s' : State) :
  detachCamera view s = Ok s' ->
  forall w, w <> view -> camParent (camera (getView w (views s'))) = None.
Proof.
  unfold detachCamera. destruct (selected s) as [c|]; [|discriminate].
  cbn [defined bind]. destruct view;
    repeat match goal with
           | |- context [attachedTo ?v ?vs] => destruct (attachedTo v vs)
           end;
    cbn [bind]; intro H; try discriminate; injection H as <-;
    intros w Hw; destruct w; try (exfalso; apply Hw; reflexivity); reflexivity.
Qed.

Lemma adjustPerspectiveCameras_parents (s s' : State) :
  adjustPerspectiveCameras s = Ok s' ->
  forall w, camParent (camera (getView w (views s')))
            = camParent (camera (getView w (views s))).
Proof.
  unfold adjustPerspectiveCameras. destruct (selected s) as [c|]; [|discriminate].
  cbn [defined bind]. intro H. injection H as <-.
  intro w. destruct w; reflexivity.
Qed.

Lemma movePlane_camera (p : Vector3) (rv : RenderView) :
  camera (movePlane p rv) = camera rv.
Proof. unfold movePlane. destruct (refPlane (scene rv)); reflexivity. Qed.

Lemma resetActions_selected (s s' : State) :
  resetActions s = Ok s' -> selected s' = selected s.
Proof.
  unfold resetActions. destruct (detected (action s)); cbn [negb].
  - destruct (selected s) as [c|] eqn:Hsel; [|discriminate].
    destruct (scan (action s)) as [view|]; [|discriminate].
    cbn [defined bind]. set (s1 := dispatchEvent _ s).
    assert (S1 : selected s1 = Some c) by exact Hsel.
    destruct (rotationStatus (actRotation (action s1))).
    + destruct (detachCamera view s1) as [s2|] eqn:E2; [|discriminate].
      cbn [bind]. apply detachCamera_frame in E2. destruct E2 as [S2 _].
      destruct (adjustPerspectiveCameras s2) as [s3|] eqn:E3; [|discriminate].
      cbn [bind]. apply adjustPerspectiveCameras_frame in E3. destruct E3 as [S3 _].
      intro H. injection H as <-. view_simpl. congruence.
    + cbn [bind].
      destruct (adjustPerspectiveCameras s1) as [s3|] eqn:E3; [|discriminate].
      cbn [bind]. apply adjustPerspectiveCameras_frame in E3. destruct E3 as [S3 _].
      intro H. injection H as <-. view_simpl. congruence.
  - intro H. injection H as <-. reflexivity.
Qed.

Lemma resetActions_unparents (s s' : State) (view : ViewType) :
  detected (action s) = true ->
  rotationStatus (actRotation (action s)) = true ->
  scan (action s) = Some view ->
  resetActions s = Ok s' ->
  forall w, w <> view -> camParent (camera (getView w (views s'))) = None.
Proof.
  intros Hdet Hrot Hscan. unfold resetActions. rewrite Hdet, Hscan. cbn [negb].
  destruct (selected s) as [c|]; [|discriminate].
  cbn [defined bind]. set (s1 := dispatchEvent _ s).
  change (rotationStatus (actRotation (action s1)))
    with (rotationStatus (actRotation (action s))).
  rewrite Hrot.
  destruct (detachCamera view s1) as [s2|] eqn:E2; [|discriminate].
  cbn [bind]. pose proof (detachCamera_parents view s1 s2 E2) as P2.
  destruct (adjustPerspectiveCameras s2) as [s3|] eqn:E3; [|discriminate].
  cbn [bind]. pose proof (adjustPerspectiveCameras_parents s2 s3 E3) as P3.
  intro H. injection H as <-. intros w Hw.
  rewrite <- (P2 w Hw), <- (P3 w).
  unfold translateReferencePlane. view_simpl.
  destruct w; view_simpl; rewrite movePlane_camera; reflexivity.
Qed.

(** The frame after a pointer-down on the rotation handle. *)
Lemma rotate_first_frame (view : ViewType) (canvas : Canvas)
    (e : MouseEvent) (ray : RayCaster) (s : State) (c : CuboidModel) :
  activeElement s <> None ->
  selected s = Some c ->
  canStart s = true ->
  translationStatus (translation (action s)) = false ->
  resizeStatus (resize (action s)) = false ->
  rotationStatus (actRotation (action s)) = false ->
  hit (ray (ResizeHelpers view)) = false ->
  hasRotationHelper (meshOf view c) = true ->
  hit (ray (RotationHelper view)) = true ->
  exists s1,
    renderGesture view ray canvas (startAction view canvas e s) = Ok s1
    /\ subMode (action s1) = Some ROTATE
    /\ detected (action s1) = true
    /\ rotationStatus (actRotation (action s1)) = true
    /\ scan (action s1) = Some view
    /\ selected s1 = Some c
    /\ objects s1 = objects s
    /\ trace s1 = trace s
    /\ (forall w, w <> view -> camParent (camera (getView w (views s1))) = Some w).
Proof.
  intros Hactive Hsel Hcan Ht Hrs Hr Hresize Hhelper Hrot.
  rewrite (startAction_started view canvas e s Hcan).
  destruct (activeElement s) as [id|] eqn:Hid; [|contradiction].
  unfold renderGesture, initiateAction, attachCamera, renderRotateAction.
  destruct view; view_simpl_in Hhelper;
    repeat (progress (view_simpl;
                      rewrite ?Hid, ?Hsel, ?Ht, ?Hrs, ?Hr, ?Hresize, ?Hhelper, ?Hrot,
                              ?Qeq_bool_same));
    eexists; (split; [reflexivity|]);
    (split; [unfold subMode; view_simpl; rewrite ?Ht, ?Hrs; reflexivity|]);
    (split; [reflexivity|]); (split; [reflexivity|]); (split; [reflexivity|]);
    (split; [exact Hsel|]); (split; [reflexivity|]); (split; [reflexivity|]);
    intros w Hw; destruct w; try (exfalso; apply Hw; reflexivity); reflexivity.
Qed.

(** X11: a whole ROTATE gesture without motion.  On a selected,
    unlocked, visible cuboid with no gesture under way, a pointer-down in
    a view, a frame in which the ray misses the resize handles and hits
    the rotation handle, and a pointer-up with the pointer where it went
    down: the frame attaches the cameras of the other views and turns
    nothing, and the pointer-up commits: exactly one [edited] event, with
    the point array the mesh of the view had, the cuboid as it was, the
    cameras of the other views without a parent again, and no gesture
    left. *)
Theorem rotate_gesture_without_motion (view : ViewType) (canvas : Canvas)
    (e : MouseEvent) (ray : RayCaster) (s : State) (c : CuboidModel) :
  activeElement s <> None ->
  selected s = Some c ->
  canStart s = true ->
  translationStatus (translation (action s)) = false ->
  resizeStatus (resize (action s)) = false ->
  rotationStatus (actRotation (action s)) = false ->
  hit (ray (ResizeHelpers view)) = false ->
  hasRotationHelper (meshOf view c) = true ->
  hit (ray (RotationHelper view)) = true ->
  exists s1 s2,
    renderGesture view ray canvas (startAction view canvas e s) = Ok s1
    /\ subMode (action s1) = Some ROTATE
    /\ selected s1 = Some c
    /\ (forall w, w <> view -> camParent (camera (getView w (views s1))) = Some w)
    /\ resetActions s1 = Ok s2
    /\ trace s2
       = trace s
           ++ [Dispatched
                 (CanvasEdited
                    (find (fun o => Z.eqb (clientID o) (name (meshOf view c))) (objects s))
                    (pointsOf (meshOf view c)))]
    /\ selected s2 = Some c
    /\ (forall w, w <> view -> camParent (camera (getView w (views s2))) = None)
    /\ subMode (action s2) = None
    /\ scan (action s2) = None.
Proof.
  intros Hactive Hsel Hcan Ht Hrs Hr Hresize Hhelper Hrot.
  destruct (rotate_first_frame view canvas e ray s c
              Hactive Hsel Hcan Ht Hrs Hr Hresize Hhelper Hrot)
    as [s1 [Hrun [Hsub [Hdet [Hrot1 [Hscan [Hsel1 [Hobj [Htrace Hatt]]]]]]]]].
  destruct (resetActions_returns s1 view c Hsel1 Hscan (fun _ => Hatt)) as [s2 Hreset].
  exists s1, s2.
  split; [exact Hrun|]. split; [exact Hsub|]. split; [exact Hsel1|].
  split; [exact Hatt|]. split; [exact Hreset|].
  destruct (resetActions_edited s1 s2 Hdet Hreset) as [v [c' [Hv [Hc Htr]]]].
  rewrite Hscan in Hv. injection Hv as <-. rewrite Hsel1 in Hc. injection Hc as <-.
  split; [rewrite Htr, Htrace, Hobj; reflexivity|].
  split; [rewrite (resetActions_selected s1 s2 Hreset); exact Hsel1|].
  split; [exact (resetActions_unparents s1 s2 view Hdet Hrot1 Hscan Hreset)|].
  rewrite (resetActions_idle s1 s2 Hdet Hreset). split; reflexivity.
Qed.

(** *** More on RESIZE *)

(** A resize step whose ray meets the reference plane: the selection and
    the resize record after it. *)
Lemma renderResizeAction_step (view : ViewType) (ray : RayCaster) (s : State)
    (c : CuboidModel) (pl : Plane) (h : Vector2) :
  selected s = Some c ->
  refPlane (scene (getView view (views s))) = Some pl ->
  resizeHelper (resize (action s)) = Some h ->
  hit (ray (ReferencePlane view)) = true ->
  exists s' c',
    renderResizeAction view ray s = Ok s'
    /\ selected s' = Some c'
    /\ Forall (fun m =>
         scale m = fst (fst (fst (resizeStep view (scale (top c))
                                    (initScales (resize (action s)))
                                    (memScales (resize (action s)))
                                    h (mouseVector (getView view (views s)))
                                    (resizeVector (resize (action s)))))))
         (meshes c')
    /\ resize (action s')
       = mkResize (resizeStatus (resize (action s))) (resizeHelper (resize (action s)))
           (initScales (resize (action s)))
           (snd (resizeStep view (scale (top c))
                   (initScales (resize (action s)))
                   (memScales (resize (action s)))
                   h (mouseVector (getView view (views s)))
                   (resizeVector (resize (action s)))))
           (snd (fst (resizeStep view (scale (top c))
                        (initScales (resize (action s)))
                        (memScales (resize (action s)))
                        h (mouseVector (getView view (views s)))
                        (resizeVector (resize (action s))))))
    /\ subMode (action s') = subMode (action s)
    /\ trace s' = trace s.
Proof.
  intros Hsel Hpl Hh Hhit. unfold renderResizeAction.
  rewrite Hpl. cbn [defined bind]. rewrite Hhit, Hh. cbn [defined bind].
  rewrite Hsel. cbn [defined bind].
  destruct (resizeStep view (scale (top c)) (initScales (resize (action s)))
              (memScales (resize (action s))) h
              (mouseVector (getView view (views s)))
              (resizeVector (resize (action s))))
    as [[[sc [[cx cy] cz]] rv] mem].
  cbn [fst snd]. unfold setSelectedChildScale, moveObject, adjustPerspectiveCameras.
  cbn [selected withSelected withAction defined bind].
  do 2 eexists. split; [reflexivity|]. split; [reflexivity|].
  split; [unfold meshes; destruct sc as [a b d]; repeat constructor|].
  split; [reflexivity|]. split; reflexivity.
Qed.

(** X12: a resize frame whose handle is off both centre lines of the
    view leaves in [memScales] the scale it gives the four meshes on the
    two axes it resizes, with height and depth exchanged in the front
    view, where [memScales.y] holds the depth and [memScales.z] the
    height; the third component of [memScales] and the third component of
    the offset [resizeVector] are kept. *)
Theorem renderResizeAction_memScales (view : ViewType) (ray : RayCaster) (s : State)
    (c : CuboidModel) (pl : Plane) (h : Vector2) :
  selected s = Some c ->
  refPlane (scene (getView view (views s))) = Some pl ->
  resizeHelper (resize (action s)) = Some h ->
  hit (ray (ReferencePlane view)) = true ->
  ~ v2x h == 0 -> ~ v2y h == 0 ->
  exists s' c',
    renderResizeAction view ray s = Ok s'
    /\ selected s' = Some c'
    /\ vz (resizeVector (resize (action s'))) = vz (resizeVector (resize (action s)))
    /\ match view with
       | TOP =>
           Forall (fun m => vx (memScales (resize (action s'))) = vx (scale m)
                            /\ vy (memScales (resize (action s'))) = vy (scale m))
             (meshes c')
           /\ vz (memScales (resize (action s'))) = vz (memScales (resize (action s)))
       | SIDE =>
           Forall (fun m => vx (memScales (resize (action s'))) = vx (scale m)
                            /\ vz (memScales (resize (action s'))) = vz (scale m))
             (meshes c')
           /\ vy (memScales (resize (action s'))) = vy (memScales (resize (action s)))
       | FRONT =>
           Forall (fun m => vy (memScales (resize (action s'))) = vz (scale m)
                            /\ vz (memScales (resize (action s'))) = vy (scale m))
             (meshes c')
           /\ vx (memScales (resize (action s'))) = vx (memScales (resize (action s)))
       end.
Proof.
  intros Hsel Hpl Hh Hhit _ _.
  destruct (renderResizeAction_step view ray s c pl h Hsel Hpl Hh Hhit)
    as [s' [c' [Hrun [Hsel' [Hscale [Hrec _]]]]]].
  exists s', c'. split; [exact Hrun|]. split; [exact Hsel'|].
  rewrite Hrec. cbn [resizeVector memScales].
  apply Forall_meshes in Hscale. destruct Hscale as [E1 [E2 [E3 E4]]].
  split.
  - unfold resizeStep. destruct view; cbn [fst snd vz]; try reflexivity;
      repeat match goal with
             | |- context [if ?b then _ else _] => destruct b
             end; reflexivity.
  - destruct view; (split; [|unfold resizeStep; reflexivity]);
      apply Forall_meshes; rewrite E1, E2, E3, E4;
      unfold resizeStep; cbn [fst snd vx vy vz];
      repeat split; reflexivity.
Qed.

Lemma clampScale_nonnegative (x : Q) : 0 <= x -> clampScale x = x.
Proof.
  intro H. unfold clampScale.
  destruct (Qltb x 0) eqn:E; [|reflexivity].
  apply Qltb_true in E. exfalso. exact (Qlt_not_le _ _ E H).
Qed.

Lemma clampScale_still (a p : Q) :
  0 <= a -> ~ p == 0 -> clampScale (a * (p / p)) == a.
Proof.
  intros Ha Hp.
  assert (E : a * (p / p) == a) by (field; exact Hp).
  rewrite clampScale_nonnegative; [exact E|]. rewrite E. exact Ha.
Qed.

(** The offset a resize frame computes while the pointer is where the
    gesture started and the remembered scales are the initial ones. *)
Lemma resizeStep_still (view : ViewType) (sc : Vector3) (p : Vector2) :
  0 <= vx sc -> 0 <= vy sc -> 0 <= vz sc ->
  ~ v2x p == 0 -> ~ v2y p == 0 ->
  (view = FRONT -> vy sc == vz sc) ->
  let step := resizeStep view sc sc sc p p (vec3 0 0 0) in
  vx (fst (fst (fst step))) == vx sc
  /\ vy (fst (fst (fst step))) == vy sc
  /\ vz (fst (fst (fst step))) == vz sc
  /\ vx (snd (fst step)) == 0
  /\ vy (snd (fst step)) == 0
  /\ vz (snd (fst step)) == 0.
Proof.
  intros Hx Hy Hz Hpx Hpy Hfront.
  pose proof (clampScale_still (vx sc) (v2x p) Hx Hpx) as Axx.
  pose proof (clampScale_still (vy sc) (v2y p) Hy Hpy) as Ayy.
  pose proof (clampScale_still (vy sc) (v2x p) Hy Hpx) as Ayx.
  pose proof (clampScale_still (vz sc) (v2y p) Hz Hpy) as Azy.
  destruct view; cbn zeta; unfold resizeStep;
    first [specialize (Hfront eq_refl) | clear Hfront];
    repeat match goal with
           | H : clampScale ?t == _ |- _ => generalize dependent (clampScale t); intros
           end;
    repeat match goal with
           | |- context [if ?b then _ else _] => destruct b
           end;
    cbn [fst snd vx vy vz];
    repeat split; try assumption; try reflexivity;
    rewrite ?Axx, ?Ayy, ?Ayx, ?Azy; try rewrite Hfront; ring.
Qed.

(** X13: the frame in which a resize handle is caught does not resize:
    with the pointer off both centre lines of the canvas and a cuboid of
    non-negative scale whose meshes are in sync (and, in the front view,
    of equal height and depth), that frame chooses RESIZE, leaves the
    scale of the four meshes at its value and the offset at zero. *)
Theorem resize_first_frame (view : ViewType) (ray : RayCaster) (canvas : Canvas)
    (s : State) (c : CuboidModel) (pl : Plane) :
  activeElement s <> None ->
  scan (action s) = Some view ->
  selected s = Some c ->
  scalesInSync c ->
  translationStatus (translation (action s)) = false ->
  resizeStatus (resize (action s)) = false ->
  rotationStatus (actRotation (action s)) = false ->
  hit (ray (ResizeHelpers view)) = true ->
  refPlane (scene (getView view (views s))) = Some pl ->
  hit (ray (ReferencePlane view)) = true ->
  ~ v2x (mouseVector (getView view (views s))) == 0 ->
  ~ v2y (mouseVector (getView view (views s))) == 0 ->
  0 <= vx (scale (top c)) -> 0 <= vy (scale (top c)) -> 0 <= vz (scale (top c)) ->
  (view = FRONT -> vy (scale (top c)) == vz (scale (top c))) ->
  exists s' c',
    renderGesture view ray canvas s = Ok s'
    /\ subMode (action s') = Some RESIZE
    /\ selected s' = Some c'
    /\ Forall (fun m => vx (scale m) == vx (scale (top c))
                        /\ vy (scale m) == vy (scale (top c))
                        /\ vz (scale m) == vz (scale (top c))) (meshes c')
    /\ vx (resizeVector (resize (action s'))) == 0
    /\ vy (resizeVector (resize (action s'))) == 0
    /\ vz (resizeVector (resize (action s'))) == 0.
Proof.
  intros Hactive Hscan Hsel [Hp [Hs Hf]] Ht Hrs Hr Hresize Hpl Hplane Hpx Hpy
         Hx Hy Hz Hfront.
  destruct (activeElement s) as [id|] eqn:Hid; [|contradiction].
  unfold renderGesture. rewrite Hid, Hscan, ViewType_eqb_refl, Ht, Hrs, Hr.
  cbn [orb negb]. unfold initiateAction. rewrite Hsel. cbn [defined bind].
  rewrite Hresize. cbn [bind].
  set (s1 := disableControls _).
  assert (Hdet1 : detected (action s1) = true) by reflexivity.
  assert (Ht1 : translationStatus (translation (action s1)) = false) by exact Ht.
  assert (Hrs1 : resizeStatus (resize (action s1)) = true) by reflexivity.
  rewrite Hdet1, Ht1, Hrs1.
  assert (Hsel1 : selected s1 = Some c) by exact Hsel.
  assert (Hpl1 : refPlane (scene (getView view (views s1))) = Some pl).
  { rewrite <- Hpl. subst s1. destruct view; reflexivity. }
  assert (Hm1 : mouseVector (getView view (views s1))
                = mouseVector (getView view (views s))).
  { subst s1. destruct view; reflexivity. }
  assert (Hh1 : resizeHelper (resize (action s1))
                = Some (mouseVector (getView view (views s)))) by reflexivity.
  destruct (renderResizeAction_step view ray s1 c pl _ Hsel1 Hpl1 Hh1 Hplane)
    as [s' [c' [Hrun [Hsel' [Hscale [Hrec [Hsub _]]]]]]].
  exists s', c'. split; [exact Hrun|].
  split; [rewrite Hsub; unfold subMode; rewrite Hdet1, Ht1, Hrs1; reflexivity|].
  split; [exact Hsel'|].
  rewrite Hm1 in Hscale, Hrec.
  assert (Hinit : initScales (resize (action s1)) = scale (meshOf view c)) by reflexivity.
  assert (Hmem : memScales (resize (action s1)) = scale (meshOf view c)) by reflexivity.
  assert (Hrv : resizeVector (resize (action s1)) = vec3 0 0 0) by reflexivity.
  rewrite Hinit, Hmem, Hrv in Hscale, Hrec.
  assert (Hview : scale (meshOf view c) = scale (top c))
    by (destruct view; cbn [meshOf]; congruence).
  rewrite Hview in Hscale, Hrec.
  destruct (resizeStep_still view (scale (top c))
              (mouseVector (getView view (views s))) Hx Hy Hz Hpx Hpy Hfront)
    as [Sx [Sy [Sz [Rx [Ry Rz]]]]].
  split.
  - apply Forall_meshes in Hscale. destruct Hscale as [E1 [E2 [E3 E4]]].
    apply Forall_meshes. rewrite E1, E2, E3, E4. repeat split; assumption.
  - rewrite Hrec. cbn [resizeVector]. repeat split; assumption.
Qed.

End View.

(* ================================================================== *)
(** ** The properties on the sample configurations *)
(* ================================================================== *)

(** The pointer goes down on a selected, unlocked, visible cuboid: the
    top view starts scanning, and it does only because such a cuboid is
    there; on a locked one [scan] stays [null]. *)
Lemma startAction_gate_witness :
  scan (action (startAction TOP sampleCanvas (mkMouseEvent 75 25)
                  (sampleState (vec2 0 0) initialAction))) = Some TOP
  /\ scan (action (startAction TOP sampleCanvas (mkMouseEvent 75 25) lockedState)) = None
  /\ exists c, selected (sampleState (vec2 0 0) initialAction) = Some c
       /\ userLock (perspective c) = false /\ userHidden (perspective c) = false.
Proof.
  pose proof (startAction_gate TOP sampleCanvas (mkMouseEvent 75 25)
                (sampleState (vec2 0 0) initialAction)) as [_ [Hstart Honly]].
  pose proof (startAction_gate TOP sampleCanvas (mkMouseEvent 75 25) lockedState)
    as [Hlocked _].
  split; [|split].
  - apply (Hstart sampleCuboid); reflexivity.
  - apply Hlocked.
    + right. exists lockedCuboid. split; [reflexivity|]. left. reflexivity.
    + reflexivity.
  - apply Honly. discriminate.
Defined.

Lemma resetActions_undetected_witness :
  resetActions sampleReference sampleSpherical sampleWorldQuaternion sampleEuler
    (sampleState (vec2 0 0) initialAction)
  = Ok (sampleState (vec2 0 0) initialAction).
Proof.
  apply resetActions_undetected. reflexivity.
Defined.

(** With every ray hitting, the resize handles win; with the rotation
    handle alone, ROTATE; with the body alone, TRANSLATE; with no hit, no
    gesture. *)
Lemma initiateAction_priority_witness :
  (exists s',
     initiateAction sampleRelativeTo TOP (hitsAt origin)
       (sampleState (vec2 0 0) initialAction) = Ok s'
     /\ subMode (action s') = Some RESIZE /\ orbitDisabled s' = true)
  /\ (exists s',
        initiateAction sampleRelativeTo TOP hitsRotationHelper
          (sampleState (vec2 0 0) initialAction) = Ok s'
        /\ subMode (action s') = Some ROTATE /\ orbitDisabled s' = true)
  /\ (exists s',
        initiateAction sampleRelativeTo TOP hitsBody
          (sampleState (vec2 0 0) initialAction) = Ok s'
        /\ subMode (action s') = Some TRANSLATE /\ orbitDisabled s' = true)
  /\ initiateAction sampleRelativeTo TOP misses (sampleState (vec2 0 0) initialAction)
     = Ok (sampleState (vec2 0 0) initialAction).
Proof.
  split; [|split; [|split]].
  - destruct (initiateAction_priority sampleRelativeTo TOP (hitsAt origin)
                (sampleState (vec2 0 0) initialAction) sampleCuboid
                eq_refl (fun _ => eq_refl) eq_refl eq_refl eq_refl)
      as [s' [Hrun [Hresize _]]].
    exists s'. split; [exact Hrun|].
    destruct (Hresize eq_refl) as [Hsub [_ [_ [_ Horbit]]]]. split; assumption.
  - destruct (initiateAction_priority sampleRelativeTo TOP hitsRotationHelper
                (sampleState (vec2 0 0) initialAction) sampleCuboid
                eq_refl (fun _ => eq_refl) eq_refl eq_refl eq_refl)
      as [s' [Hrun [_ [Hrotate _]]]].
    exists s'. split; [exact Hrun|].
    destruct (Hrotate eq_refl eq_refl) as [Hsub [_ [_ [_ Horbit]]]]. split; assumption.
  - destruct (initiateAction_priority sampleRelativeTo TOP hitsBody
                (sampleState (vec2 0 0) initialAction) sampleCuboid
                eq_refl (fun _ => eq_refl) eq_refl eq_refl eq_refl)
      as [s' [Hrun [_ [_ [Htranslate _]]]]].
    exists s'. split; [exact Hrun|].
    destruct (Htranslate eq_refl eq_refl eq_refl) as [Hsub [_ [_ [_ Horbit]]]].
    split; assumption.
  - destruct (initiateAction_priority sampleRelativeTo TOP misses
                (sampleState (vec2 0 0) initialAction) sampleCuboid
                eq_refl (fun _ => eq_refl) eq_refl eq_refl eq_refl)
      as [s' [Hrun [_ [_ [_ Hnone]]]]].
    rewrite Hrun. f_equal. apply Hnone; reflexivity.
Defined.

Lemma renderTranslateAction_lockstep_witness :
  exists s' c',
    renderTranslateAction TOP (hitsAt (vec3 1 2 3))
      (sampleState (vec2 0 0) initialAction) = Ok s'
    /\ selected s' = Some c'
    /\ position (perspective c') = vec3 1 2 3
    /\ position (top c') = vec3 1 2 3
    /\ position (side c') = vec3 1 2 3
    /\ position (front c') = vec3 1 2 3
    /\ coordinates (translation (action s')) = Some (vec3 1 2 3).
Proof.
  apply (renderTranslateAction_lockstep TOP (hitsAt (vec3 1 2 3))
           (sampleState (vec2 0 0) initialAction) sampleCuboid samplePlane
           (vec3 1 2 3) []); reflexivity.
Defined.

(** From scale (1, 1, 1), the pointer of the top view went from
    (1/2, 1/2) to (3/4, 3/4). *)
Lemma renderResizeAction_axes_witness :
  exists s' c',
    renderResizeAction sampleReference sampleSpherical sampleLocalToWorld TOP
      (hitsAt origin) (sampleState (vec2 (3 # 4) (3 # 4)) resizingAction) = Ok s'
    /\ selected s' = Some c'
    /\ Forall2 (fun m m' => vz (scale m') = vz (scale m)) (meshes sampleCuboid) (meshes c')
    /\ Forall (fun m' =>
         vx (scale m') = clampScale (1 * ((3 # 4) / (1 # 2)))
         /\ vy (scale m') = clampScale (1 * ((3 # 4) / (1 # 2)))) (meshes c')
    /\ Forall (fun m' => 1 < vx (scale m') /\ 1 < vy (scale m')) (meshes c').
Proof.
  destruct (renderResizeAction_axes sampleReference sampleSpherical sampleLocalToWorld
              TOP (hitsAt origin) (sampleState (vec2 (3 # 4) (3 # 4)) resizingAction)
              sampleCuboid samplePlane (vec2 (1 # 2) (1 # 2))
              eq_refl (conj eq_refl (conj eq_refl eq_refl)) eq_refl eq_refl)
    as [s' [c' [Hrun [Hsel [Hz [Hnew Hgrow]]]]]].
  exists s', c'. split; [exact Hrun|]. split; [exact Hsel|]. split; [exact Hz|].
  split.
  - apply Hnew; [reflexivity| |]; intro H; vm_compute in H; discriminate H.
  - apply Hgrow; try reflexivity; left; split; reflexivity.
Defined.

Lemma points_layout_witness :
  trace (dblclick sampleEuler drawingState)
  = [Dispatched (CanvasDrawn (Some 0%Z) (pointsOf sampleEuler sampleMesh));
     Dispatched CanvasCanceled]
  /\ exists s',
       resetActions sampleReference sampleSpherical sampleWorldQuaternion sampleEuler
         (sampleState (vec2 0 0) resizingAction) = Ok s'
       /\ trace s'
          = [Dispatched (CanvasEdited (Some sampleObject) (pointsOf sampleEuler sampleMesh))].
Proof.
  pose proof (points_layout sampleReference sampleSpherical sampleWorldQuaternion
                sampleEuler drawingState) as [Hdrawn _].
  pose proof (points_layout sampleReference sampleSpherical sampleWorldQuaternion
                sampleEuler (sampleState (vec2 0 0) resizingAction))
    as [_ [Hedited [Hreturns _]]].
  split.
  - apply Hdrawn. reflexivity.
  - destruct (Hreturns TOP sampleCuboid eq_refl eq_refl) as [s' Hrun].
    { intro H. discriminate H. }
    exists s'. split; [exact Hrun|].
    destruct (Hedited s' eq_refl Hrun) as [view [c [Hscan [Hsel Htrace]]]].
    injection Hscan as <-. injection Hsel as <-. exact Htrace.
Defined.

Lemma notifyImageChanged_order_witness :
  (trace (notifyImageChanged (sampleState (vec2 0 0) initialAction))
   = [SceneCleared; LoadStarted 1; UrlRevoked 1; Dispatched CanvasSetup]
   /\ allScenesEmpty (clearScene (sampleState (vec2 0 0) initialAction)) = true
   /\ allScenesEmpty (notifyImageChanged (sampleState (vec2 0 0) initialAction)) = true
   /\ loading (notifyImageChanged (sampleState (vec2 0 0) initialAction)) = [1%Z])
  /\ notifyImageChanged blankState = blankState.
Proof.
  split.
  - apply (proj1 (notifyImageChanged_order (sampleState (vec2 0 0) initialAction)) 1%Z).
    reflexivity.
  - apply (proj2 (notifyImageChanged_order blankState)). reflexivity.
Defined.

(** *** The further properties on the sample configurations *)

(** Two steps in and two steps out, starting from zoom 1. *)
Lemma wheelZooms_bounds_witness :
  2 # 100 < wheelZooms [-1; -1; 5; 5] 1
  /\ wheelZooms [-1; -1; 5; 5] 1 < 208 # 100
  /\ 0 < wheelZooms [-1; -1; 5; 5] 1.
Proof. apply (wheelZooms_bounds [-1; -1; 5; 5] 1); reflexivity. Defined.

(** A square canvas in a container that has become 200 by 100. *)
Lemma resizeRendererToDisplaySize_frustum_witness :
  exists f',
    resizeRendererToDisplaySize
      (mkSurface (Some (200, 100)) (100, 100) (100, 100)
         (Some (OrthographicCamera (mkFrustum (-1) 1 1 (-1) 0 10))))
    = mkSurface (Some (200, 100)) (100, 100) (200, 100)
        (Some (OrthographicCamera f'))
    /\ frustumLeft f' == - frustumRight f'
    /\ frustumBottom f' == - frustumTop f'
    /\ frustumTop f' - frustumBottom f' == CONST.ZOOM_FACTOR.
Proof.
  apply (proj1 (resizeRendererToDisplaySize_frustum
                  (mkSurface (Some (200, 100)) (100, 100) (100, 100)
                     (Some (OrthographicCamera (mkFrustum (-1) 1 1 (-1) 0 10)))))
           200 100 (mkFrustum (-1) 1 1 (-1) 0 10) eq_refl eq_refl).
  - intros [H _]. vm_compute in H. discriminate H.
  - intro H. vm_compute in H. discriminate H.
Defined.

(** A cloud centred at (10, 0, 0) seen from the initial camera position. *)
Lemma framing_target_witness :
  exists t, framing (vec3 (-15) 0 4) (vec3 10 0 0) 2 = Some t.
Proof.
  apply (proj2 (proj2 (framing_target (vec3 (-15) 0 4) (vec3 10 0 0) 2))).
  left. split; [reflexivity|].
  intro H. vm_compute in H. discriminate H.
Defined.

Lemma attach_then_detach_witness :
  exists s1 s2,
    attachCamera sampleRelativeTo TOP (sampleState (vec2 0 0) initialAction) = Ok s1
    /\ detachCamera sampleReference sampleSpherical sampleWorldQuaternion TOP s1 = Ok s2
    /\ (forall w, w <> TOP ->
          camParent (camera (getView w (views s1))) = Some w
          /\ camParent (camera (getView w (views s2))) = None
          /\ camScale (camera (getView w (views s2))) = unit3
          /\ camPosition (camera (getView w (views s2)))
             = sampleSpherical (sampleReference sampleCuboid w))
    /\ camera (getView TOP (views s2))
       = camera (getView TOP (views (sampleState (vec2 0 0) initialAction)))
    /\ selected s2 = Some sampleCuboid
    /\ action s2 = action (sampleState (vec2 0 0) initialAction)
    /\ trace s2 = trace (sampleState (vec2 0 0) initialAction).
Proof.
  apply (attach_then_detach sampleReference sampleSpherical sampleRelativeTo
           sampleWorldQuaternion TOP (sampleState (vec2 0 0) initialAction)
           sampleCuboid).
  reflexivity.
Defined.



Lemma notifyImageChanged_twice_witness :
  loading (notifyImageChanged (notifyImageChanged (sampleState (vec2 0 0) initialAction)))
  = loading (sampleState (vec2 0 0) initialAction) ++ [1%Z; 1%Z]
  /\ dispatched (notifyImageChanged
                   (notifyImageChanged (sampleState (vec2 0 0) initialAction)))
     = dispatched (sampleState (vec2 0 0) initialAction) ++ [CanvasSetup; CanvasSetup].
Proof.
  apply (notifyImageChanged_twice (sampleState (vec2 0 0) initialAction) 1%Z).
  reflexivity.
Defined.

(** The body is caught in the top view and dragged to (1, 2, 3). *)
Lemma translate_gesture_witness :
  exists s1 s2 c2,
    renderGesture sampleReference sampleSpherical sampleLocalToWorld sampleRelativeTo
      TOP (fun t => match t with
                    | Body _ | ReferencePlane _ => [vec3 1 2 3]
                    | _ => []
                    end) sampleCanvas
      (startAction TOP sampleCanvas (mkMouseEvent 75 25)
         (sampleState (vec2 0 0) initialAction)) = Ok s1
    /\ subMode (action s1) = Some TRANSLATE
    /\ resetActions sampleReference sampleSpherical sampleWorldQuaternion sampleEuler s1
       = Ok s2
    /\ selected s2 = Some c2
    /\ Forall (fun m => position m = vec3 1 2 3) (meshes c2)
    /\ subMode (action s2) = None.
Proof.
  destruct (translate_gesture sampleReference sampleSpherical sampleLocalToWorld
              sampleRelativeTo sampleWorldQuaternion sampleEuler
              TOP sampleCanvas (mkMouseEvent 75 25)
              (fun t => match t with
                        | Body _ | ReferencePlane _ => [vec3 1 2 3]
                        | _ => []
                        end)
              (sampleState (vec2 0 0) initialAction) sampleCuboid samplePlane
              (vec3 1 2 3) [])
    as [s1 [s2 [c2 [Hrun [Hsub [Hreset [_ [Hsel [Hpos [_ [Hidle _]]]]]]]]]]];
    try reflexivity.
  { intro H. discriminate H. }
  exists s1, s2, c2. repeat split; assumption.
Defined.

(** The rotation handle is caught in the side view and let go at once. *)
Lemma rotate_gesture_without_motion_witness :
  exists s1 s2,
    renderGesture sampleReference sampleSpherical sampleLocalToWorld sampleRelativeTo
      SIDE hitsRotationHelper sampleCanvas
      (startAction SIDE sampleCanvas (mkMouseEvent 75 25)
         (sampleState (vec2 0 0) initialAction)) = Ok s1
    /\ subMode (action s1) = Some ROTATE
    /\ resetActions sampleReference sampleSpherical sampleWorldQuaternion sampleEuler s1
       = Ok s2
    /\ selected s2 = Some sampleCuboid
    /\ subMode (action s2) = None.
Proof.
  destruct (rotate_gesture_without_motion sampleReference sampleSpherical
              sampleLocalToWorld sampleRelativeTo sampleWorldQuaternion sampleEuler
              SIDE sampleCanvas (mkMouseEvent 75 25) hitsRotationHelper
              (sampleState (vec2 0 0) initialAction) sampleCuboid)
    as [s1 [s2 [Hrun [Hsub [_ [_ [Hreset [_ [Hsel [_ [Hidle _]]]]]]]]]]];
    try reflexivity.
  { intro H. discriminate H. }
  exists s1, s2. repeat split; assumption.
Defined.

(** A resize frame of the top view with the pointer at (3/4, 3/4). *)
Lemma renderResizeAction_memScales_witness :
  exists s' c',
    renderResizeAction sampleReference sampleSpherical sampleLocalToWorld TOP
      (hitsAt origin) (sampleState (vec2 (3 # 4) (3 # 4)) resizingAction) = Ok s'
    /\ selected s' = Some c'
    /\ vz (resizeVector (resize (action s'))) = 0
    /\ Forall (fun m => vx (memScales (resize (action s'))) = vx (scale m)
                        /\ vy (memScales (resize (action s'))) = vy (scale m))
         (meshes c')
    /\ vz (memScales (resize (action s'))) = 1.
Proof.
  destruct (renderResizeAction_memScales sampleReference sampleSpherical
              sampleLocalToWorld TOP (hitsAt origin)
              (sampleState (vec2 (3 # 4) (3 # 4)) resizingAction)
              sampleCuboid samplePlane (vec2 (1 # 2) (1 # 2))
              eq_refl eq_refl eq_refl eq_refl)
    as [s' [c' [Hrun [Hsel [Hz [Hall Hmem]]]]]].
  { intro H. vm_compute in H. discriminate H. }
  { intro H. vm_compute in H. discriminate H. }
  exists s', c'.
  split; [exact Hrun|]. split; [exact Hsel|]. split; [exact Hz|].
  split; [exact Hall|exact Hmem].
Defined.

(** The frame after the pointer went down on a resize handle of the top
    view at (1/2, 1/2). *)
Lemma resize_first_frame_witness :
  exists s' c',
    renderGesture sampleReference sampleSpherical sampleLocalToWorld sampleRelativeTo
      TOP (hitsAt origin) sampleCanvas
      (startAction TOP sampleCanvas (mkMouseEvent 75 25)
         (sampleState (vec2 0 0) initialAction)) = Ok s'
    /\ subMode (action s') = Some RESIZE
    /\ selected s' = Some c'
    /\ Forall (fun m => vx (scale m) == vx (scale (top sampleCuboid))
                        /\ vy (scale m) == vy (scale (top sampleCuboid))
                        /\ vz (scale m) == vz (scale (top sampleCuboid))) (meshes c')
    /\ vx (resizeVector (resize (action s'))) == 0
    /\ vy (resizeVector (resize (action s'))) == 0
    /\ vz (resizeVector (resize (action s'))) == 0.
Proof.
  apply (resize_first_frame sampleReference sampleSpherical sampleLocalToWorld
           sampleRelativeTo TOP (hitsAt origin) sampleCanvas
           (startAction TOP sampleCanvas (mkMouseEvent 75 25)
              (sampleState (vec2 0 0) initialAction))
           sampleCuboid samplePlane).
  - intro H. discriminate H.
  - reflexivity.
  - reflexivity.
  - repeat split.
  - reflexivity.
  - reflexivity.
  - reflexivity.
  - reflexivity.
  - reflexivity.
  - reflexivity.
  - intro H. vm_compute in H. discriminate H.
  - intro H. vm_compute in H. discriminate H.
  - vm_compute. discriminate.
  - vm_compute. discriminate.
  - vm_compute. discriminate.
  - intro H. discriminate H.
Defined.

(** *** Evaluations *)

(** C1: the pointer goes down on a resize handle of the top view at
    (1/2, 1/2), a frame is rendered, the pointer moves to the middle
    column of the canvas, where its x coordinate is 0, and the next frame
    is rendered: the width of the four meshes is 0 (the scale computed is
    0, which is not below 0 and is kept). *)
Theorem resize_through_centre_gives_zero_width :
  exists s1 s2 c,
    renderGesture sampleReference sampleSpherical sampleLocalToWorld sampleRelativeTo
      TOP (hitsAt origin) sampleCanvas
      (startAction TOP sampleCanvas (mkMouseEvent 75 25)
         (sampleState (vec2 0 0) initialAction)) = Ok s1
    /\ subMode (action s1) = Some RESIZE
    /\ renderGesture sampleReference sampleSpherical sampleLocalToWorld sampleRelativeTo
         TOP (hitsAt origin) sampleCanvas
         (moveAction TOP sampleCanvas (mkMouseEvent 50 25) s1) = Ok s2
    /\ selected s2 = Some c
    /\ Forall (fun m => vx (scale m) == 0) (meshes c).
Proof.
  do 3 eexists. split; [vm_compute; reflexivity|].
  split; [reflexivity|].
  split; [vm_compute; reflexivity|].
  split; [reflexivity|].
  repeat constructor.
Qed.

(** C7: on a canvas of 100 by 100 whose bounding rectangle is at
    (400, 300) of the viewport and whose offsets in its parent are 0, the
    pointer goes down on the rotation handle of the side view at
    (460, 350) and a frame is rendered, which starts a rotation.  The
    pointer then moves to (470, 352), or to (495, 376), and the next
    frame is rendered.  Both pointers are left of the line from the
    middle of the canvas, (450, 350), through the initial pointer; the
    four meshes are turned about Y by plus the step in the first case and
    by minus the step in the second.  The direction follows the point
    (50, 50) that [renderRotateAction] takes from the offsets of the
    canvas, not the middle of the canvas under the pointer: left of the
    line from the canvas centre does not give one sign. *)
Theorem rotation_direction_misses_canvas_centre :
  v2x (rectCentre nestedCanvas) == 450
  /\ v2y (rectCentre nestedCanvas) == 350
  /\ 0 < cross (rectCentre nestedCanvas) (vec2 460 350) (vec2 470 352)
  /\ 0 < cross (rectCentre nestedCanvas) (vec2 460 350) (vec2 495 376)
  /\ exists s1 s2 s3 c2 c3,
       renderGesture sampleReference sampleSpherical sampleLocalToWorld sampleRelativeTo
         SIDE hitsRotationHelper nestedCanvas
         (startAction SIDE nestedCanvas (mkMouseEvent 460 350)
            (sampleState (vec2 0 0) initialAction)) = Ok s1
       /\ subMode (action s1) = Some ROTATE
       /\ selected s1 = Some sampleCuboid
       /\ renderGesture sampleReference sampleSpherical sampleLocalToWorld sampleRelativeTo
            SIDE hitsRotationHelper nestedCanvas
            (moveAction SIDE nestedCanvas (mkMouseEvent 470 352) s1) = Ok s2
       /\ selected s2 = Some c2
       /\ Forall (fun m => rotation m = rotateOnAxis AxisY rotationSpeed (rotation sampleMesh))
            (meshes c2)
       /\ renderGesture sampleReference sampleSpherical sampleLocalToWorld sampleRelativeTo
            SIDE hitsRotationHelper nestedCanvas
            (moveAction SIDE nestedCanvas (mkMouseEvent 495 376) s1) = Ok s3
       /\ selected s3 = Some c3
       /\ Forall (fun m => rotation m = rotateOnAxis AxisY (- rotationSpeed) (rotation sampleMesh))
            (meshes c3).
Proof.
  split; [reflexivity|]. split; [reflexivity|].
  split; [reflexivity|]. split; [reflexivity|].
  do 5 eexists. split; [vm_compute; reflexivity|].
  split; [reflexivity|]. split; [reflexivity|].
  split; [vm_compute; reflexivity|].
  split; [reflexivity|].
  split; [repeat constructor|].
  split; [vm_compute; reflexivity|].
  split; [reflexivity|].
  repeat constructor.
Qed.

(** C9, the claim as stated fails: in DRAW mode with the preview cuboid of
    scale (1, 1, 1), the 9th element of the point array of the [drawn]
    event is the depth, 1, not zero. *)
Lemma drawn_ninth_element_is_depth :
  mode drawingState = DRAW
  /\ exists frame pts,
       dispatched (dblclick sampleEuler drawingState)
       = [CanvasDrawn frame pts; CanvasCanceled]
       /\ List.length pts = 16%nat
       /\ nth 8 pts 0 = 1
       /\ ~ nth 8 pts 0 == 0.
Proof.
  split; [reflexivity|].
  do 2 eexists. split; [reflexivity|].
  split; [reflexivity|]. split; [reflexivity|].
  intro H. vm_compute in H. discriminate H.
Qed.

(** C4, the claim as stated fails: when [notify] returns from an image
    change, [setup] has been dispatched and the point-cloud load started
    by this call is still pending. *)
Lemma setup_dispatched_while_loading :
  image (sampleState (vec2 0 0) initialAction) = Some 1%Z
  /\ loading (sampleState (vec2 0 0) initialAction) = []
  /\ In CanvasSetup (dispatched (notifyImageChanged (sampleState (vec2 0 0) initialAction)))
  /\ In 1%Z (loading (notifyImageChanged (sampleState (vec2 0 0) initialAction))).
Proof.
  repeat split; try reflexivity; left; reflexivity.
Qed.

End Canvas3dView.

(* ================================================================== *)
(** ** Properties of the 2D canvas model *)
(* ================================================================== *)

Lemma Mode_eqb_eq (a b : CanvasModel.Mode) :
  CanvasModel.Mode_eqb a b = true <-> a = b.
Proof. destruct a, b; simpl; split; intro H; congruence. Qed.

Lemma Mode_eqb_IDLE_false (m : CanvasModel.Mode) :
  m <> CanvasModel.IDLE -> CanvasModel.Mode_eqb m CanvasModel.IDLE = false.
Proof.
  intro H. destruct (CanvasModel.Mode_eqb m CanvasModel.IDLE) eqn:E; [|reflexivity].
  apply Mode_eqb_eq in E. contradiction.
Qed.

(** C5: in a mode other than IDLE, [activate] with a non-null [clientID]
    throws and leaves the model, its active element included, as it was;
    in the IDLE mode, or with a null [clientID], it returns, the active
    element is the one given, and exactly one notification,
    SHAPE_ACTIVATED, has been delivered. *)
Theorem activate_busy_or_notifies (d : CanvasModel.Data) (cid attr : option Z) :
  (CanvasModel.mode d <> CanvasModel.IDLE -> cid <> None ->
     CanvasModel.activate cid attr d
     = (CanvasModel.Thrown (CanvasModel.CanvasIsBusy (CanvasModel.mode d)), d))
  /\ (CanvasModel.mode d = CanvasModel.IDLE \/ cid = None ->
      exists d',
        CanvasModel.activate cid attr d = (CanvasModel.Returned, d')
        /\ CanvasModel.activeElement d' = CanvasModel.mkActive cid attr
        /\ CanvasModel.notified d'
           = CanvasModel.notified d ++ [CanvasModel.SHAPE_ACTIVATED]
        /\ CanvasModel.mode d' = CanvasModel.mode d
        /\ CanvasModel.imageID d' = CanvasModel.imageID d).
Proof.
  unfold CanvasModel.activate. split.
  - intros Hmode Hcid. rewrite (Mode_eqb_IDLE_false _ Hmode).
    destruct cid; [reflexivity|congruence].
  - intros [Hmode|Hcid].
    + rewrite Hmode. cbn [CanvasModel.Mode_eqb negb andb].
      eexists. split; [reflexivity|]. repeat split; reflexivity.
    + rewrite Hcid, andb_false_r.
      eexists. split; [reflexivity|]. repeat split; reflexivity.
Qed.

Lemma activate_busy_or_notifies_witness :
  CanvasModel.activate (Some 7%Z) None
    (CanvasModel.mkData (CanvasModel.mkActive (Some 3%Z) None) (Some 0%Z)
       CanvasModel.DRAW [])
  = (CanvasModel.Thrown (CanvasModel.CanvasIsBusy CanvasModel.DRAW),
     CanvasModel.mkData (CanvasModel.mkActive (Some 3%Z) None) (Some 0%Z)
       CanvasModel.DRAW [])
  /\ exists d',
       CanvasModel.activate None None
         (CanvasModel.mkData (CanvasModel.mkActive (Some 3%Z) None) (Some 0%Z)
            CanvasModel.DRAW [])
       = (CanvasModel.Returned, d')
       /\ CanvasModel.activeElement d' = CanvasModel.mkActive None None
       /\ CanvasModel.notified d' = [CanvasModel.SHAPE_ACTIVATED]
       /\ CanvasModel.mode d' = CanvasModel.DRAW
       /\ CanvasModel.imageID d' = Some 0%Z.
Proof.
  split.
  - apply (proj1 (activate_busy_or_notifies
                    (CanvasModel.mkData (CanvasModel.mkActive (Some 3%Z) None) (Some 0%Z)
                       CanvasModel.DRAW [])
                    (Some 7%Z) None)); discriminate.
  - apply (proj2 (activate_busy_or_notifies
                    (CanvasModel.mkData (CanvasModel.mkActive (Some 3%Z) None) (Some 0%Z)
                       CanvasModel.DRAW [])
                    None None)).
    right. reflexivity.
Defined.

(* ================================================================== *)
(** ** Further properties of the 2D canvas model *)
(* ================================================================== *)

Module CanvasModelFacts.

Import CanvasModel.
Import CanvasModelImpl.

(** *** Numbers *)

Lemma ltb_true (a b : Q) : ltb a b = true <-> a < b.
Proof.
  unfold ltb. rewrite negb_true_iff. split.
  - intro H. apply Qnot_le_lt. intro L.
    apply Qle_bool_iff in L. congruence.
  - intro H. destruct (Qle_bool b a) eqn:E; [|reflexivity].
    apply Qle_bool_iff in E. exfalso. exact (Qlt_not_le _ _ H E).
Qed.

Lemma ltb_false (a b : Q) : ltb a b = false <-> b <= a.
Proof. unfold ltb. rewrite negb_false_iff. apply Qle_bool_iff. Qed.

Lemma clampZoom_bounds (x : Q) :
  FrameZoom_MIN <= clampZoom x /\ clampZoom x <= FrameZoom_MAX.
Proof.
  unfold clampZoom. split.
  - apply Q.min_glb; [apply Q.le_max_r|]. unfold FrameZoom_MIN, FrameZoom_MAX. lra.
  - apply Q.le_min_r.
Qed.

Lemma clampZoom_above (x : Q) : FrameZoom_MAX <= x -> clampZoom x == FrameZoom_MAX.
Proof.
  intro H. unfold clampZoom.
  assert (L : FrameZoom_MIN <= x).
  { apply Qle_trans with FrameZoom_MAX; [|exact H]. unfold FrameZoom_MIN, FrameZoom_MAX. lra. }
  rewrite (Q.max_l x FrameZoom_MIN L). apply Q.min_r. exact H.
Qed.

Lemma clampZoom_below (x : Q) : x <= FrameZoom_MIN -> clampZoom x == FrameZoom_MIN.
Proof.
  intro H. unfold clampZoom.
  rewrite (Q.max_r x FrameZoom_MIN H). apply Q.min_l.
  unfold FrameZoom_MIN, FrameZoom_MAX. lra.
Qed.

(** *** Scaling *)

Lemma zoomed_in (s : Q) : s * 6 / 5 == s * (6 # 5).
Proof. field. Qed.

Lemma zoomed_out (s : Q) : s * 5 / 6 == s * (5 # 6).
Proof. field. Qed.

Lemma zoom_scale (f : Z -> Q) (x y direction : Q) (d : Data) :
  scale (zoom f x y direction d)
  = clampZoom (if ltb 0 direction then scale d * 6 / 5 else scale d * 5 / 6).
Proof. unfold zoom. destruct (onItsSide (angle d)); reflexivity. Qed.

(** X14: a scale between [FrameZoom.MIN] and [FrameZoom.MAX] (0.1 and
    10) stays between them under [zoom], whatever the arguments; [fit]
    and [rotate] leave a scale between them for an image whose sides are
    not 0. *)
Theorem scale_stays_in_range (f : Z -> Q) (x y direction : Q) (rotation : Rotation)
    (remember : bool) (d : Data) :
  (FrameZoom_MIN <= scale d -> scale d <= FrameZoom_MAX ->
   FrameZoom_MIN <= scale (zoom f x y direction d)
   /\ scale (zoom f x y direction d) <= FrameZoom_MAX)
  /\ (~ width (imageSize d) == 0 -> ~ height (imageSize d) == 0 ->
      (FrameZoom_MIN <= scale (fit d) /\ scale (fit d) <= FrameZoom_MAX)
      /\ (FrameZoom_MIN <= scale (rotate rotation remember d)
          /\ scale (rotate rotation remember d) <= FrameZoom_MAX)).
Proof.
  split.
  - intros _ _. rewrite zoom_scale. apply clampZoom_bounds.
  - intros _ _. split.
    + unfold fit. cbn [scale notify withCore withPlacement]. apply clampZoom_bounds.
    + unfold rotate, fit. cbn [scale notify withCore withPlacement].
      apply clampZoom_bounds.
Qed.

(** X15: zooming in at the largest scale, or out at the smallest, keeps
    the scale and does not move the image. *)
Theorem zoom_at_limit (f : Z -> Q) (x y direction : Q) (d : Data) :
  (scale d == FrameZoom_MAX /\ 0 < direction)
  \/ (scale d == FrameZoom_MIN /\ direction <= 0) ->
  scale (zoom f x y direction d) == scale d
  /\ top (zoom f x y direction d) == top d
  /\ left (zoom f x y direction d) == left d.
Proof.
  intro H.
  assert (Hsc : clampZoom (if ltb 0 direction then scale d * 6 / 5 else scale d * 5 / 6)
                == scale d).
  { destruct H as [[Hmax Hdir]|[Hmin Hdir]].
    - apply ltb_true in Hdir. rewrite Hdir.
      transitivity FrameZoom_MAX; [|symmetry; exact Hmax].
      apply clampZoom_above. rewrite zoomed_in. unfold FrameZoom_MAX in *. lra.
    - apply ltb_false in Hdir. rewrite Hdir.
      transitivity FrameZoom_MIN; [|symmetry; exact Hmin].
      apply clampZoom_below. rewrite zoomed_out. unfold FrameZoom_MIN in *. lra. }
  assert (Hpos : ~ scale d == 0).
  { destruct H as [[E _]|[E _]]; rewrite E; unfold FrameZoom_MAX, FrameZoom_MIN; lra. }
  unfold zoom.
  set (sc := clampZoom (if ltb 0 direction then scale d * 6 / 5 else scale d * 5 / 6)) in *.
  clearbody sc.
  destruct (onItsSide (angle d));
    cbn [scale top left notify withCore withPlacement];
    (split; [exact Hsc|]); split; rewrite Hsc; field; exact Hpos.
Qed.

(** *** Fitting and turning *)

Lemma truncate_whole (q : Q) (n : Z) : q == inject_Z n -> truncate q = n.
Proof.
  intro E. unfold truncate.
  destruct (ltb q 0).
  - rewrite (Qceiling_comp _ _ E). apply Qceiling_Z.
  - rewrite (Qfloor_comp _ _ E). apply Qfloor_Z.
Qed.

Lemma onItsSide_rem (a : Z) : onItsSide a = negb (Z.rem a 180 =? 0)%Z.
Proof.
  unfold onItsSide. f_equal.
  destruct (Z.rem a 180 =? 0)%Z eqn:E.
  - apply Z.eqb_eq in E. apply Qeq_bool_iff.
    assert (Ha : a = (180 * Z.quot a 180)%Z).
    { pose proof (Z.quot_rem' a 180). lia. }
    set (k := Z.quot a 180) in *. clearbody k.
    unfold remainder.
    assert (Eq : inject_Z a / 90 == 2 * inject_Z k).
    { rewrite Ha, inject_Z_mult. field. }
    rewrite (truncate_whole (inject_Z a / 90 / 2) k).
    + rewrite Eq. ring.
    + rewrite Eq. field.
  - apply Z.eqb_neq in E.
    destruct (Qeq_bool (remainder (inject_Z a / 90) 2) 0) eqn:B; [|reflexivity].
    exfalso. apply E. apply Qeq_bool_iff in B. unfold remainder in B.
    set (t := truncate (inject_Z a / 90 / 2)) in *. clearbody t.
    assert (Ea : inject_Z a == inject_Z (180 * t)).
    { rewrite inject_Z_mult.
      assert (E1 : inject_Z a == 90 * (inject_Z a / 90)) by field.
      assert (E2 : inject_Z a / 90 == 2 * inject_Z t) by lra.
      rewrite E1, E2. ring. }
    apply (proj1 (inject_Z_injective _ _)) in Ea. rewrite Ea.
    rewrite Z.mul_comm. apply Z.rem_mul. discriminate.
Qed.

(** X17: the test [(angle / 90) % 2] of [zoom] and [fit] fails exactly
    for the whole angles that are multiples of 180 degrees, the negative
    ones included; it holds for every other angle. *)
Theorem onItsSide_half_turns (a : Z) :
  onItsSide a = false <-> exists k : Z, a = (180 * k)%Z.
Proof.
  rewrite onItsSide_rem, negb_false_iff, Z.eqb_eq. split.
  - intro H. exists (Z.quot a 180). pose proof (Z.quot_rem' a 180). lia.
  - intros [k ->]. rewrite Z.mul_comm. apply Z.rem_mul. discriminate.
Qed.

Lemma rotate_angle (rotation : Rotation) (remember : bool) (d : Data) :
  angle (rotate rotation remember d)
  = Z.rem (match rotation with
           | CLOCKWISE90 => angle d + 90
           | ANTICLOCKWISE90 => angle d - 90
           end) 360.
Proof. reflexivity. Qed.

(** X19: [rotate] leaves an angle strictly between -360 and 360 that is
    the old angle plus or minus 90 up to full turns, and keeps the
    [remember] flag. *)
Theorem rotate_quarter_turn (rotation : Rotation) (remember : bool) (d : Data) :
  (-360 < angle (rotate rotation remember d) < 360)%Z
  /\ (angle (rotate rotation remember d) mod 360
      = (match rotation with
         | CLOCKWISE90 => angle d + 90
         | ANTICLOCKWISE90 => angle d - 90
         end) mod 360)%Z
  /\ rememberAngle (rotate rotation remember d) = remember.
Proof.
  rewrite rotate_angle.
  set (a := match rotation with
            | CLOCKWISE90 => (angle d + 90)%Z
            | ANTICLOCKWISE90 => (angle d - 90)%Z
            end).
  clearbody a.
  pose proof (Z.quot_rem' a 360) as Hq.
  pose proof (Z.rem_bound_abs a 360 ltac:(lia)) as Hb.
  repeat split; try lia.
  replace (Z.rem a 360) with (a + (- Z.quot a 360) * 360)%Z by lia.
  apply Z_mod_plus_full.
Qed.

(** X20: for an angle that is a multiple of 90 degrees, [rotate] keeps it
    one and turns an upright image on its side and back. *)
Theorem rotate_flips_side (rotation : Rotation) (remember : bool) (d : Data) :
  Z.rem (angle d) 90 = 0%Z ->
  Z.rem (angle (rotate rotation remember d)) 90 = 0%Z
  /\ onItsSide (angle (rotate rotation remember d)) = negb (onItsSide (angle d)).
Proof.
  intro H. rewrite rotate_angle, !onItsSide_rem.
  set (a := angle d) in *. clearbody a.
  assert (R : forall b : Z, Z.rem b 90 = 0%Z ->
            Z.rem (Z.rem b 360) 90 = 0%Z
            /\ (Z.rem (Z.rem b 360) 180 =? 0)%Z = (Z.rem b 180 =? 0)%Z).
  { intros b Hb.
    pose proof (Z.quot_rem' b 360). pose proof (Z.quot_rem' b 90).
    pose proof (Z.quot_rem' b 180).
    pose proof (Z.quot_rem' (Z.rem b 360) 90).
    pose proof (Z.quot_rem' (Z.rem b 360) 180).
    pose proof (Z.rem_bound_abs b 360 ltac:(lia)).
    pose proof (Z.rem_bound_abs b 180 ltac:(lia)).
    pose proof (Z.rem_bound_abs (Z.rem b 360) 90 ltac:(lia)).
    pose proof (Z.rem_bound_abs (Z.rem b 360) 180 ltac:(lia)).
    pose proof (Z.rem_sign_nz b 360 ltac:(lia)).
    split.
    - lia.
    - destruct (Z.eqb_spec (Z.rem (Z.rem b 360) 180) 0);
        destruct (Z.eqb_spec (Z.rem b 180) 0); try reflexivity; exfalso; lia. }
  assert (S : forall b c : Z, Z.rem b 90 = 0%Z -> (c = b + 90 \/ c = b - 90)%Z ->
            Z.rem c 90 = 0%Z
            /\ (Z.rem c 180 =? 0)%Z = negb (Z.rem b 180 =? 0)%Z).
  { intros b c Hb Hc.
    pose proof (Z.quot_rem' b 90). pose proof (Z.quot_rem' c 90).
    pose proof (Z.quot_rem' b 180). pose proof (Z.quot_rem' c 180).
    pose proof (Z.rem_bound_abs c 90 ltac:(lia)).
    pose proof (Z.rem_bound_abs b 180 ltac:(lia)).
    pose proof (Z.rem_bound_abs c 180 ltac:(lia)).
    split.
    - destruct Hc; subst c; lia.
    - destruct (Z.eqb_spec (Z.rem c 180) 0);
        destruct (Z.eqb_spec (Z.rem b 180) 0); try reflexivity; exfalso;
        destruct Hc; subst c; lia. }
  destruct rotation.
  - destruct (S a (a - 90)%Z H ltac:(lia)) as [S1 S2].
    destruct (R (a - 90)%Z S1) as [R1 R2].
    split; [exact R1|]. rewrite R2, S2. reflexivity.
  - destruct (S a (a + 90)%Z H ltac:(lia)) as [S1 S2].
    destruct (R (a + 90)%Z S1) as [R1 R2].
    split; [exact R1|]. rewrite R2, S2. reflexivity.
Qed.

(** *** Modes *)

Lemma isMode_true (m : Mode) (d : Data) : isMode m d = true <-> mode d = m.
Proof.
  unfold isMode. split.
  - destruct (mode d), m; simpl; intro H; congruence.
  - intros ->. destruct m; reflexivity.
Qed.

Lemma withCore_core (d : Data) : withCore (core d) d = d.
Proof. destruct d. reflexivity. Qed.

Lemma mode_entered (reason : UpdateReasons) (m : Mode) (d : Data) :
  mode (notify reason (withMode m d)) = m.
Proof. reflexivity. Qed.

Lemma dragCanvas_on (d : Data) :
  mode d = IDLE ->
  dragCanvas true d = (Done, notify DRAG_CANVAS_REASON (withMode DRAG_CANVAS d)).
Proof. intro H. unfold dragCanvas, isMode. rewrite H. reflexivity. Qed.

Lemma dragCanvas_off (d : Data) :
  mode d = DRAG_CANVAS ->
  dragCanvas false d = (Done, notify DRAG_CANVAS_REASON (withMode IDLE d)).
Proof. intro H. unfold dragCanvas, isMode. rewrite H. reflexivity. Qed.

Lemma zoomCanvas_on (d : Data) :
  mode d = IDLE ->
  zoomCanvas true d = (Done, notify ZOOM_CANVAS_REASON (withMode ZOOM_CANVAS d)).
Proof. intro H. unfold zoomCanvas, isMode. rewrite H. reflexivity. Qed.

Lemma zoomCanvas_off (d : Data) :
  mode d = ZOOM_CANVAS ->
  zoomCanvas false d = (Done, notify ZOOM_CANVAS_REASON (withMode IDLE d)).
Proof. intro H. unfold zoomCanvas, isMode. rewrite H. reflexivity. Qed.

Lemma zoomCanvas_when_dragging (enable : bool) (d : Data) :
  mode d = DRAG_CANVAS ->
  zoomCanvas enable d
  = (Threw (if enable then Busy DRAG_CANVAS else NotInZoomMode DRAG_CANVAS), d).
Proof. intro H. unfold zoomCanvas, isMode. rewrite H. destruct enable; reflexivity. Qed.

Lemma dragCanvas_when_zooming (enable : bool) (d : Data) :
  mode d = ZOOM_CANVAS ->
  dragCanvas enable d
  = (Threw (if enable then Busy ZOOM_CANVAS else NotInDragMode ZOOM_CANVAS), d).
Proof. intro H. unfold dragCanvas, isMode. rewrite H. destruct enable; reflexivity. Qed.

(** X21: the drag and the zoom mode of the canvas exclude each other.
    From IDLE, [dragCanvas(true)] enters DRAG_CANVAS; there
    [zoomCanvas] throws, enabling and disabling, and changes nothing;
    [dragCanvas(false)] returns to IDLE, two DRAG_CANVAS notifications
    having been sent.  The same holds with the two methods exchanged. *)
Theorem dragCanvas_zoomCanvas_exclusive (d : Data) :
  mode d = IDLE ->
  (fst (dragCanvas true d) = Done
   /\ mode (snd (dragCanvas true d)) = DRAG_CANVAS
   /\ zoomCanvas true (snd (dragCanvas true d))
      = (Threw (Busy DRAG_CANVAS), snd (dragCanvas true d))
   /\ zoomCanvas false (snd (dragCanvas true d))
      = (Threw (NotInZoomMode DRAG_CANVAS), snd (dragCanvas true d))
   /\ fst (dragCanvas false (snd (dragCanvas true d))) = Done
   /\ mode (snd (dragCanvas false (snd (dragCanvas true d)))) = IDLE
   /\ notified (snd (dragCanvas false (snd (dragCanvas true d))))
      = notified d ++ [DRAG_CANVAS_REASON; DRAG_CANVAS_REASON])
  /\ (fst (zoomCanvas true d) = Done
      /\ mode (snd (zoomCanvas true d)) = ZOOM_CANVAS
      /\ dragCanvas true (snd (zoomCanvas true d))
         = (Threw (Busy ZOOM_CANVAS), snd (zoomCanvas true d))
      /\ dragCanvas false (snd (zoomCanvas true d))
         = (Threw (NotInDragMode ZOOM_CANVAS), snd (zoomCanvas true d))
      /\ fst (zoomCanvas false (snd (zoomCanvas true d))) = Done
      /\ mode (snd (zoomCanvas false (snd (zoomCanvas true d)))) = IDLE
      /\ notified (snd (zoomCanvas false (snd (zoomCanvas true d))))
         = notified d ++ [ZOOM_CANVAS_REASON; ZOOM_CANVAS_REASON]).
Proof.
  intro H.
  rewrite (dragCanvas_on d H), (zoomCanvas_on d H). cbn [fst snd].
  rewrite (zoomCanvas_when_dragging _ _ (mode_entered _ _ _)).
  rewrite (zoomCanvas_when_dragging _ _ (mode_entered _ _ _)).
  rewrite (dragCanvas_when_zooming _ _ (mode_entered _ _ _)).
  rewrite (dragCanvas_when_zooming _ _ (mode_entered _ _ _)).
  rewrite (dragCanvas_off _ (mode_entered _ _ _)).
  rewrite (zoomCanvas_off _ (mode_entered _ _ _)).
  cbn [fst snd]. rewrite !mode_entered.
  repeat split; unfold notified, notify, withMode, withCore;
    cbn [core CanvasModel.notified CanvasModel.notify CanvasModel.set_mode];
    rewrite <- app_assoc; reflexivity.
Qed.

(** X22: a call of [dragCanvas], [zoomCanvas], [draw], [split], [group],
    [merge] or [activate] that throws has changed nothing in the model
    and has notified nobody. *)
Theorem thrown_means_untouched (d : Data) (e : Error) :
  (forall enable, fst (dragCanvas enable d) = Threw e -> snd (dragCanvas enable d) = d)
  /\ (forall enable, fst (zoomCanvas enable d) = Threw e -> snd (zoomCanvas enable d) = d)
  /\ (forall requested, fst (draw requested d) = Threw e -> snd (draw requested d) = d)
  /\ (forall requested, fst (split requested d) = Threw e -> snd (split requested d) = d)
  /\ (forall requested, fst (group requested d) = Threw e -> snd (group requested d) = d)
  /\ (forall requested, fst (merge requested d) = Threw e -> snd (merge requested d) = d)
  /\ (forall cid attr, fst (activate cid attr d) = Threw e -> snd (activate cid attr d) = d).
Proof.
  repeat split.
  - intro enable. unfold dragCanvas.
    destruct (enable && negb (isMode IDLE d)); [reflexivity|].
    destruct (negb enable && negb (isMode DRAG_CANVAS d)); [reflexivity|discriminate].
  - intro enable. unfold zoomCanvas.
    destruct (enable && negb (isMode IDLE d)); [reflexivity|].
    destruct (negb enable && negb (isMode ZOOM_CANVAS d)); [reflexivity|discriminate].
  - intro requested. unfold draw.
    destruct (negb (isMode IDLE d || isMode DRAW d)); [reflexivity|].
    destruct (drawError (drawData d) requested); [reflexivity|discriminate].
  - intro requested. unfold split.
    destruct (negb (isMode IDLE d || isMode SPLIT d)); [reflexivity|].
    destruct (splitData d && requested); [discriminate|].
    destruct (negb (splitData d) && negb requested); discriminate.
  - intro requested. unfold group.
    destruct (negb (isMode IDLE d || isMode GROUP d)); [reflexivity|].
    destruct (groupData d && requested); [discriminate|].
    destruct (negb (groupData d) && negb requested); discriminate.
  - intro requested. unfold merge.
    destruct (negb (isMode IDLE d || isMode MERGE d)); [reflexivity|].
    destruct (mergeData d && requested); [discriminate|].
    destruct (negb (mergeData d) && negb requested); discriminate.
  - intros cid attr. unfold activate, CanvasModel.activate.
    destruct (negb (Mode_eqb (CanvasModel.mode (core d)) IDLE)
              && match cid with Some _ => true | None => false end).
    + intros _. apply withCore_core.
    + discriminate.
Qed.

(** *** Drawing *)

Lemma draw_done (r : DrawData) (d : Data) :
  fst (draw r d) = Done ->
  (isMode IDLE d || isMode DRAW d) = true
  /\ drawError (drawData d) r = None
  /\ snd (draw r d)
     = notify DRAW_REASON
         (withDrawData
            match initialState r with
            | Some st => mkDrawData (enabled r) (initialShapeType st)
                           (numberOfPoints r) (initialState r)
            | None => r
            end d).
Proof.
  unfold draw. destruct (isMode IDLE d || isMode DRAW d); cbn [negb]; [|discriminate].
  destruct (drawError (drawData d) r); [discriminate|]. intros _. auto.
Qed.

(** X23: an enabling request without an initial state that [draw]
    accepts was made while no drawing was under way, names a shape type,
    asks for at least 3 points of a polygon and at least 2 of a
    polyline when it gives a number, and is stored as it is; the mode is
    not changed by [draw]. *)
Theorem draw_accepted (r : DrawData) (d : Data) :
  fst (draw r d) = Done -> enabled r = true -> initialState r = None ->
  enabled (drawData d) = false
  /\ drawData (snd (draw r d)) = r
  /\ (exists t, shapeType r = Some t /\ t <> EmptyString)
  /\ (forall n, numberOfPoints r = Some n ->
      (shapeType r = Some "polygon"%string -> 3 <= n)
      /\ (shapeType r = Some "polyline"%string -> 2 <= n))
  /\ mode (snd (draw r d)) = mode d
  /\ notified (snd (draw r d)) = notified d ++ [DRAW_REASON].
Proof.
  intros Hdone Hen Hinit.
  destruct (draw_done r d Hdone) as (_ & Herr & Hsnd).
  rewrite Hsnd, Hinit. clear Hsnd Hdone.
  unfold drawError in Herr. rewrite Hen, Hinit in Herr. cbn [present negb] in Herr.
  destruct (enabled (drawData d)); [discriminate|].
  rewrite andb_true_r in Herr.
  split; [reflexivity|]. split; [reflexivity|].
  split.
  { destruct (shapeType r) as [t|]; cbn [truthy negb] in Herr; [|discriminate].
    exists t. split; [reflexivity|].
    intros ->. discriminate. }
  split.
  { intros n Hn. rewrite Hn in Herr.
    destruct (truthy (shapeType r)); cbn [negb] in Herr; [|discriminate].
    split; intro Hs; rewrite Hs in Herr; cbn [isShape] in Herr.
    - rewrite String.eqb_refl in Herr. cbn [andb] in Herr.
      destruct (ltb n 3) eqn:L; [discriminate|]. apply ltb_false. exact L.
    - replace (String.eqb "polyline" "polygon") with false in Herr by reflexivity.
      rewrite String.eqb_refl in Herr. cbn [andb] in Herr.
      destruct (ltb n 2) eqn:L; [discriminate|]. apply ltb_false. exact L. }
  split; reflexivity.
Qed.

(** X24: after an accepted enabling request every further enabling
    request throws "Drawing has been already started" and changes
    nothing, while a disabling request is accepted. *)
Theorem draw_already_started (r again off : DrawData) (d : Data) :
  fst (draw r d) = Done -> enabled r = true ->
  enabled again = true -> enabled off = false ->
  draw again (snd (draw r d)) = (Threw DrawingAlreadyStarted, snd (draw r d))
  /\ fst (draw off (snd (draw r d))) = Done
  /\ enabled (drawData (snd (draw off (snd (draw r d))))) = false.
Proof.
  intros Hdone Hen Hagain Hoff.
  destruct (draw_done r d Hdone) as (Hmode & _ & Hsnd).
  rewrite Hsnd. clear Hsnd Hdone.
  set (copy := match initialState r with
               | Some st => mkDrawData (enabled r) (initialShapeType st)
                              (numberOfPoints r) (initialState r)
               | None => r
               end).
  assert (Hcopy : enabled copy = true).
  { unfold copy. destruct (initialState r); exact Hen. }
  clearbody copy.
  unfold draw.
  replace (isMode IDLE (notify DRAW_REASON (withDrawData copy d))
           || isMode DRAW (notify DRAW_REASON (withDrawData copy d)))
    with (isMode IDLE d || isMode DRAW d) by reflexivity.
  rewrite Hmode. cbn [negb].
  unfold drawError.
  rewrite Hagain, Hoff.
  cbn [drawData notify withCore withDrawData].
  rewrite Hcopy.
  split; [reflexivity|]. split; [reflexivity|].
  cbn [snd drawData notify withCore withDrawData].
  destruct (initialState off); [reflexivity|exact Hoff].
Qed.

(** X25: [split], [group] and [merge], when they return, leave the flag
    requested and notify exactly when that changes the flag: repeating
    a request is silent. *)
Theorem split_group_merge_on_change (requested : bool) (d : Data) :
  (fst (split requested d) = Done ->
   splitData (snd (split requested d)) = requested
   /\ notified (snd (split requested d))
      = notified d ++ (if Bool.eqb (splitData d) requested then [] else [SPLIT_REASON]))
  /\ (fst (group requested d) = Done ->
      groupData (snd (group requested d)) = requested
      /\ notified (snd (group requested d))
         = notified d ++ (if Bool.eqb (groupData d) requested then [] else [GROUP_REASON]))
  /\ (fst (merge requested d) = Done ->
      mergeData (snd (merge requested d)) = requested
      /\ notified (snd (merge requested d))
         = notified d ++ (if Bool.eqb (mergeData d) requested then [] else [MERGE_REASON])).
Proof.
  repeat split.
  - revert H. unfold split. destruct (negb (isMode IDLE d || isMode SPLIT d)); [discriminate|].
    destruct (splitData d) eqn:E, requested; cbn; rewrite ?E; reflexivity.
  - revert H. unfold split. destruct (negb (isMode IDLE d || isMode SPLIT d)); [discriminate|].
    destruct (splitData d) eqn:E, requested; cbn; rewrite ?app_nil_r; reflexivity.
  - revert H. unfold group. destruct (negb (isMode IDLE d || isMode GROUP d)); [discriminate|].
    destruct (groupData d) eqn:E, requested; cbn; rewrite ?E; reflexivity.
  - revert H. unfold group. destruct (negb (isMode IDLE d || isMode GROUP d)); [discriminate|].
    destruct (groupData d) eqn:E, requested; cbn; rewrite ?app_nil_r; reflexivity.
  - revert H. unfold merge. destruct (negb (isMode IDLE d || isMode MERGE d)); [discriminate|].
    destruct (mergeData d) eqn:E, requested; cbn; rewrite ?E; reflexivity.
  - revert H. unfold merge. destruct (negb (isMode IDLE d || isMode MERGE d)); [discriminate|].
    destruct (mergeData d) eqn:E, requested; cbn; rewrite ?app_nil_r; reflexivity.
Qed.

(** *** Frames *)

Lemma setup_imageID (n : Z) (objs : list Z) (d : Data) :
  imageID (setup n objs d) = Some n.
Proof.
  unfold setup. destruct (imageID d) as [c|] eqn:E; [|reflexivity].
  destruct (Z.eqb_spec n c); [|reflexivity].
  subst c. exact E.
Qed.

(** X26: frame data that arrive after another frame has been set up are
    dropped: the model stays as the later [setup] left it. *)
Theorem stale_frame_dropped (n1 n2 : Z) (objs1 objs2 : list Z)
    (frameWidth frameHeight : Q) (data : Z) (d : Data) :
  n1 <> n2 ->
  imageID (setup n2 objs2 (setup n1 objs1 d)) = Some n2
  /\ onFrameData n1 frameWidth frameHeight objs1 data (setup n2 objs2 (setup n1 objs1 d))
     = setup n2 objs2 (setup n1 objs1 d).
Proof.
  intro H. split; [apply setup_imageID|].
  unfold onFrameData. rewrite setup_imageID.
  destruct (Z.eqb_spec n1 n2); [contradiction|reflexivity].
Qed.

Lemma onFrameData_current (n : Z) (objs : list Z) (frameWidth frameHeight : Q)
    (data : Z) (d : Data) :
  imageID d = Some n ->
  angle (onFrameData n frameWidth frameHeight objs data d)
  = (if rememberAngle d then angle d else 0%Z)
  /\ image (onFrameData n frameWidth frameHeight objs data d) = Some data
  /\ imageSize (onFrameData n frameWidth frameHeight objs data d)
     = mkSize frameWidth frameHeight
  /\ objects (onFrameData n frameWidth frameHeight objs data d) = objs
  /\ scale (onFrameData n frameWidth frameHeight objs data d) = scale d
  /\ notified (onFrameData n frameWidth frameHeight objs data d)
     = notified d ++ [IMAGE_CHANGED; OBJECTS_UPDATED].
Proof.
  intro H. unfold onFrameData. rewrite H, Z.eqb_refl.
  destruct (rememberAngle d).
  - split; [reflexivity|]. split; [reflexivity|]. split; [reflexivity|].
    split; [reflexivity|]. split; [reflexivity|].
    transitivity ((notified d ++ [IMAGE_CHANGED]) ++ [OBJECTS_UPDATED]);
      [reflexivity|rewrite <- app_assoc; reflexivity].
  - split; [reflexivity|]. split; [reflexivity|]. split; [reflexivity|].
    split; [reflexivity|]. split; [reflexivity|].
    transitivity ((notified d ++ [IMAGE_CHANGED]) ++ [OBJECTS_UPDATED]);
      [reflexivity|rewrite <- app_assoc; reflexivity].
Qed.

Lemma setup_new_frame (n : Z) (objs : list Z) (d : Data) :
  imageID d <> Some n -> setup n objs d = withImageID (Some n) d.
Proof.
  intro H. unfold setup.
  destruct (imageID d) as [c|]; [|reflexivity].
  destruct (Z.eqb_spec n c); [|reflexivity].
  subst c. contradiction.
Qed.

Lemma rotate_notified (rotation : Rotation) (remember : bool) (d : Data) :
  notified (rotate rotation remember d) = notified d ++ [IMAGE_FITTED].
Proof. reflexivity. Qed.

Lemma rotate_imageID (rotation : Rotation) (remember : bool) (d : Data) :
  imageID (rotate rotation remember d) = imageID d.
Proof. reflexivity. Qed.

Lemma rotate_rememberAngle (rotation : Rotation) (remember : bool) (d : Data) :
  rememberAngle (rotate rotation remember d) = remember.
Proof. reflexivity. Qed.

(** X27: when the data of a newly set up frame arrive, the image, its
    size and the objects are replaced, IMAGE_CHANGED is sent before
    OBJECTS_UPDATED, and the angle left by [rotate] is kept if [rotate]
    was told to remember it and reset to 0 otherwise. *)
Theorem frame_change_angle (rotation : Rotation) (remember : bool) (n : Z)
    (objs : list Z) (frameWidth frameHeight : Q) (data : Z) (d : Data) :
  imageID d <> Some n ->
  let arrived :=
    onFrameData n frameWidth frameHeight objs data
      (setup n objs (rotate rotation remember d)) in
  angle arrived = (if remember then angle (rotate rotation remember d) else 0%Z)
  /\ image arrived = Some data
  /\ imageSize arrived = mkSize frameWidth frameHeight
  /\ objects arrived = objs
  /\ scale arrived = scale (rotate rotation remember d)
  /\ notified arrived = notified d ++ [IMAGE_FITTED; IMAGE_CHANGED; OBJECTS_UPDATED].
Proof.
  intros H arrived. subst arrived.
  rewrite <- (rotate_imageID rotation remember) in H.
  rewrite (setup_new_frame n objs _ H).
  pose proof (rotate_notified rotation remember d) as Hn.
  pose proof (rotate_rememberAngle rotation remember d) as Hr.
  set (d1 := rotate rotation remember d) in *. clearbody d1.
  destruct (onFrameData_current n objs frameWidth frameHeight data
              (withImageID (Some n) d1) eq_refl) as (A & B & C & D & E & F).
  rewrite A, B, C, D, E, F.
  replace (rememberAngle (withImageID (Some n) d1)) with (rememberAngle d1)
    by reflexivity.
  replace (angle (withImageID (Some n) d1)) with (angle d1) by reflexivity.
  replace (scale (withImageID (Some n) d1)) with (scale d1) by reflexivity.
  replace (notified (withImageID (Some n) d1)) with (notified d1) by reflexivity.
  rewrite Hr, Hn, <- app_assoc.
  split; [reflexivity|]. split; [reflexivity|]. split; [reflexivity|].
  split; [reflexivity|]. split; reflexivity.
Qed.

(** *** Geometry *)

(** X28: the geometry written with the setter is the one the getter
    gives back, but for the offset, which the setter takes from the
    canvas size as [fitCanvas] does; so writing back the geometry read
    after [fitCanvas] changes nothing.  The setter notifies nobody. *)
Theorem geometry_round_trip (g : Geometry) (w h : Q) (d : Data) :
  get_geometry (set_geometry g d)
  = mkGeometry (gImage g) (gCanvas g) (gGrid g) (gTop g) (gLeft g) (gScale g)
      (offsetFor (gCanvas g)) (gAngle g)
  /\ set_geometry (get_geometry (fitCanvas w h d)) (fitCanvas w h d) = fitCanvas w h d
  /\ notified (set_geometry g d) = notified d.
Proof. repeat split; reflexivity. Qed.

(** *** The properties on the sample model *)

Lemma scale_stays_in_range_witness :
  (FrameZoom_MIN <= scale (zoom sampleSinPlusCos 400 300 1 sampleData)
   /\ scale (zoom sampleSinPlusCos 400 300 1 sampleData) <= FrameZoom_MAX)
  /\ (FrameZoom_MIN <= scale (fit sampleData) /\ scale (fit sampleData) <= FrameZoom_MAX)
  /\ (FrameZoom_MIN <= scale (rotate CLOCKWISE90 false sampleData)
      /\ scale (rotate CLOCKWISE90 false sampleData) <= FrameZoom_MAX).
Proof.
  split.
  - apply (proj1 (scale_stays_in_range sampleSinPlusCos 400 300 1 CLOCKWISE90 false
                    sampleData));
      vm_compute; discriminate.
  - apply (proj2 (scale_stays_in_range sampleSinPlusCos 400 300 1 CLOCKWISE90 false
                    sampleData));
      vm_compute; discriminate.
Defined.

Lemma zoom_at_limit_witness :
  scale (zoom sampleSinPlusCos 400 300 1 (withPlacement 10 0 0 sampleData)) == 10
  /\ top (zoom sampleSinPlusCos 400 300 1 (withPlacement 10 0 0 sampleData)) == 0
  /\ left (zoom sampleSinPlusCos 400 300 1 (withPlacement 10 0 0 sampleData)) == 0.
Proof.
  apply (zoom_at_limit sampleSinPlusCos 400 300 1 (withPlacement 10 0 0 sampleData)).
  left. split; reflexivity.
Defined.

Lemma onItsSide_half_turns_witness : onItsSide (-180) = false.
Proof. apply (proj2 (onItsSide_half_turns (-180))). exists (-1)%Z. reflexivity. Defined.

Lemma rotate_flips_side_witness :
  Z.rem (angle (rotate ANTICLOCKWISE90 false sampleData)) 90 = 0%Z
  /\ onItsSide (angle (rotate ANTICLOCKWISE90 false sampleData))
     = negb (onItsSide (angle sampleData)).
Proof. apply (rotate_flips_side ANTICLOCKWISE90 false sampleData). reflexivity. Defined.

Lemma dragCanvas_zoomCanvas_exclusive_witness :
  zoomCanvas true (snd (dragCanvas true sampleData))
  = (Threw (Busy DRAG_CANVAS), snd (dragCanvas true sampleData)).
Proof.
  apply (dragCanvas_zoomCanvas_exclusive sampleData). reflexivity.
Defined.

Lemma thrown_means_untouched_witness :
  snd (draw sampleDraw (withMode DRAG sampleData)) = withMode DRAG sampleData.
Proof.
  apply (thrown_means_untouched (withMode DRAG sampleData) (Busy DRAG)). reflexivity.
Defined.

Lemma draw_accepted_witness :
  enabled (drawData sampleData) = false
  /\ drawData (snd (draw sampleDraw sampleData)) = sampleDraw
  /\ (exists t, shapeType sampleDraw = Some t /\ t <> EmptyString)
  /\ (forall n, numberOfPoints sampleDraw = Some n ->
      (shapeType sampleDraw = Some "polygon"%string -> 3 <= n)
      /\ (shapeType sampleDraw = Some "polyline"%string -> 2 <= n))
  /\ mode (snd (draw sampleDraw sampleData)) = mode sampleData
  /\ notified (snd (draw sampleDraw sampleData)) = notified sampleData ++ [DRAW_REASON].
Proof. apply (draw_accepted sampleDraw sampleData); reflexivity. Defined.

Lemma draw_already_started_witness :
  draw sampleDraw (snd (draw sampleDraw sampleData))
  = (Threw DrawingAlreadyStarted, snd (draw sampleDraw sampleData))
  /\ fst (draw sampleStop (snd (draw sampleDraw sampleData))) = Done
  /\ enabled (drawData (snd (draw sampleStop (snd (draw sampleDraw sampleData))))) = false.
Proof.
  apply (draw_already_started sampleDraw sampleDraw sampleStop sampleData); reflexivity.
Defined.

Lemma split_group_merge_on_change_witness :
  splitData (snd (split true sampleData)) = true
  /\ notified (snd (split true sampleData)) = notified sampleData ++ [SPLIT_REASON].
Proof.
  apply (proj1 (split_group_merge_on_change true sampleData)). reflexivity.
Defined.

Lemma stale_frame_dropped_witness :
  imageID (setup 6 [2%Z] (setup 5 [1%Z] sampleData)) = Some 6%Z
  /\ onFrameData 5 1024 768 [1%Z] 50 (setup 6 [2%Z] (setup 5 [1%Z] sampleData))
     = setup 6 [2%Z] (setup 5 [1%Z] sampleData).
Proof.
  apply (stale_frame_dropped 5 6 [1%Z] [2%Z] 1024 768 50 sampleData). discriminate.
Defined.

Lemma frame_change_angle_witness :
  angle (onFrameData 5 1024 768 [1%Z] 50
           (setup 5 [1%Z] (rotate CLOCKWISE90 false sampleData))) = 0%Z
  /\ angle (onFrameData 5 1024 768 [1%Z] 50
              (setup 5 [1%Z] (rotate CLOCKWISE90 true sampleData))) = 90%Z.
Proof.
  split.
  - apply (frame_change_angle CLOCKWISE90 false 5 [1%Z] 1024 768 50 sampleData).
    discriminate.
  - apply (frame_change_angle CLOCKWISE90 true 5 [1%Z] 1024 768 50 sampleData).
    discriminate.
Defined.

End CanvasModelFacts.
